(** * HOA management application: a shallow embedding of its business logic

    The application is a React/TypeScript front end over a hosted Postgres
    (Supabase).  This development embeds the handlers and derived figures of
    its pages as Rocq functions and proves the properties stated about them.

    Conventions.
    - A JavaScript [number] holding a money amount (a [numeric(10,2)] column)
      is an integer [Z] of cents wherever the figures compared are computed
      by the same additions in the same order.  Where additions are
      regrouped (the category roll-up against the page totals) the code is
      embedded over a [Number] structure, whose instance [Binary64.number]
      is the arithmetic in which the page adds.
    - String-literal union types of [lib/supabase.ts] are inductive types.
    - A JavaScript object literal is an ordered association list [Obj].
    - Code that awaits the database runs in the monad [Eff]: it threads the
      component state, records the queries it issues and the messages it
      logs, and may throw.
    - Functions of the JavaScript runtime ([parseFloat], [Date], ...) are the
      fields of a [Runtime] record; [Browser.runtime] is a runtime with the
      Gregorian calendar and a fixed offset from UTC. *)

From Stdlib Require Import ZArith List String Ascii Bool Lia Permutation Sorted.
From Stdlib Require Import DecimalString DecimalZ.
From Stdlib Require PrimFloat Uint63.
Import ListNotations.

Open Scope string_scope.
Open Scope Z_scope.
Open Scope list_scope.

Set Implicit Arguments.

(* ================================================================== *)
(** * Part I. Definitions                                              *)
(* ================================================================== *)

(** ** JavaScript values and objects *)

Inductive Value : Type :=
| VUndefined
| VNull
| VNaN
| VNum (n : Z)
| VStr (s : string).

(** [ToBoolean]. *)
Definition truthy (v : Value) : bool :=
  match v with
  | VUndefined | VNull | VNaN => false
  | VNum n => negb (n =? 0)
  | VStr s => negb (s =? "")%string
  end.

(** [a || b] *)
Definition js_or (a b : Value) : Value := if truthy a then a else b.

(** [a ?? b] *)
Definition nullish (a b : Value) : Value :=
  match a with
  | VUndefined | VNull => b
  | _ => a
  end.

(** [a === b] *)
Definition strict_eq (a b : Value) : bool :=
  match a, b with
  | VUndefined, VUndefined => true
  | VNull, VNull => true
  | VNum x, VNum y => x =? y
  | VStr x, VStr y => (x =? y)%string
  | _, _ => false
  end.

(** A value of type [string | null]. *)
Definition nullable (s : option string) : Value :=
  match s with Some x => VStr x | None => VNull end.

(** A value of type [string | undefined]. *)
Definition optional (s : option string) : Value :=
  match s with Some x => VStr x | None => VUndefined end.

Definition Obj : Type := list (string * Value).

Fixpoint obj_get (o : Obj) (k : string) : Value :=
  match o with
  | [] => VUndefined
  | (k', v) :: o' => if (k' =? k)%string then v else obj_get o' k
  end.

(** [o.k = v]: an existing key keeps its position, a new key goes last. *)
Fixpoint obj_set (o : Obj) (k : string) (v : Value) : Obj :=
  match o with
  | [] => [(k, v)]
  | (k', v') :: o' =>
      if (k' =? k)%string then (k, v) :: o' else (k', v') :: obj_set o' k v
  end.

(** [{ ...o, k1: v1, ..., kn: vn }] *)
Definition obj_extend (o : Obj) (kvs : list (string * Value)) : Obj :=
  fold_left (fun acc kv => obj_set acc (fst kv) (snd kv)) kvs o.

(** [String(n)] for an integer, and for [NaN]. *)
Definition String_of_Z (n : Z) : string := NilZero.string_of_int (Z.to_int n).

Definition String_of_number (n : option Z) : string :=
  match n with Some z => String_of_Z z | None => "NaN" end.

(** [s.replace(c, d)] with a one-character string pattern: only the first
    occurrence is replaced. *)
Fixpoint replace_first (c d : ascii) (s : string) : string :=
  match s with
  | EmptyString => EmptyString
  | String a s' =>
      if Ascii.eqb a c then String d s' else String a (replace_first c d s')
  end.

(** [s.replace(/c/g, d)]: every occurrence is replaced. *)
Fixpoint replace_all (c d : ascii) (s : string) : string :=
  match s with
  | EmptyString => EmptyString
  | String a s' =>
      String (if Ascii.eqb a c then d else a) (replace_all c d s')
  end.

(** [s.padStart(n, c)] with a one-character pad. *)
Fixpoint repeat_char (c : ascii) (n : nat) : string :=
  match n with
  | O => EmptyString
  | S n' => String c (repeat_char c n')
  end.

Definition padStart (n : nat) (c : ascii) (s : string) : string :=
  repeat_char c (n - String.length s) ++ s.

(** [xs.reduce((sum, x) => sum + f(x), 0)] *)
Definition reduce_sum {A : Type} (f : A -> Z) (xs : list A) : Z :=
  fold_left (fun sum x => sum + f x) xs 0.

(** [Array.prototype.sort(cmp)]: a stable sort; [a] stays before [b] unless
    [cmp a b > 0]. *)
Fixpoint sort_insert {A : Type} (cmp : A -> A -> Z) (x : A) (l : list A) : list A :=
  match l with
  | [] => [x]
  | y :: l' => if cmp x y <=? 0 then x :: l else y :: sort_insert cmp x l'
  end.

Definition sort {A : Type} (cmp : A -> A -> Z) (l : list A) : list A :=
  fold_right (sort_insert cmp) [] l.

(** ** The JavaScript runtime *)

(** A [Date] is its time value in milliseconds, [None] for an invalid date. *)
Definition Date : Type := option Z.

Record Runtime : Type := {
  (** [parseFloat(s)] *)
  parseFloat : string -> Value;
  (** the time value of [new Date()] *)
  Date_now : Z;
  (** the time value of [new Date(s)] *)
  Date_parse : string -> Date;
  (** [d.getFullYear()], [d.getMonth()] and [d.getDate()] of a valid date,
      in local time *)
  getFullYear : Z -> Z;
  getMonth : Z -> Z;
  getDate : Z -> Z;
  (** [d.setDate(n)]: the time value of [d] moved to day [n] of its month *)
  setDate : Z -> Z -> Z;
  (** [new Date(y, m, d)]: local midnight *)
  Date_local : Z -> Z -> Z -> Z;
  (** [d.toISOString().split('T')[0]] *)
  isoDay : Z -> string;
  (** [d.toLocaleDateString('en-US', { month: 'short', year: 'numeric' })] *)
  toLocaleMonthYear : Date -> string;
  (** [a.localeCompare(b)] *)
  localeCompare : string -> string -> Z;
}.

(** [new Date(a) >= b] for a valid [b]: a comparison with [NaN] is false. *)
Definition date_geq (a : Date) (b : Z) : bool :=
  match a with Some x => b <=? x | None => false end.

(** ** Entities ([lib/supabase.ts]) *)

Inductive Role : Type := admin | resident.

Inductive MaintenanceCategory : Type :=
| landscaping | pool | security | repairs | utilities | cleaning | other_category.

Inductive MaintenanceStatus : Type := pending | in_progress | completed | cancelled.

Inductive Priority : Type := low | medium | high | urgent.

Inductive TransactionType : Type := t_income | t_expense.

Inductive PaymentType : Type := monthly_dues | special_assessment | fine | other_payment.

Inductive PaymentStatus : Type := p_pending | p_paid | p_overdue | p_cancelled.

Definition MaintenanceCategory_str (c : MaintenanceCategory) : string :=
  match c with
  | landscaping => "landscaping" | pool => "pool" | security => "security"
  | repairs => "repairs" | utilities => "utilities" | cleaning => "cleaning"
  | other_category => "other"
  end.

Definition MaintenanceStatus_str (s : MaintenanceStatus) : string :=
  match s with
  | pending => "pending" | in_progress => "in_progress"
  | completed => "completed" | cancelled => "cancelled"
  end.

Definition Priority_str (p : Priority) : string :=
  match p with
  | low => "low" | medium => "medium" | high => "high" | urgent => "urgent"
  end.

Definition TransactionType_str (t : TransactionType) : string :=
  match t with t_income => "income" | t_expense => "expense" end.

Definition PaymentType_str (t : PaymentType) : string :=
  match t with
  | monthly_dues => "monthly_dues" | special_assessment => "special_assessment"
  | fine => "fine" | other_payment => "other"
  end.

Definition PaymentStatus_str (s : PaymentStatus) : string :=
  match s with
  | p_pending => "pending" | p_paid => "paid"
  | p_overdue => "overdue" | p_cancelled => "cancelled"
  end.

Definition Role_str (r : Role) : string :=
  match r with admin => "admin" | resident => "resident" end.

Record Property : Type := {
  prop_id : string;
  prop_unit_number : string;
  prop_address : string;
  prop_owner_id : option string;
}.

Record MaintenanceRequest : Type := {
  mr_id : string;
  mr_title : string;
  mr_description : option string;
  mr_category : MaintenanceCategory;
  mr_status : MaintenanceStatus;
  mr_priority : Priority;
  mr_assigned_vendor : option string;
  mr_requested_by : option string;
  mr_estimated_cost : option Z;
  mr_scheduled_date : option string;
}.

Record Transaction : Type := {
  tx_id : string;
  tx_type : TransactionType;
  tx_category : string;
  tx_amount : Z;
  tx_transaction_date : string;
}.

(** [Payment], with the joined [properties(unit_number, address)] of
    [PaymentWithProperty] reduced to the one field the code reads. *)
Record Payment : Type := {
  pay_id : string;
  pay_property_id : string;
  pay_amount : Z;
  pay_payment_type : PaymentType;
  pay_status : PaymentStatus;
  pay_payment_method : option string;
  pay_properties_unit_number : option string;
}.

(** The authenticated user of [useAuth()]. *)
Record User : Type := { user_id : string }.

Record Auth : Type := {
  user : option User;
  isAdmin : bool;
}.

(** [user?.id] *)
Definition user_id_opt (u : option User) : Value :=
  match u with Some x => VStr (user_id x) | None => VUndefined end.

(** ** Queries of the database client *)

Inductive Filter : Type :=
| FEq (column : string) (v : Value)
| FIn (column : string) (vs : list Value).

Inductive Verb : Type :=
| Select (columns : string)
| Insert (row : Obj)
| Update (row : Obj)
| Delete.

Record Query : Type := {
  q_table : string;
  q_verb : Verb;
  q_filters : list Filter;
  q_order : option (string * bool);
  q_limit : option nat;
}.

(** [supabase.from(t).select(..)], [.insert(..)], [.update(..)], [.delete()] *)
Definition from (t : string) (v : Verb) : Query :=
  {| q_table := t; q_verb := v; q_filters := []; q_order := None; q_limit := None |}.

Definition eq_ (c : string) (v : Value) (q : Query) : Query :=
  {| q_table := q_table q; q_verb := q_verb q;
     q_filters := q_filters q ++ [FEq c v];
     q_order := q_order q; q_limit := q_limit q |}.

Definition in_ (c : string) (vs : list Value) (q : Query) : Query :=
  {| q_table := q_table q; q_verb := q_verb q;
     q_filters := q_filters q ++ [FIn c vs];
     q_order := q_order q; q_limit := q_limit q |}.

Definition order_ (c : string) (ascending : bool) (q : Query) : Query :=
  {| q_table := q_table q; q_verb := q_verb q; q_filters := q_filters q;
     q_order := Some (c, ascending); q_limit := q_limit q |}.

Definition limit_ (n : nat) (q : Query) : Query :=
  {| q_table := q_table q; q_verb := q_verb q; q_filters := q_filters q;
     q_order := q_order q; q_limit := Some n |}.

Notation "q '|>' f" := (f q) (at level 45, left associativity, only parsing).

(** The [{ data, error }] a query resolves to. *)
Record Response (A : Type) : Type := {
  data : option (list A);
  error : option string;
}.

(** The database as the client sees it: what each query resolves to for the
    current caller, row-level security included. *)
Record Supabase : Type := {
  select_requests : Query -> Response MaintenanceRequest;
  select_payments : Query -> Response Payment;
  select_properties : Query -> Response Property;
  select_transactions : Query -> Response Transaction;
  mutate : Query -> option string;
}.

(** [data || []] *)
Definition data_or_empty {A : Type} (d : option (list A)) : list A :=
  match d with Some l => l | None => [] end.

(** ** The effect monad of the handlers *)

Inductive Event : Type :=
| Db (q : Query)
| ConsoleError (label : string) (err : string)
| Call (callback : string).

Inductive Outcome (A : Type) : Type :=
| Returned (a : A)
| Thrown (err : string).

Arguments Thrown {A} err.

(** A computation over component state [S]. *)
Definition Eff (S A : Type) : Type := S -> list Event * S * Outcome A.

Definition ret {S A : Type} (a : A) : Eff S A :=
  fun s => ([], s, Returned a).

Definition bind {S A B : Type} (m : Eff S A) (k : A -> Eff S B) : Eff S B :=
  fun s =>
    match m s with
    | (tr, s1, Returned a) =>
        match k a s1 with (tr', s2, o) => (tr ++ tr', s2, o) end
    | (tr, s1, Thrown e) => (tr, s1, Thrown e)
    end.

Notation "x <- m ;; k" := (bind m (fun x => k))
  (at level 61, m at next level, right associativity).
Notation "m ;;; k" := (bind m (fun _ => k))
  (at level 61, right associativity).

Definition throw {S A : Type} (e : string) : Eff S A :=
  fun s => ([], s, Thrown e).

Definition emit {S : Type} (ev : Event) : Eff S unit :=
  fun s => ([ev], s, Returned tt).

Definition modify {S : Type} (f : S -> S) : Eff S unit :=
  fun s => ([], f s, Returned tt).

Definition get_state {S : Type} : Eff S S :=
  fun s => ([], s, Returned s).

(** [try { m } catch (e) { h e }] *)
Definition try_catch {S A : Type} (m : Eff S A) (h : string -> Eff S A) : Eff S A :=
  fun s =>
    match m s with
    | (tr, s1, Returned a) => (tr, s1, Returned a)
    | (tr, s1, Thrown e) =>
        match h e s1 with (tr', s2, o) => (tr ++ tr', s2, o) end
    end.

(** [try { m } finally { f }], for an [f] that does not throw. *)
Definition finally {S A : Type} (m : Eff S A) (f : Eff S unit) : Eff S A :=
  fun s =>
    match m s with
    | (tr, s1, o) =>
        match f s1 with (tr', s2, _) => (tr ++ tr', s2, o) end
    end.

(** [if (error) throw error] *)
Definition throw_if {S : Type} (error : option string) : Eff S unit :=
  match error with Some e => throw e | None => ret tt end.

(** [await query] for a mutation: only [error] is read. *)
Definition await_mutation {S : Type} (db : Supabase) (q : Query) : Eff S (option string) :=
  fun s => ([Db q], s, Returned (mutate db q)).

(** [await query] for a select on a table with rows of type [A]. *)
Definition await_select {S A : Type} (run : Query -> Response A) (q : Query)
  : Eff S (Response A) :=
  fun s => ([Db q], s, Returned (run q)).

(** The queries a run issued, and the errors it logged. *)
Fixpoint queries_of (tr : list Event) : list Query :=
  match tr with
  | [] => []
  | Db q :: tr' => q :: queries_of tr'
  | _ :: tr' => queries_of tr'
  end.

Fixpoint errors_of (tr : list Event) : list string :=
  match tr with
  | [] => []
  | ConsoleError _ e :: tr' => e :: errors_of tr'
  | _ :: tr' => errors_of tr'
  end.

Definition trace {S A : Type} (r : list Event * S * Outcome A) : list Event :=
  fst (fst r).

Definition final_state {S A : Type} (r : list Event * S * Outcome A) : S :=
  snd (fst r).

Definition outcome {S A : Type} (r : list Event * S * Outcome A) : Outcome A :=
  snd r.

(** ** Maintenance page ([components/Maintenance/MaintenanceList.tsx]) *)

Module MaintenanceList.

(** State of the [MaintenanceList] component. *)
Record State : Type := {
  requests : list MaintenanceRequest;
  loading : bool;
  showForm : bool;
  editingRequest : option MaintenanceRequest;
  deleteConfirmId : option string;
}.

Definition setRequests (rs : list MaintenanceRequest) (s : State) : State :=
  {| requests := rs; loading := loading s; showForm := showForm s;
     editingRequest := editingRequest s; deleteConfirmId := deleteConfirmId s |}.

Definition setLoading (b : bool) (s : State) : State :=
  {| requests := requests s; loading := b; showForm := showForm s;
     editingRequest := editingRequest s; deleteConfirmId := deleteConfirmId s |}.

Definition setDeleteConfirmId (i : option string) (s : State) : State :=
  {| requests := requests s; loading := loading s; showForm := showForm s;
     editingRequest := editingRequest s; deleteConfirmId := i |}.

(** The query [loadRequests] builds for a signed-in user. *)
Definition loadRequests_query (isAdmin : bool) (u : User) : Query :=
  let query :=
    from "maintenance_requests" (Select "*") |> order_ "created_at" false in
  (* Admin sees all requests, user only their own *)
  if negb isAdmin then query |> eq_ "requested_by" (VStr (user_id u)) else query.

Definition loadRequests (auth : Auth) (db : Supabase) : Eff State unit :=
  match user auth with
  | None =>
      modify (setRequests []) ;;;
      modify (setLoading false)
  | Some u =>
      finally
        (try_catch
           (r <- await_select (select_requests db)
                   (loadRequests_query (isAdmin auth) u) ;;
            throw_if (error r) ;;;
            modify (setRequests (data_or_empty (data r))))
           (fun e => emit (ConsoleError "Error loading maintenance requests:" e)))
        (modify (setLoading false))
  end.

(** The query [handleDelete] builds. *)
Definition handleDelete_query (auth : Auth) (id : string) : Query :=
  let query := from "maintenance_requests" Delete |> eq_ "id" (VStr id) in
  if negb (isAdmin auth)
  then query |> eq_ "requested_by" (user_id_opt (user auth))
             |> eq_ "status" (VStr "pending")
  else query.

Definition handleDelete (auth : Auth) (db : Supabase) (id : string)
  : Eff State unit :=
  try_catch
    (error <- await_mutation db (handleDelete_query auth id) ;;
     throw_if error ;;;
     s <- get_state ;;
     modify (setRequests
               (filter (fun req => negb (mr_id req =? id)%string) (requests s))) ;;;
     modify (setDeleteConfirmId None))
    (fun e => emit (ConsoleError "Error deleting maintenance request:" e)).

(** The guard under which a row shows its edit and delete buttons. *)
Definition canModify (auth : Auth) (request : MaintenanceRequest) : bool :=
  isAdmin auth ||
  match user auth with
  | Some u =>
      strict_eq (nullable (mr_requested_by request)) (VStr (user_id u))
      && (MaintenanceStatus_str (mr_status request) =? "pending")%string
  | None => false
  end.

End MaintenanceList.

Module MaintenanceForm.

Record FormData : Type := {
  title : string;
  description : string;
  category : MaintenanceCategory;
  priority : Priority;
  status : MaintenanceStatus;
  estimated_cost : string;
  scheduled_date : string;
  assigned_vendor : string;
}.

Record State : Type := {
  formData : FormData;
  loading : bool;
}.

Definition setLoading (b : bool) (s : State) : State :=
  {| formData := formData s; loading := b |}.

Definition or_empty (s : option string) : string :=
  match s with Some x => x | None => "" end.

(** The initial [useState] value of the form. *)
Definition initialFormData (editingRequest : option MaintenanceRequest) : FormData :=
  match editingRequest with
  | Some r =>
      {| title := mr_title r;
         description := or_empty (mr_description r);
         category := mr_category r;
         priority := mr_priority r;
         status := mr_status r;
         estimated_cost := or_empty (option_map String_of_Z (mr_estimated_cost r));
         scheduled_date := or_empty (mr_scheduled_date r);
         assigned_vendor := or_empty (mr_assigned_vendor r) |}
  | None =>
      {| title := ""; description := ""; category := repairs;
         priority := medium; status := pending; estimated_cost := "";
         scheduled_date := ""; assigned_vendor := "" |}
  end.

(** [{ ...formData }] *)
Definition spread (fd : FormData) : Obj :=
  [ ("title", VStr (title fd));
    ("description", VStr (description fd));
    ("category", VStr (MaintenanceCategory_str (category fd)));
    ("priority", VStr (Priority_str (priority fd)));
    ("status", VStr (MaintenanceStatus_str (status fd)));
    ("estimated_cost", VStr (estimated_cost fd));
    ("scheduled_date", VStr (scheduled_date fd));
    ("assigned_vendor", VStr (assigned_vendor fd)) ].

(** [editingRequest?.requested_by] *)
Definition requested_by_of (editingRequest : option MaintenanceRequest) : Value :=
  match editingRequest with
  | Some r => nullable (mr_requested_by r)
  | None => VUndefined
  end.

(** The [payload] of [handleSubmit]. *)
Definition payload (rt : Runtime) (auth : Auth)
    (editingRequest : option MaintenanceRequest) (fd : FormData) : Obj :=
  obj_extend (spread fd)
    [ ("estimated_cost",
        if isAdmin auth
        then (if truthy (VStr (estimated_cost fd))
              then parseFloat rt (estimated_cost fd) else VNull)
        else VNull);
      ("scheduled_date",
        if isAdmin auth then js_or (VStr (scheduled_date fd)) VNull else VNull);
      ("assigned_vendor",
        if isAdmin auth then js_or (VStr (assigned_vendor fd)) VNull else VNull);
      (* Always keep requested_by as the original requester when editing *)
      ("requested_by",
        nullish (requested_by_of editingRequest) (user_id_opt (user auth)));
      ("status",
        if isAdmin auth then VStr (MaintenanceStatus_str (status fd))
        else VStr "pending") ].

(** The condition under which an edit is sent. *)
Definition mayUpdate (auth : Auth) (r : MaintenanceRequest) : bool :=
  isAdmin auth ||
  (strict_eq (user_id_opt (user auth)) (nullable (mr_requested_by r))
   && (MaintenanceStatus_str (mr_status r) =? "pending")%string).

Definition update_query (auth : Auth) (r : MaintenanceRequest) (p : Obj) : Query :=
  let query :=
    from "maintenance_requests" (Update p) |> eq_ "id" (VStr (mr_id r)) in
  if negb (isAdmin auth)
  then query |> eq_ "requested_by" (user_id_opt (user auth))
             |> eq_ "status" (VStr "pending")
  else query.

Definition permission_error : string :=
  "You do not have permission to update this request.".

Definition handleSubmit (rt : Runtime) (auth : Auth) (db : Supabase)
    (editingRequest : option MaintenanceRequest) : Eff State unit :=
  modify (setLoading true) ;;;
  finally
    (try_catch
       (s <- get_state ;;
        let p := payload rt auth editingRequest (formData s) in
        match editingRequest with
        | Some r =>
            (* Only allow update if user is admin or request belongs to
               user AND status is pending *)
            if mayUpdate auth r
            then error <- await_mutation db (update_query auth r p) ;;
                 throw_if error
            else throw permission_error
        | None =>
            (* Create new request *)
            error <- await_mutation db (from "maintenance_requests" (Insert p)) ;;
            throw_if error
        end ;;;
        emit (Call "onSuccess") ;;;
        emit (Call "onClose"))
       (fun e => emit (ConsoleError "Error saving maintenance request:" e)))
    (modify (setLoading false)).

End MaintenanceForm.

(** ** Payments page ([components/Payments/PaymentPortal.tsx]) *)

(** The mutations among the issued queries. *)
Definition is_mutation (q : Query) : bool :=
  match q_verb q with Select _ => false | _ => true end.

Definition mutations_of (tr : list Event) : list Query :=
  filter is_mutation (queries_of tr).

Definition PaymentStatus_eqb (a b : PaymentStatus) : bool :=
  (PaymentStatus_str a =? PaymentStatus_str b)%string.

Definition PaymentType_eqb (a b : PaymentType) : bool :=
  (PaymentType_str a =? PaymentType_str b)%string.

Definition TransactionType_eqb (a b : TransactionType) : bool :=
  (TransactionType_str a =? TransactionType_str b)%string.

(** The first document of the file: the portal with payment methods. *)
Module PaymentPortal.

Record State : Type := {
  payments : list Payment;
  properties : list Property;
  loading : bool;
}.

Definition setPayments (ps : list Payment) (s : State) : State :=
  {| payments := ps; properties := properties s; loading := loading s |}.

Definition setProperties (ps : list Property) (s : State) : State :=
  {| payments := payments s; properties := ps; loading := loading s |}.

Definition setLoading (b : bool) (s : State) : State :=
  {| payments := payments s; properties := properties s; loading := b |}.

Definition admin_payments_query : Query :=
  from "payments" (Select "*, properties(unit_number, address)")
    |> order_ "due_date" false.

Definition admin_properties_query : Query :=
  from "properties" (Select "*") |> order_ "unit_number" true.

Definition user_properties_query (auth : Auth) : Query :=
  from "properties" (Select "*") |> eq_ "owner_id" (user_id_opt (user auth)).

Definition user_payments_query (propertyIds : list string) : Query :=
  from "payments" (Select "*")
    |> in_ "property_id" (map VStr propertyIds)
    |> order_ "due_date" false.

Definition loadData (auth : Auth) (db : Supabase) : Eff State unit :=
  finally
    (try_catch
       (if isAdmin auth
        then
          paymentsRes <- await_select (select_payments db) admin_payments_query ;;
          propertiesRes <- await_select (select_properties db) admin_properties_query ;;
          throw_if (error paymentsRes) ;;;
          throw_if (error propertiesRes) ;;;
          modify (setPayments (data_or_empty (data paymentsRes))) ;;;
          modify (setProperties (data_or_empty (data propertiesRes)))
        else
          propRes <- await_select (select_properties db) (user_properties_query auth) ;;
          throw_if (error propRes) ;;;
          modify (setProperties (data_or_empty (data propRes))) ;;;
          match data propRes with
          | Some (p :: ps) =>
              let propertyIds := map prop_id (p :: ps) in
              payRes <- await_select (select_payments db)
                          (user_payments_query propertyIds) ;;
              throw_if (error payRes) ;;;
              modify (setPayments (data_or_empty (data payRes)))
          | _ => ret tt
          end)
       (fun e => emit (ConsoleError "Error loading data:" e)))
    (modify (setLoading false)).

(** [new Date().toISOString().split('T')[0]] *)
Definition today (rt : Runtime) : string := isoDay rt (Date_now rt).

(** [updateData] *)
Definition updateData (rt : Runtime) (status : string)
    (paymentMethod : option string) : Obj :=
  let updateData := [("status", VStr status)] in
  if (status =? "paid")%string
  then
    let updateData := obj_set updateData "payment_date" (VStr (today rt)) in
    if truthy (optional paymentMethod)
    then obj_set updateData "payment_method" (optional paymentMethod)
    else updateData
  else updateData.

Definition update_query (rt : Runtime) (paymentId status : string)
    (paymentMethod : option string) : Query :=
  from "payments" (Update (updateData rt status paymentMethod))
    |> eq_ "id" (VStr paymentId).

(** The row inserted into [transactions] for a paid [payment]. *)
Definition ledger_row (rt : Runtime) (auth : Auth) (payment : Payment)
    (paymentMethod : option string) : Obj :=
  [ ("type", VStr "income");
    ("category",
      if PaymentType_eqb (pay_payment_type payment) monthly_dues
      then VStr "hoa_fees" else VStr "other_income");
    ("amount", VNum (pay_amount payment));
    ("description",
      VStr ("Payment for "
            ++ replace_first "_" " " (PaymentType_str (pay_payment_type payment))
            ++ " - "
            ++ match js_or (optional (pay_properties_unit_number payment))
                       (VStr "Property") with
               | VStr s => s
               | _ => "Property"
               end));
    ("transaction_date", VStr (today rt));
    ("property_id", VStr (pay_property_id payment));
    ("payment_method",
      js_or (optional paymentMethod) (nullable (pay_payment_method payment)));
    ("created_by", user_id_opt (user auth)) ].

Definition handlePaymentStatusUpdate (rt : Runtime) (auth : Auth) (db : Supabase)
    (paymentId status : string) (paymentMethod : option string)
  : Eff State unit :=
  try_catch
    (error <- await_mutation db (update_query rt paymentId status paymentMethod) ;;
     throw_if error ;;;
     s <- get_state ;;
     match find (fun p => (pay_id p =? paymentId)%string) (payments s) with
     | Some payment =>
         if (status =? "paid")%string
         then _ <- await_mutation db
                     (from "transactions"
                        (Insert (ledger_row rt auth payment paymentMethod))) ;;
              ret tt
         else ret tt
     | None => ret tt
     end ;;;
     emit (Call "loadData"))
    (fun e => emit (ConsoleError "Error updating payment:" e)).

Definition totalPending (payments : list Payment) : Z :=
  reduce_sum pay_amount
    (filter (fun p => PaymentStatus_eqb (pay_status p) p_pending
                      || PaymentStatus_eqb (pay_status p) p_overdue) payments).

Definition totalPaid (payments : list Payment) : Z :=
  reduce_sum pay_amount
    (filter (fun p => PaymentStatus_eqb (pay_status p) p_paid) payments).

End PaymentPortal.

(** The second document of the file: the portal without payment methods. *)
Module PaymentPortal2.

Definition State : Type := PaymentPortal.State.

Definition updateData (rt : Runtime) (status : string) : Obj :=
  let updateData := [("status", VStr status)] in
  if (status =? "paid")%string
  then obj_set updateData "payment_date" (VStr (PaymentPortal.today rt))
  else updateData.

Definition update_query (rt : Runtime) (paymentId status : string) : Query :=
  from "payments" (Update (updateData rt status)) |> eq_ "id" (VStr paymentId).

Definition handlePaymentStatusUpdate (rt : Runtime) (db : Supabase)
    (paymentId status : string) : Eff State unit :=
  try_catch
    (error <- await_mutation db (update_query rt paymentId status) ;;
     throw_if error ;;;
     emit (Call "loadPayments"))
    (fun e => emit (ConsoleError "Error updating payment:" e)).

Definition totalPending (payments : list Payment) : Z :=
  reduce_sum pay_amount
    (filter (fun p => PaymentStatus_eqb (pay_status p) p_pending
                      || PaymentStatus_eqb (pay_status p) p_overdue) payments).

End PaymentPortal2.

(** ** The hosted database, as far as the pages rely on what it computes *)

Module Postgres.

(** The rows of each table that row-level security lets the caller read. *)
Record Tables : Type := {
  maintenance_requests : list MaintenanceRequest;
  payments : list Payment;
  properties : list Property;
  transactions : list Transaction;
}.

Definition request_column (r : MaintenanceRequest) (c : string) : Value :=
  if (c =? "id")%string then VStr (mr_id r)
  else if (c =? "status")%string then VStr (MaintenanceStatus_str (mr_status r))
  else if (c =? "requested_by")%string then nullable (mr_requested_by r)
  else VUndefined.

Definition payment_column (p : Payment) (c : string) : Value :=
  if (c =? "id")%string then VStr (pay_id p)
  else if (c =? "property_id")%string then VStr (pay_property_id p)
  else if (c =? "amount")%string then VNum (pay_amount p)
  else if (c =? "payment_type")%string then VStr (PaymentType_str (pay_payment_type p))
  else if (c =? "status")%string then VStr (PaymentStatus_str (pay_status p))
  else if (c =? "payment_method")%string then nullable (pay_payment_method p)
  else VUndefined.

Definition property_column (p : Property) (c : string) : Value :=
  if (c =? "id")%string then VStr (prop_id p)
  else if (c =? "unit_number")%string then VStr (prop_unit_number p)
  else if (c =? "address")%string then VStr (prop_address p)
  else if (c =? "owner_id")%string then nullable (prop_owner_id p)
  else VUndefined.

Definition transaction_column (t : Transaction) (c : string) : Value :=
  if (c =? "id")%string then VStr (tx_id t)
  else if (c =? "type")%string then VStr (TransactionType_str (tx_type t))
  else if (c =? "category")%string then VStr (tx_category t)
  else if (c =? "amount")%string then VNum (tx_amount t)
  else if (c =? "transaction_date")%string then VStr (tx_transaction_date t)
  else VUndefined.

(** SQL [=] of the filter [.eq(column, v)]: never true of [NULL]. *)
Definition sql_eq (a b : Value) : bool :=
  match a with
  | VNull | VUndefined | VNaN => false
  | _ => strict_eq a b
  end.

Definition matches {A : Type} (col : A -> string -> Value) (row : A) (f : Filter)
  : bool :=
  match f with
  | FEq c v => sql_eq (col row c) v
  | FIn c vs => existsb (sql_eq (col row c)) vs
  end.

(** [ORDER BY]: values of one column compared, [NULL] last. *)
Definition value_cmp (a b : Value) : Z :=
  match a, b with
  | VNum x, VNum y =>
      match Z.compare x y with Lt => -1 | Eq => 0 | Gt => 1 end
  | VStr x, VStr y =>
      match String.compare x y with Lt => -1 | Eq => 0 | Gt => 1 end
  | (VNum _ | VStr _), _ => -1
  | _, (VNum _ | VStr _) => 1
  | _, _ => 0
  end.

Definition ordered {A : Type} (col : A -> string -> Value)
    (o : option (string * bool)) (rows : list A) : list A :=
  match o with
  | None => rows
  | Some (c, true) => sort (fun a b => value_cmp (col a c) (col b c)) rows
  | Some (c, false) => sort (fun a b => value_cmp (col b c) (col a c)) rows
  end.

Definition limited {A : Type} (l : option nat) (rows : list A) : list A :=
  match l with Some n => firstn n rows | None => rows end.

(** A [select]: [WHERE], then [ORDER BY], then [LIMIT]. *)
Definition run_select {A : Type} (col : A -> string -> Value) (rows : list A)
    (q : Query) : Response A :=
  {| data :=
       Some (limited (q_limit q)
               (ordered col (q_order q)
                  (filter (fun row => forallb (matches col row) (q_filters q)) rows)));
     error := None |}.

(** The client of a database holding [t]; [failure] is the error, if any,
    a mutation comes back with. *)
Definition client (t : Tables) (failure : Query -> option string) : Supabase :=
  {| select_requests := run_select request_column (maintenance_requests t);
     select_payments := run_select payment_column (payments t);
     select_properties := run_select property_column (properties t);
     select_transactions := run_select transaction_column (transactions t);
     mutate := failure |}.

End Postgres.

(** ** Dashboard page *)

Module Dashboard.

Record DashboardStats : Type := {
  totalIncome : Z;
  totalExpenses : Z;
  balance : Z;
  pendingPayments : Z;
  upcomingMaintenance : Z;
  activeMaintenance : Z;
}.

Record State : Type := {
  stats : DashboardStats;
  recentTransactions : list Transaction;
  recentMaintenance : list MaintenanceRequest;
  loading : bool;
}.

Definition initialState : State :=
  {| stats := {| totalIncome := 0; totalExpenses := 0; balance := 0;
                 pendingPayments := 0; upcomingMaintenance := 0;
                 activeMaintenance := 0 |};
     recentTransactions := []; recentMaintenance := []; loading := true |}.

Definition setStats (x : DashboardStats) (s : State) : State :=
  {| stats := x; recentTransactions := recentTransactions s;
     recentMaintenance := recentMaintenance s; loading := loading s |}.

Definition setRecentTransactions (x : list Transaction) (s : State) : State :=
  {| stats := stats s; recentTransactions := x;
     recentMaintenance := recentMaintenance s; loading := loading s |}.

Definition setRecentMaintenance (x : list MaintenanceRequest) (s : State) : State :=
  {| stats := stats s; recentTransactions := recentTransactions s;
     recentMaintenance := x; loading := loading s |}.

Definition setLoading (b : bool) (s : State) : State :=
  {| stats := stats s; recentTransactions := recentTransactions s;
     recentMaintenance := recentMaintenance s; loading := b |}.

Definition transactions_query : Query :=
  from "transactions" (Select "*") |> order_ "transaction_date" false.

Definition payments_query : Query :=
  from "payments" (Select "*") |> eq_ "status" (VStr "pending").

Definition maintenance_query : Query :=
  from "maintenance_requests" (Select "*")
    |> order_ "created_at" false |> limit_ 5.

Definition count_status (st : MaintenanceStatus) (ms : list MaintenanceRequest) : Z :=
  Z.of_nat (List.length
    (filter (fun m => (MaintenanceStatus_str (mr_status m)
                       =? MaintenanceStatus_str st)%string) ms)).

Definition loadDashboardData (db : Supabase) : Eff State unit :=
  finally
    (try_catch
       (tr <- await_select (select_transactions db) transactions_query ;;
        pr <- await_select (select_payments db) payments_query ;;
        mr <- await_select (select_requests db) maintenance_query ;;
        let transactions := data_or_empty (data tr) in
        let payments := data_or_empty (data pr) in
        let maintenance := data_or_empty (data mr) in
        let totalIncome :=
          reduce_sum tx_amount
            (filter (fun t => TransactionType_eqb (tx_type t) t_income) transactions) in
        let totalExpenses :=
          reduce_sum tx_amount
            (filter (fun t => TransactionType_eqb (tx_type t) t_expense) transactions) in
        let activeMaintenance := count_status in_progress maintenance in
        let upcomingMaintenance := count_status pending maintenance in
        modify (setStats
                  {| totalIncome := totalIncome;
                     totalExpenses := totalExpenses;
                     balance := totalIncome - totalExpenses;
                     pendingPayments := reduce_sum pay_amount payments;
                     upcomingMaintenance := upcomingMaintenance;
                     activeMaintenance := activeMaintenance |}) ;;;
        modify (setRecentTransactions (firstn 5 transactions)) ;;;
        modify (setRecentMaintenance maintenance))
       (fun e => emit (ConsoleError "Error loading dashboard data:" e)))
    (modify (setLoading false)).

End Dashboard.

(** ** JavaScript [Map] with string keys: entries in insertion order *)

Definition JsMap (V : Type) : Type := list (string * V).

Fixpoint map_has {V : Type} (m : JsMap V) (k : string) : bool :=
  match m with
  | [] => false
  | (k', _) :: m' => (k' =? k)%string || map_has m' k
  end.

Fixpoint map_get {V : Type} (m : JsMap V) (k : string) : option V :=
  match m with
  | [] => None
  | (k', v) :: m' => if (k' =? k)%string then Some v else map_get m' k
  end.

(** [m.set(k, v)] *)
Fixpoint map_set {V : Type} (m : JsMap V) (k : string) (v : V) : JsMap V :=
  match m with
  | [] => [(k, v)]
  | (k', v') :: m' =>
      if (k' =? k)%string then (k', v) :: m' else (k', v') :: map_set m' k v
  end.

(** [const data = m.get(k)!; data.f = ...]: the object held under [k] is
    updated in place. *)
Fixpoint map_mutate {V : Type} (m : JsMap V) (k : string) (f : V -> V) : JsMap V :=
  match m with
  | [] => []
  | (k', v) :: m' =>
      if (k' =? k)%string then (k', f v) :: m' else (k', v) :: map_mutate m' k f
  end.

(** [Array.from(m.keys())] *)
Definition keys {V : Type} (m : JsMap V) : list string := map fst m.

(** ** Reports page ([components/Reports/ReportsPage]) *)

Module ReportsPage.

Inductive DateRange : Type := d30 | d90 | d180 | d365.

(** [parseInt(dateRange)] *)
Definition parseInt (r : DateRange) : Z :=
  match r with d30 => 30 | d90 => 90 | d180 => 180 | d365 => 365 end.

Record MonthlyData : Type := {
  month : string;
  income : Z;
  expenses : Z;
  net : Z;
}.

Record CategoryData : Type := {
  category : string;
  amount : Z;
  count : Z;
}.

Record MonthTotals : Type := { mt_income : Z; mt_expenses : Z }.

Record CategoryTotals : Type := { ct_amount : Z; ct_count : Z }.

Section WithState.

Variable rt : Runtime.
(** The component state read by the derived figures. *)
Variable transactions : list Transaction.
Variable dateRange : DateRange.

Definition filterTransactionsByDateRange (transactions : list Transaction)
  : list Transaction :=
  let daysAgo :=
    setDate rt (Date_now rt) (getDate rt (Date_now rt) - parseInt dateRange) in
  filter (fun t => date_geq (Date_parse rt (tx_transaction_date t)) daysAgo)
         transactions.

(** The [monthKey] of a transaction. *)
Definition monthKey (t : Transaction) : string :=
  let date := Date_parse rt (tx_transaction_date t) in
  String_of_number (option_map (getFullYear rt) date)
  ++ "-"
  ++ padStart 2 "0"
       (String_of_number (option_map (fun d => getMonth rt d + 1) date)).

(** One turn of the [forEach] of [getMonthlyData]. *)
Definition monthly_step (monthlyMap : JsMap MonthTotals) (t : Transaction)
  : JsMap MonthTotals :=
  let monthKey := monthKey t in
  let monthlyMap :=
    if negb (map_has monthlyMap monthKey)
    then map_set monthlyMap monthKey {| mt_income := 0; mt_expenses := 0 |}
    else monthlyMap in
  map_mutate monthlyMap monthKey
    (fun data =>
       if TransactionType_eqb (tx_type t) t_income
       then {| mt_income := mt_income data + tx_amount t;
               mt_expenses := mt_expenses data |}
       else {| mt_income := mt_income data;
               mt_expenses := mt_expenses data + tx_amount t |}).

Definition monthlyMap_of (filteredTransactions : list Transaction)
  : JsMap MonthTotals :=
  fold_left monthly_step filteredTransactions [].

(** The label of a month key. *)
Definition monthLabel (month : string) : string :=
  toLocaleMonthYear rt (Date_parse rt (month ++ "-01")).

Definition monthly_entry (e : string * MonthTotals) : MonthlyData :=
  let (month, data) := e in
  {| month := monthLabel month;
     income := mt_income data;
     expenses := mt_expenses data;
     net := mt_income data - mt_expenses data |}.

Definition getMonthlyData : list MonthlyData :=
  let filteredTransactions := filterTransactionsByDateRange transactions in
  let monthlyMap := monthlyMap_of filteredTransactions in
  sort (fun a b => localeCompare rt (month a) (month b))
       (map monthly_entry monthlyMap).

(** One turn of the [forEach] of [getCategoryData]. *)
Definition category_step (categoryMap : JsMap CategoryTotals) (t : Transaction)
  : JsMap CategoryTotals :=
  let categoryMap :=
    if negb (map_has categoryMap (tx_category t))
    then map_set categoryMap (tx_category t) {| ct_amount := 0; ct_count := 0 |}
    else categoryMap in
  map_mutate categoryMap (tx_category t)
    (fun data => {| ct_amount := ct_amount data + tx_amount t;
                    ct_count := ct_count data + 1 |}).

Definition categoryMap_of (filteredTransactions : list Transaction)
  : JsMap CategoryTotals :=
  fold_left category_step filteredTransactions [].

Definition category_entry (e : string * CategoryTotals) : CategoryData :=
  let (category, data) := e in
  {| category := replace_all "_" " " category;
     amount := ct_amount data;
     count := ct_count data |}.

Definition getCategoryData (type : TransactionType) : list CategoryData :=
  let filteredTransactions :=
    filter (fun t => TransactionType_eqb (tx_type t) type)
           (filterTransactionsByDateRange transactions) in
  let categoryMap := categoryMap_of filteredTransactions in
  sort (fun a b => amount b - amount a) (map category_entry categoryMap).

(** The totals of the page body. *)
Definition filteredTransactions : list Transaction :=
  filterTransactionsByDateRange transactions.

Definition totalIncome : Z :=
  reduce_sum tx_amount
    (filter (fun t => TransactionType_eqb (tx_type t) t_income) filteredTransactions).

Definition totalExpenses : Z :=
  reduce_sum tx_amount
    (filter (fun t => TransactionType_eqb (tx_type t) t_expense) filteredTransactions).

Definition netIncome : Z := totalIncome - totalExpenses.

End WithState.

End ReportsPage.

(** ** Financial statements page *)

Module FinancialStatements.

Inductive Period : Type := current | ytd.

Record Assets : Type := { cash : Z; accountsReceivable : Z; assets_total : Z }.
Record Liabilities : Type := { accountsPayable : Z; liabilities_total : Z }.
Record Equity : Type := { retainedEarnings : Z; equity_total : Z }.

Record BalanceSheetData : Type := {
  assets : Assets;
  liabilities : Liabilities;
  equity : Equity;
}.

Section WithState.

Variable rt : Runtime.
Variable transactions : list Transaction.
Variable payments : list Payment.
Variable period : Period.

Definition filterByPeriod (transactions : list Transaction) : list Transaction :=
  match period with
  | current =>
      let thirtyDaysAgo :=
        setDate rt (Date_now rt) (getDate rt (Date_now rt) - 30) in
      filter (fun t => date_geq (Date_parse rt (tx_transaction_date t)) thirtyDaysAgo)
             transactions
  | ytd =>
      let yearStart := Date_local rt (getFullYear rt (Date_now rt)) 0 1 in
      filter (fun t => date_geq (Date_parse rt (tx_transaction_date t)) yearStart)
             transactions
  end.

Definition calculateBalanceSheet : BalanceSheetData :=
  let filteredTransactions := filterByPeriod transactions in
  let totalIncome :=
    reduce_sum tx_amount
      (filter (fun t => TransactionType_eqb (tx_type t) t_income) filteredTransactions) in
  let totalExpenses :=
    reduce_sum tx_amount
      (filter (fun t => TransactionType_eqb (tx_type t) t_expense) filteredTransactions) in
  let pendingPayments :=
    reduce_sum pay_amount
      (filter (fun p => PaymentStatus_eqb (pay_status p) p_pending
                        || PaymentStatus_eqb (pay_status p) p_overdue) payments) in
  let cash := totalIncome - totalExpenses in
  let accountsReceivable := pendingPayments in
  let assets := cash + accountsReceivable in
  let accountsPayable := 0 in
  let liabilities := accountsPayable in
  let retainedEarnings := assets - liabilities in
  {| assets := {| cash := cash;
                  accountsReceivable := accountsReceivable;
                  assets_total := assets |};
     liabilities := {| accountsPayable := accountsPayable;
                       liabilities_total := liabilities |};
     equity := {| retainedEarnings := retainedEarnings;
                  equity_total := retainedEarnings |} |}.

End WithState.

End FinancialStatements.

(** ** Sign-in and registration form ([components/Auth/LoginForm.tsx]) *)

Module LoginForm.

Inductive Mode : Type := login | register.

(** The state of the form; [role] is whatever string [setRole] stored. *)
Record State : Type := {
  mode : Mode;
  email : string;
  password : string;
  fullName : string;
  role : string;
  error_ : string;
  success : string;
  loading : bool;
}.

Definition initialState : State :=
  {| mode := login; email := ""; password := ""; fullName := "";
     role := "resident"; error_ := ""; success := ""; loading := false |}.

(** The [<option>] elements of the role [<select>]. *)
Inductive RoleOption : Type := option_resident | option_admin.

Definition option_value (o : RoleOption) : string :=
  match o with option_resident => "resident" | option_admin => "admin" end.

(** What the user can do to the form. *)
Inductive Input : Type :=
| ClickSignIn
| ClickRegister
| ChangeFullName (v : string)
| ChangeRole (o : RoleOption)
| ChangeEmail (v : string)
| ChangePassword (v : string).

Definition onInput (i : Input) (s : State) : State :=
  match i with
  | ClickSignIn =>
      {| mode := login; email := email s; password := password s;
         fullName := fullName s; role := role s; error_ := ""; success := "";
         loading := loading s |}
  | ClickRegister =>
      {| mode := register; email := email s; password := password s;
         fullName := fullName s; role := role s; error_ := ""; success := "";
         loading := loading s |}
  | ChangeFullName v =>
      {| mode := mode s; email := email s; password := password s;
         fullName := v; role := role s; error_ := error_ s;
         success := success s; loading := loading s |}
  | ChangeRole o =>
      {| mode := mode s; email := email s; password := password s;
         fullName := fullName s; role := option_value o; error_ := error_ s;
         success := success s; loading := loading s |}
  | ChangeEmail v =>
      {| mode := mode s; email := v; password := password s;
         fullName := fullName s; role := role s; error_ := error_ s;
         success := success s; loading := loading s |}
  | ChangePassword v =>
      {| mode := mode s; email := email s; password := v;
         fullName := fullName s; role := role s; error_ := error_ s;
         success := success s; loading := loading s |}
  end.

(** The call [handleSubmit] makes into the authentication context. *)
Inductive AuthCall : Type :=
| signIn (email password : string)
| signUp (email password fullName role : string).

Definition submitted (s : State) : AuthCall :=
  match mode s with
  | login => signIn (email s) (password s)
  | register => signUp (email s) (password s) (fullName s) (role s)
  end.

(** [handleSubmit]; [failure] is the message of the error the awaited call
    threw, if it threw. *)
Definition handleSubmit (failure : option string) (s : State) : AuthCall * State :=
  (submitted s,
   match failure with
   | None =>
       match mode s with
       | login =>
           {| mode := login; email := email s; password := password s;
              fullName := fullName s; role := role s; error_ := "";
              success := ""; loading := false |}
       | register =>
           {| mode := login; email := email s; password := "";
              fullName := fullName s; role := role s; error_ := "";
              success := "Account created successfully! You can now sign in.";
              loading := false |}
       end
   | Some message =>
       {| mode := mode s; email := email s; password := password s;
          fullName := fullName s; role := role s;
          error_ :=
            if negb (message =? "")%string then message
            else "Failed to "
                 ++ match mode s with
                    | login => "sign in" | register => "create account"
                    end;
          success := ""; loading := false |}
   end).

(** A session at the form: inputs and submissions in any order. *)
Inductive Step : Type :=
| DoInput (i : Input)
| DoSubmit (failure : option string).

Definition step (s : State) (x : Step) : State :=
  match x with
  | DoInput i => onInput i s
  | DoSubmit failure => snd (handleSubmit failure s)
  end.

Definition run (steps : list Step) : State := fold_left step steps initialState.

End LoginForm.

(** ** The profile table and its trigger (SQL setup script and schema) *)

Module Profiles.

(** A row of [profiles]; [role] is a [text] column. *)
Record Row : Type := {
  id : string;
  email : string;
  full_name : string;
  role : string;
  phone : option string;
}.

(** A column value handed to [INSERT], [None] for [NULL]. *)
Record NewRow : Type := {
  new_id : option string;
  new_email : option string;
  new_full_name : option string;
  new_role : option string;
}.

(** A row of [auth.users]; [raw_user_meta_data k] is the text that
    [raw_user_meta_data->>k] extracts. *)
Record AuthUser : Type := {
  au_id : string;
  au_email : option string;
  raw_user_meta_data : string -> option string;
}.

(** [COALESCE(a, b)] *)
Definition COALESCE (a b : option string) : option string :=
  match a with Some _ => a | None => b end.

(** [split_part(s, '@', 1)]: the text before the first ['@']. *)
Fixpoint before_at (s : string) : string :=
  match s with
  | EmptyString => EmptyString
  | String a s' => if Ascii.eqb a "@" then EmptyString else String a (before_at s')
  end.

Definition split_part_at_1 (s : option string) : option string :=
  option_map before_at s.

(** [CHECK (role IN ('admin', 'resident'))] *)
Definition role_check (r : string) : bool :=
  (r =? "admin")%string || (r =? "resident")%string.

(** [INSERT INTO profiles (id, email, full_name, role) VALUES (...)
    ON CONFLICT (id) DO NOTHING]: the column constraints are checked, then
    the arbiter index on [id], then the unique index on [email]. *)
Definition insert_on_conflict_do_nothing (r : NewRow) (table : list Row)
  : list Row + string :=
  match new_id r, new_email r, new_full_name r, new_role r with
  | Some i, Some e, Some n, Some ro =>
      if negb (role_check ro) then inr "check_violation"
      else if existsb (fun x => (id x =? i)%string) table then inl table
      else if existsb (fun x => (email x =? e)%string) table
           then inr "unique_violation"
      else inl (table ++ [ {| id := i; email := e; full_name := n;
                              role := ro; phone := None |} ])
  | _, _, _, _ => inr "not_null_violation"
  end.

(** The row [handle_new_user] inserts for [NEW]. *)
Definition new_profile (NEW : AuthUser) : NewRow :=
  {| new_id := Some (au_id NEW);
     new_email := au_email NEW;
     new_full_name :=
       COALESCE (raw_user_meta_data NEW "full_name")
                (split_part_at_1 (au_email NEW));
     new_role := COALESCE (raw_user_meta_data NEW "role") (Some "resident") |}.

(** [public.handle_new_user()], fired after each insert on [auth.users]. *)
Definition handle_new_user (NEW : AuthUser) (table : list Row) : list Row + string :=
  insert_on_conflict_do_nothing (new_profile NEW) table.

(** The tables the trigger can produce, starting from an empty one; a
    failed trigger aborts the statement and leaves the table as it was. *)
Inductive reachable : list Row -> Prop :=
| reach_empty : reachable []
| reach_new_user : forall NEW table table',
    reachable table ->
    handle_new_user NEW table = inl table' ->
    reachable table'.

(** Reading a row at the type [Profile] of [lib/supabase.ts]. *)
Definition Role_of_string (s : string) : option Role :=
  if (s =? "admin")%string then Some admin
  else if (s =? "resident")%string then Some resident
  else None.

End Profiles.

(** ** Vocabulary of the statements *)

(** The [insert] queries among the issued ones. *)
Definition is_insert (q : Query) : bool :=
  match q_verb q with Insert _ => true | _ => false end.

Definition inserts_of (tr : list Event) : list Query :=
  filter is_insert (queries_of tr).

(** The request was filed by the signed-in user. *)
Definition belongs_to (auth : Auth) (r : MaintenanceRequest) : Prop :=
  exists u, user auth = Some u /\ mr_requested_by r = Some (user_id u).

(** The total amount of the payments in a given status. *)
Fixpoint amount_in_status (st : PaymentStatus) (ps : list Payment) : Z :=
  match ps with
  | [] => 0
  | p :: ps' =>
      (if PaymentStatus_eqb (pay_status p) st then pay_amount p else 0)
      + amount_in_status st ps'
  end.

(** The ledger insert of the payments page, if the run gets to it. *)
Definition ledger_insert (rt : Runtime) (auth : Auth) (s : PaymentPortal.State)
    (paymentId status : string) (paymentMethod : option string) : list Query :=
  match find (fun p => (pay_id p =? paymentId)%string) (PaymentPortal.payments s) with
  | Some payment =>
      if (status =? "paid")%string
      then [from "transactions"
              (Insert (PaymentPortal.ledger_row rt auth payment paymentMethod))]
      else []
  | None => []
  end.

(** The signed-in user [u], as an admin or as a resident. *)
Definition with_role (u : User) (is_admin : bool) : Auth :=
  {| user := Some u; isAdmin := is_admin |}.

(** The two roles a profile may carry. *)
Definition valid_role (r : string) : Prop := r = "admin" \/ r = "resident".

(** The shape shared by the two roll-up loops of the reports page: the entry
    of the element's key is created with [zero] if missing, then updated. *)
Definition group_step {T V : Type} (key : T -> string) (zero : V)
    (upd : T -> V -> V) (m : JsMap V) (t : T) : JsMap V :=
  let m := if negb (map_has m (key t)) then map_set m (key t) zero else m in
  map_mutate m (key t) (upd t).

(** The value a key holds after the loop: the updates of its elements, in
    order, applied to [zero]. *)
Definition group_value {T V : Type} (key : T -> string) (zero : V)
    (upd : T -> V -> V) (l : list T) (k : string) : V :=
  fold_left (fun v t => upd t v) (filter (fun t => (key t =? k)%string) l) zero.

(** The month the page reads off a transaction: year and month (from 0)
    of [new Date(transaction_date)] in the browser's local time.  Whether
    this is the month written in the date is up to the browser's time
    zone; [written_month] is the latter. *)
Definition calendar_month (rt : Runtime) (t : Transaction) : option (Z * Z) :=
  option_map (fun d => (getFullYear rt d, getMonth rt d))
             (Date_parse rt (tx_transaction_date t)).

Definition same_month (a b : Z * Z) : bool :=
  (fst a =? fst b) && (snd a =? snd b).

(** The transaction falls in month [ym] and has type [ty]. *)
Definition in_month (rt : Runtime) (ym : Z * Z) (ty : TransactionType)
    (t : Transaction) : bool :=
  match calendar_month rt t with
  | Some ym' => same_month ym' ym && TransactionType_eqb (tx_type t) ty
  | None => false
  end.

(** The total amount of the transactions of [l] of one month and type. *)
Definition month_total (rt : Runtime) (l : list Transaction) (ym : Z * Z)
    (ty : TransactionType) : Z :=
  reduce_sum tx_amount (filter (in_month rt ym ty) l).

(** The key under which the page files month [ym]. *)
Definition month_key (ym : Z * Z) : string :=
  String_of_Z (fst ym) ++ "-" ++ padStart 2 "0" (String_of_Z (snd ym + 1)).

(** The entry a month should get. *)
Definition month_row (rt : Runtime) (l : list Transaction) (ym : Z * Z)
  : ReportsPage.MonthlyData :=
  {| ReportsPage.month := ReportsPage.monthLabel rt (month_key ym);
     ReportsPage.income := month_total rt l ym t_income;
     ReportsPage.expenses := month_total rt l ym t_expense;
     ReportsPage.net :=
       month_total rt l ym t_income - month_total rt l ym t_expense |}.

(** The two digits of a month key, read back as a month from 0. *)
Definition month_of_digits (s : string) : Z :=
  match NilZero.int_of_string s with
  | Some d => Z.of_int d - 1
  | None => -1
  end.

(** The calendar month of a transaction whose date is valid. *)
Definition month_of (rt : Runtime) (t : Transaction) : Z * Z :=
  match calendar_month rt t with Some ym => ym | None => (0, 0) end.

Definition month_eq_dec (a b : Z * Z) : {a = b} + {a <> b}.
Proof. decide equality; apply Z.eq_dec. Defined.

(** ** Sample data *)

Module Sample.

(** [s.substring(i, i + n)] read as a decimal number. *)
Definition digits_at (i n : nat) (s : string) : option Z :=
  option_map Z.of_uint (NilZero.uint_of_string (String.substring i n s)).

Definition pad2 (n : Z) : string := padStart 2 "0" (String_of_Z n).

(** A toy runtime: time is counted in days of a calendar whose months all
    have 31 days, and there is one time zone. *)
Definition runtime : Runtime :=
  {| parseFloat := fun s =>
       match NilZero.int_of_string s with
       | Some d => VNum (Z.of_int d)
       | None => VNaN
       end;
     Date_now := 2025 * 372 + 10 * 31 + 1;
     Date_parse := fun s =>
       match digits_at 0 4 s, digits_at 5 2 s, digits_at 8 2 s with
       | Some y, Some m, Some d => Some (y * 372 + (m - 1) * 31 + (d - 1))
       | _, _, _ => None
       end;
     getFullYear := fun t => t / 372;
     getMonth := fun t => (t mod 372) / 31;
     getDate := fun t => t mod 31 + 1;
     setDate := fun t n => t - t mod 31 + (n - 1);
     Date_local := fun y m d => y * 372 + m * 31 + (d - 1);
     isoDay := fun t =>
       (String_of_Z (t / 372) ++ "-" ++ pad2 ((t mod 372) / 31 + 1)
        ++ "-" ++ pad2 (t mod 31 + 1))%string;
     toLocaleMonthYear := fun d =>
       match d with
       | Some t =>
           (pad2 ((t mod 372) / 31 + 1) ++ "/" ++ String_of_Z (t / 372))%string
       | None => "Invalid Date"
       end;
     localeCompare := fun a b =>
       match String.compare a b with Lt => -1 | Eq => 0 | Gt => 1 end |}.

Definition alice : User := {| user_id := "alice" |}.
Definition bob : User := {| user_id := "bob" |}.

Definition as_admin : Auth := {| user := Some alice; isAdmin := true |}.
Definition as_resident : Auth := {| user := Some bob; isAdmin := false |}.

Definition request (i : string) (st : MaintenanceStatus) (by_ : option string)
  : MaintenanceRequest :=
  {| mr_id := i; mr_title := "Leaking tap"; mr_description := None;
     mr_category := repairs; mr_status := st; mr_priority := medium;
     mr_assigned_vendor := None; mr_requested_by := by_;
     mr_estimated_cost := None; mr_scheduled_date := None |}.

Definition payment (i : string) (a : Z) (ty : PaymentType) (st : PaymentStatus)
  : Payment :=
  {| pay_id := i; pay_property_id := "unit-1"; pay_amount := a;
     pay_payment_type := ty; pay_status := st; pay_payment_method := None;
     pay_properties_unit_number := Some "12A" |}.

Definition transaction (i : string) (ty : TransactionType) (c : string) (a : Z)
    (d : string) : Transaction :=
  {| tx_id := i; tx_type := ty; tx_category := c; tx_amount := a;
     tx_transaction_date := d |}.

Definition payments : list Payment :=
  [ payment "p1" 15000 monthly_dues p_pending;
    payment "p2" 4000 fine p_overdue;
    payment "p3" 15000 monthly_dues p_paid ].

Definition transactions : list Transaction :=
  [ transaction "t1" t_income "hoa_fees" 15000 "2025-10-03";
    transaction "t2" t_expense "landscaping" 6000 "2025-10-17";
    transaction "t3" t_income "hoa_fees" 15000 "2025-11-01";
    transaction "t4" t_expense "pool" 2500 "2025-09-20";
    transaction "t5" t_expense "landscaping" 1000 "2024-01-05" ].

Definition tables : Postgres.Tables :=
  {| Postgres.maintenance_requests :=
       [ request "r1" pending (Some "bob"); request "r2" completed (Some "bob") ];
     Postgres.payments := payments;
     Postgres.properties :=
       [ {| prop_id := "unit-1"; prop_unit_number := "12A";
            prop_address := "1 Main St"; prop_owner_id := Some "bob" |} ];
     Postgres.transactions := transactions |}.

(** A database that accepts every mutation. *)
Definition db : Supabase := Postgres.client tables (fun _ => None).

Definition form : MaintenanceForm.State :=
  {| MaintenanceForm.formData := MaintenanceForm.initialFormData None;
     MaintenanceForm.loading := false |}.

Definition list_state : MaintenanceList.State :=
  {| MaintenanceList.requests := Postgres.maintenance_requests tables;
     MaintenanceList.loading := false;
     MaintenanceList.showForm := false;
     MaintenanceList.editingRequest := None;
     MaintenanceList.deleteConfirmId := None |}.

(** A new auth user who registered as an admin. *)
Definition carol : Profiles.AuthUser :=
  {| Profiles.au_id := "carol";
     Profiles.au_email := Some "carol@hoa.com";
     Profiles.raw_user_meta_data := fun k =>
       if (k =? "role")%string then Some "admin"
       else if (k =? "full_name")%string then Some "Carol"
       else None |}.

Definition carol_row : Profiles.Row :=
  {| Profiles.id := "carol"; Profiles.email := "carol@hoa.com";
     Profiles.full_name := "Carol"; Profiles.role := "admin";
     Profiles.phone := None |}.

(** Registering as an admin at the form. *)
Definition registration : list LoginForm.Step :=
  [ LoginForm.DoInput LoginForm.ClickRegister;
    LoginForm.DoInput (LoginForm.ChangeFullName "Carol");
    LoginForm.DoInput (LoginForm.ChangeRole LoginForm.option_admin);
    LoginForm.DoInput (LoginForm.ChangeEmail "carol@hoa.com");
    LoginForm.DoInput (LoginForm.ChangePassword "secret1") ].

Definition portal : PaymentPortal.State :=
  {| PaymentPortal.payments := payments;
     PaymentPortal.properties := Postgres.properties tables;
     PaymentPortal.loading := false |}.

End Sample.

(** ** More of the payments page *)

Module PaymentActions.

(** [handleDeletePayment]; [confirmed] is the answer to the [confirm]
    dialog. *)
Definition handleDeletePayment (db : Supabase) (confirmed : bool)
    (paymentId : string) : Eff PaymentPortal.State unit :=
  if negb confirmed then ret tt
  else
    try_catch
      (error <- await_mutation db
                  (from "payments" Delete |> eq_ "id" (VStr paymentId)) ;;
       throw_if error ;;;
       emit (Call "loadData"))
      (fun e => emit (ConsoleError "Error deleting payment:" e)).

End PaymentActions.

(** The [PaymentCard] of the first portal. *)
Module PaymentCard.

Record State : Type := {
  showPaymentMethod : bool;
  paymentMethod : string;
}.

Definition initialState : State :=
  {| showPaymentMethod := false; paymentMethod := "online" |}.

(** The method buttons the card renders. *)
Definition methods : list string :=
  ["online"; "credit_card"; "bank_transfer"; "check"; "cash"].

(** What the user can do to the card short of confirming; [ClickMethod i]
    is a click on the [i]-th method button. *)
Inductive Input : Type :=
| ClickMarkAsPaid
| ClickMethod (i : nat)
| ClickCancelChoice.

Definition onInput (s : State) (i : Input) : State :=
  match i with
  | ClickMarkAsPaid =>
      {| showPaymentMethod := true; paymentMethod := paymentMethod s |}
  | ClickMethod n =>
      match nth_error methods n with
      | Some method => {| showPaymentMethod := showPaymentMethod s;
                          paymentMethod := method |}
      | None => s
      end
  | ClickCancelChoice =>
      {| showPaymentMethod := false; paymentMethod := paymentMethod s |}
  end.

Definition run (inputs : list Input) : State := fold_left onInput inputs initialState.

(** A call of [onStatusUpdate(id, status, method)]. *)
Record StatusUpdate : Type := {
  su_id : string;
  su_status : string;
  su_method : option string;
}.

(** [confirmPayment] *)
Definition confirmPayment (payment : Payment) (s : State) : StatusUpdate * State :=
  ({| su_id := pay_id payment; su_status := "paid";
      su_method := Some (paymentMethod s) |},
   {| showPaymentMethod := false; paymentMethod := paymentMethod s |}).

(** The admin's Cancel button. *)
Definition cancelPayment (payment : Payment) : StatusUpdate :=
  {| su_id := pay_id payment; su_status := "cancelled"; su_method := None |}.

(** [onPaid] of the [PayWithPayPal] button of the card. *)
Definition onPaid (payment : Payment) : StatusUpdate :=
  {| su_id := pay_id payment; su_status := "paid"; su_method := Some "paypal" |}.

(** The portal's handler run on a call. *)
Definition dispatch (rt : Runtime) (auth : Auth) (db : Supabase) (c : StatusUpdate)
  : Eff PaymentPortal.State unit :=
  PaymentPortal.handlePaymentStatusUpdate rt auth db (su_id c) (su_status c)
    (su_method c).

End PaymentCard.

(** The [PaymentForm] of the first portal. *)
Module PaymentForm.

Record FormData : Type := {
  property_id : string;
  amount : string;
  payment_type : PaymentType;
  due_date : string;
  notes : string;
}.

Record State : Type := {
  formData : FormData;
  loading : bool;
}.

Definition setLoading (b : bool) (s : State) : State :=
  {| formData := formData s; loading := b |}.

Definition initialFormData (rt : Runtime) : FormData :=
  {| property_id := ""; amount := ""; payment_type := monthly_dues;
     due_date := PaymentPortal.today rt; notes := "" |}.

(** [{ ...formData }] *)
Definition spread (fd : FormData) : Obj :=
  [ ("property_id", VStr (property_id fd));
    ("amount", VStr (amount fd));
    ("payment_type", VStr (PaymentType_str (payment_type fd)));
    ("due_date", VStr (due_date fd));
    ("notes", VStr (notes fd)) ].

(** The row [handleSubmit] inserts. *)
Definition row (rt : Runtime) (fd : FormData) : Obj :=
  obj_extend (spread fd)
    [ ("amount", parseFloat rt (amount fd));
      ("status", VStr "pending") ].

Definition handleSubmit (rt : Runtime) (db : Supabase) : Eff State unit :=
  modify (setLoading true) ;;;
  finally
    (try_catch
       (s <- get_state ;;
        error <- await_mutation db (from "payments" (Insert (row rt (formData s)))) ;;
        throw_if error ;;;
        emit (Call "onSuccess") ;;;
        emit (Call "onClose"))
       (fun e => emit (ConsoleError "Error creating payment:" e)))
    (modify (setLoading false)).

End PaymentForm.

(** ** Column constraints of the schema ([create_hoa_schema.sql]) *)

Module Schema.

(** [CHECK (payment_method IN ('cash', 'check', 'credit_card',
    'bank_transfer', 'online'))]; a [CHECK] passes on [NULL]. *)
Definition payment_method_check (v : Value) : bool :=
  match v with
  | VNull | VUndefined => true
  | VStr s =>
      existsb (String.eqb s) ["cash"; "check"; "credit_card"; "bank_transfer"; "online"]
  | _ => false
  end.

(** [CHECK (status IN ('pending', 'paid', 'overdue', 'cancelled'))] of
    [payments]. *)
Definition payment_status_check (v : Value) : bool :=
  match v with
  | VNull | VUndefined => true
  | VStr s => existsb (String.eqb s) ["pending"; "paid"; "overdue"; "cancelled"]
  | _ => false
  end.

(** The error an [update] of [payments] comes back with: the checks are
    evaluated on the rows the update reaches, on the columns it sets. *)
Definition payments_update_error (t : Postgres.Tables) (q : Query) : option string :=
  match q_verb q with
  | Update row =>
      if (q_table q =? "payments")%string
         && existsb (fun p => forallb (Postgres.matches Postgres.payment_column p)
                                      (q_filters q))
                    (Postgres.payments t)
         && negb (payment_method_check (obj_get row "payment_method")
                  && payment_status_check (obj_get row "status"))
      then Some "check_violation"
      else None
  | _ => None
  end.

(** The client of a database that enforces these checks and accepts every
    other mutation. *)
Definition client (t : Postgres.Tables) : Supabase :=
  Postgres.client t (payments_update_error t).

End Schema.

(** ** The category breakdown component ([CategoryBreakdown.tsx]) *)

Module CategoryBreakdown.

(** [data.length === 0]: the component renders the 'No data' notice. *)
Definition shows_notice (data : list ReportsPage.CategoryData) : bool :=
  match data with [] => true | _ => false end.

Definition total (data : list ReportsPage.CategoryData) : Z :=
  reduce_sum ReportsPage.amount data.

(** The 'Transactions' figure, by which the average divides [total]. *)
Definition transactions_count (data : list ReportsPage.CategoryData) : Z :=
  reduce_sum ReportsPage.count data.

End CategoryBreakdown.

(** ** The income statement of the financial statements page *)

Module IncomeStatement.

Record Line : Type := { category : string; amount : Z }.

Record Statement : Type := {
  income : list Line;
  expenses : list Line;
  totalIncome : Z;
  totalExpenses : Z;
  netIncome : Z;
}.

(** [m.get(k) || 0] *)
Definition get_or_zero (m : JsMap Z) (k : string) : Z :=
  match map_get m k with
  | Some v => if v =? 0 then 0 else v
  | None => 0
  end.

(** [m.set(t.category, (m.get(t.category) || 0) + t.amount)] *)
Definition add_to (m : JsMap Z) (t : Transaction) : JsMap Z :=
  map_set m (tx_category t) (get_or_zero m (tx_category t) + tx_amount t).

(** One turn of the [forEach]: the pair is [incomeByCategory],
    [expensesByCategory]. *)
Definition step (maps : JsMap Z * JsMap Z) (t : Transaction) : JsMap Z * JsMap Z :=
  if TransactionType_eqb (tx_type t) t_income
  then (add_to (fst maps) t, snd maps)
  else (fst maps, add_to (snd maps) t).

Definition line (e : string * Z) : Line :=
  let (category, amount) := e in
  {| category := replace_all "_" " " category; amount := amount |}.

Definition generateIncomeStatement (rt : Runtime) (transactions : list Transaction)
    (period : FinancialStatements.Period) : Statement :=
  let filteredTransactions :=
    FinancialStatements.filterByPeriod rt period transactions in
  let maps := fold_left step filteredTransactions ([], []) in
  let incomeByCategory := fst maps in
  let expensesByCategory := snd maps in
  let totalIncome := reduce_sum (fun val => val) (map snd incomeByCategory) in
  let totalExpenses := reduce_sum (fun val => val) (map snd expensesByCategory) in
  let netIncome := totalIncome - totalExpenses in
  {| income := map line incomeByCategory;
     expenses := map line expensesByCategory;
     totalIncome := totalIncome;
     totalExpenses := totalExpenses;
     netIncome := netIncome |}.

End IncomeStatement.

(** ** Admin test of the policies (SQL setup script) *)

(** [public.is_admin(user_id)]: [EXISTS (SELECT 1 FROM profiles WHERE id =
    user_id AND role = 'admin')]. *)
Definition is_admin (user_id : string) (profiles : list Profiles.Row) : bool :=
  existsb (fun p => (Profiles.id p =? user_id)%string
                    && (Profiles.role p =? "admin")%string) profiles.

(** ** Vocabulary of the further statements *)

(** The values of a list in the order in which they first occur. *)
Definition first_seen (l : list string) : list string :=
  rev (nodup string_dec (rev l)).

(** The transactions of one type and one category. *)
Definition of_category (ty : TransactionType) (c : string) (l : list Transaction)
  : list Transaction :=
  filter (fun t => TransactionType_eqb (tx_type t) ty && (tx_category t =? c)%string) l.

(** The calls back into the parent among the events of a run. *)
Fixpoint calls_of (tr : list Event) : list string :=
  match tr with
  | [] => []
  | Call c :: tr' => c :: calls_of tr'
  | _ :: tr' => calls_of tr'
  end.

(** A value of type [number | null]. *)
Definition nullable_cost (n : option Z) : Value :=
  match n with Some x => VNum x | None => VNull end.

(** The entry a category should get on the reports page. *)
Definition category_row (ty : TransactionType) (l : list Transaction) (c : string)
  : ReportsPage.CategoryData :=
  {| ReportsPage.category := replace_all "_" " " c;
     ReportsPage.amount := reduce_sum tx_amount (of_category ty c l);
     ReportsPage.count := Z.of_nat (List.length (of_category ty c l)) |}.

(** The line a category should get on the income statement. *)
Definition statement_line (ty : TransactionType) (l : list Transaction) (c : string)
  : IncomeStatement.Line :=
  {| IncomeStatement.category := replace_all "_" " " c;
     IncomeStatement.amount := reduce_sum tx_amount (of_category ty c l) |}.

(** The categories of the transactions of one type, as first seen. *)
Definition categories_of (ty : TransactionType) (l : list Transaction) : list string :=
  first_seen
    (map tx_category (filter (fun t => TransactionType_eqb (tx_type t) ty) l)).

(** ** More sample data *)

Module Offline.

Definition down {A : Type} : Response A :=
  {| data := None; error := Some "Failed to fetch" |}.

(** A database that answers every query with an error. *)
Definition db : Supabase :=
  {| select_requests := fun _ => down;
     select_payments := fun _ => down;
     select_properties := fun _ => down;
     select_transactions := fun _ => down;
     mutate := fun _ => Some "Failed to fetch" |}.

End Offline.

(** ** Numbers as the browser adds them *)

(** What the roll-ups use of a JavaScript [number]: [0], [+], [-] and the
    sign that [Array.prototype.sort] reads off the result of a comparator
    (negative, positive, or neither, which is how it treats [0] and
    [NaN]). *)
Record Number : Type := {
  num : Type;
  num_zero : num;
  num_add : num -> num -> num;
  num_sub : num -> num -> num;
  num_sign : num -> Z;
}.

(** Amounts counted in whole cents and added exactly. *)
Definition exact : Number :=
  {| num := Z; num_zero := 0; num_add := Z.add; num_sub := Z.sub;
     num_sign := Z.sgn |}.

Module Binary64.

Import PrimFloat.

(** IEEE 754 binary64, the arithmetic of every JavaScript [number]. *)
Definition number : Number :=
  {| num := float;
     num_zero := 0%float;
     num_add := PrimFloat.add;
     num_sub := PrimFloat.sub;
     num_sign := fun x =>
       if PrimFloat.ltb x 0%float then -1
       else if PrimFloat.ltb 0%float x then 1
       else 0 |}.

(** [a === b] on numbers. *)
Definition strict_equal (a b : float) : bool := PrimFloat.eqb a b.

(** The number a decimal amount of the [numeric(10,2)] column arrives as:
    the binary64 value nearest to cents/100. *)
Definition of_cents (cents : Z) : float :=
  PrimFloat.div (PrimFloat.of_uint63 (Uint63.of_Z cents)) 100%float.

End Binary64.

(** ** The category roll-up over any numbers *)

(** [getCategoryData] and the totals of the reports page once more, with
    the amounts in a [Number] structure [N]: at [Binary64.number] this is
    the arithmetic the page runs.  The counts stay integers: they only
    ever hold the small whole numbers that binary64 adds exactly. *)
Module NumericReports.

Section Over.

Variable N : Number.

Record Transaction : Type := {
  tx_id : string;
  tx_type : TransactionType;
  tx_category : string;
  tx_amount : num N;
  tx_transaction_date : string;
}.

Record CategoryData : Type := {
  category : string;
  amount : num N;
  count : Z;
}.

Record CategoryTotals : Type := { ct_amount : num N; ct_count : Z }.

(** [xs.reduce((sum, x) => sum + f(x), 0)] *)
Definition reduce_sum {A : Type} (f : A -> num N) (xs : list A) : num N :=
  fold_left (fun sum x => num_add N sum (f x)) xs (num_zero N).

Variable rt : Runtime.
Variable transactions : list Transaction.
Variable dateRange : ReportsPage.DateRange.

Definition filterTransactionsByDateRange (transactions : list Transaction)
  : list Transaction :=
  let daysAgo :=
    setDate rt (Date_now rt)
      (getDate rt (Date_now rt) - ReportsPage.parseInt dateRange) in
  filter (fun t => date_geq (Date_parse rt (tx_transaction_date t)) daysAgo)
         transactions.

(** One turn of the [forEach] of [getCategoryData]. *)
Definition category_step (categoryMap : JsMap CategoryTotals) (t : Transaction)
  : JsMap CategoryTotals :=
  let categoryMap :=
    if negb (map_has categoryMap (tx_category t))
    then map_set categoryMap (tx_category t)
           {| ct_amount := num_zero N; ct_count := 0 |}
    else categoryMap in
  map_mutate categoryMap (tx_category t)
    (fun data => {| ct_amount := num_add N (ct_amount data) (tx_amount t);
                    ct_count := ct_count data + 1 |}).

Definition categoryMap_of (filteredTransactions : list Transaction)
  : JsMap CategoryTotals :=
  fold_left category_step filteredTransactions [].

Definition category_entry (e : string * CategoryTotals) : CategoryData :=
  let (category, data) := e in
  {| category := replace_all "_" " " category;
     amount := ct_amount data;
     count := ct_count data |}.

(** [(a, b) => b.amount - a.amount], as the sort reads it. *)
Definition by_amount (a b : CategoryData) : Z :=
  num_sign N (num_sub N (amount b) (amount a)).

Definition getCategoryData (type : TransactionType) : list CategoryData :=
  let filteredTransactions :=
    filter (fun t => TransactionType_eqb (tx_type t) type)
           (filterTransactionsByDateRange transactions) in
  let categoryMap := categoryMap_of filteredTransactions in
  sort by_amount (map category_entry categoryMap).

(** The totals of the page body. *)
Definition filteredTransactions : list Transaction :=
  filterTransactionsByDateRange transactions.

Definition totalIncome : num N :=
  reduce_sum tx_amount
    (filter (fun t => TransactionType_eqb (tx_type t) t_income) filteredTransactions).

Definition totalExpenses : num N :=
  reduce_sum tx_amount
    (filter (fun t => TransactionType_eqb (tx_type t) t_expense) filteredTransactions).

(** The page's total for a type. *)
Definition total (type : TransactionType) : num N :=
  match type with t_income => totalIncome | t_expense => totalExpenses end.

(** The transactions of one category. *)
Definition of_category (c : string) (l : list Transaction) : list Transaction :=
  filter (fun t => (tx_category t =? c)%string) l.

(** The entry a category should get: its amounts added in list order. *)
Definition category_row (l : list Transaction) (c : string) : CategoryData :=
  {| category := replace_all "_" " " c;
     amount := reduce_sum tx_amount (of_category c l);
     count := Z.of_nat (List.length (of_category c l)) |}.

End Over.

End NumericReports.

(** ** A browser clock with a fixed offset from UTC *)

(** [Date] as ECMAScript defines it, for a time zone that is a fixed number
    of minutes east of UTC: time values are milliseconds since
    1970-01-01T00:00Z, a date-only string 'YYYY-MM-DD' is read as UTC
    midnight, and the getters answer in local time. *)
Module Browser.

Definition msPerDay : Z := 86400000.

(** Days from 1970-01-01 to the day [d] of month [m] (from 1) of year [y]
    in the proleptic Gregorian calendar. *)
Definition days_from_civil (y m d : Z) : Z :=
  let y := if m <=? 2 then y - 1 else y in
  let era := y / 400 in
  let yoe := y - era * 400 in
  let mp := (m + 9) mod 12 in
  let doy := (153 * mp + 2) / 5 + d - 1 in
  let doe := yoe * 365 + yoe / 4 - yoe / 100 + doy in
  era * 146097 + doe - 719468.

(** Year, month (from 1) and day of the day number [z]. *)
Definition civil_from_days (z : Z) : Z * Z * Z :=
  let z := z + 719468 in
  let era := z / 146097 in
  let doe := z - era * 146097 in
  let yoe := (doe - doe / 1460 + doe / 36524 - doe / 146096) / 365 in
  let doy := doe - (365 * yoe + yoe / 4 - yoe / 100) in
  let mp := (5 * doy + 2) / 153 in
  let d := doy - (153 * mp + 2) / 5 + 1 in
  let m := if mp <? 10 then mp + 3 else mp - 9 in
  let y := yoe + era * 400 in
  (if m <=? 2 then y + 1 else y, m, d).

(** [s.substring(i, i + n)] read as a decimal number. *)
Definition digits_at (i n : nat) (s : string) : option Z :=
  option_map Z.of_uint (NilZero.uint_of_string (String.substring i n s)).

Definition pad2 (n : Z) : string := padStart 2 "0" (String_of_Z n).

(** The date-only form 'YYYY-MM-DD', the form of a [date] column. *)
Definition parse_date (s : string) : option (Z * Z * Z) :=
  if negb (Nat.eqb (String.length s) 10) then None
  else if negb ((String.substring 4 1 s =? "-")%string
                && (String.substring 7 1 s =? "-")%string) then None
  else
    match digits_at 0 4 s, digits_at 5 2 s, digits_at 8 2 s with
    | Some y, Some m, Some d =>
        if (1 <=? m) && (m <=? 12) && (1 <=? d) && (d <=? 31)
        then Some (y, m, d) else None
    | _, _, _ => None
    end.

Definition month_name (m : Z) : string :=
  nth (Z.to_nat (m - 1))
      ["Jan"; "Feb"; "Mar"; "Apr"; "May"; "Jun";
       "Jul"; "Aug"; "Sep"; "Oct"; "Nov"; "Dec"] "".

Section Zone.

(** Minutes east of UTC: [-300] is UTC-5. *)
Variable utc_offset : Z.
Variable now : Z.

(** Year, month (from 1) and day of the time value [t] in local time. *)
Definition local_date (t : Z) : Z * Z * Z :=
  civil_from_days ((t + utc_offset * 60000) / msPerDay).

Definition runtime : Runtime :=
  {| parseFloat := fun s =>
       match NilZero.int_of_string s with
       | Some d => VNum (Z.of_int d)
       | None => VNaN
       end;
     Date_now := now;
     Date_parse := fun s =>
       match parse_date s with
       | Some (y, m, d) => Some (days_from_civil y m d * msPerDay)
       | None => None
       end;
     getFullYear := fun t => fst (fst (local_date t));
     getMonth := fun t => snd (fst (local_date t)) - 1;
     getDate := fun t => snd (local_date t);
     setDate := fun t n =>
       let local := t + utc_offset * 60000 in
       let '(y, m, _) := local_date t in
       (days_from_civil y m 1 + (n - 1)) * msPerDay + local mod msPerDay
       - utc_offset * 60000;
     Date_local := fun y m d =>
       (days_from_civil y (m + 1) 1 + (d - 1)) * msPerDay - utc_offset * 60000;
     isoDay := fun t =>
       let '(y, m, d) := civil_from_days (t / msPerDay) in
       (String_of_Z y ++ "-" ++ pad2 m ++ "-" ++ pad2 d)%string;
     toLocaleMonthYear := fun d =>
       match d with
       | Some t =>
           let '(y, m, _) := local_date t in
           (month_name m ++ " " ++ String_of_Z y)%string
       | None => "Invalid Date"
       end;
     localeCompare := fun a b =>
       match String.compare a b with Lt => -1 | Eq => 0 | Gt => 1 end |}.

End Zone.

(** 2025-11-02T12:00Z *)
Definition noon_2025_11_02 : Z := days_from_civil 2025 11 2 * msPerDay + msPerDay / 2.

(** A browser five hours west of UTC and one at UTC, at that moment. *)
Definition utc_minus_5 : Runtime := runtime (-300) noon_2025_11_02.
Definition utc : Runtime := runtime 0 noon_2025_11_02.

End Browser.

(** The year and the month (from 0) written in a 'YYYY-MM-DD' date: the
    calendar month of a transaction, whatever clock reads it. *)
Definition written_month (transaction_date : string) : option (Z * Z) :=
  match Browser.parse_date transaction_date with
  | Some (y, m, _) => Some (y, m - 1)
  | None => None
  end.

(** ** More sample data: a ledger around the turn of a month *)

Module Ledger.

Definition october_dues : Transaction :=
  {| tx_id := "t1"; tx_type := t_income; tx_category := "hoa_fees";
     tx_amount := 10000; tx_transaction_date := "2025-10-15" |}.

Definition november_dues : Transaction :=
  {| tx_id := "t2"; tx_type := t_income; tx_category := "hoa_fees";
     tx_amount := 15000; tx_transaction_date := "2025-11-01" |}.

(** Three expenses of 27.71, 155.25 and 18.18, as binary64 numbers and in
    cents. *)
Definition expense (N : Number) (i c : string) (a : num N)
  : NumericReports.Transaction N :=
  NumericReports.Build_Transaction N i t_expense c a "2025-10-20".

Definition expenses64 : list (NumericReports.Transaction Binary64.number) :=
  [ expense Binary64.number "e1" "utilities" (Binary64.of_cents 2771);
    expense Binary64.number "e2" "landscaping" (Binary64.of_cents 15525);
    expense Binary64.number "e3" "utilities" (Binary64.of_cents 1818) ].

Definition expenses_in_cents : list (NumericReports.Transaction exact) :=
  [ expense exact "e1" "utilities" 2771;
    expense exact "e2" "landscaping" 15525;
    expense exact "e3" "utilities" 1818 ].

End Ledger.

(* ================================================================== *)
(** * Part II. Properties                                              *)
(* ================================================================== *)

(** ** Tactics and general facts *)

Ltac unfold_eff :=
  unfold trace, final_state, outcome, finally, try_catch, bind, ret, throw,
    throw_if, emit, modify, get_state, await_mutation, await_select in *.

Lemma MaintenanceStatus_pending_eqb (s : MaintenanceStatus) :
  (MaintenanceStatus_str s =? "pending")%string = true <-> s = pending.
Proof. destruct s; simpl; split; intro H; congruence. Qed.

Lemma strict_eq_str_refl (s : string) : strict_eq (VStr s) (VStr s) = true.
Proof. simpl. apply String.eqb_refl. Qed.

Lemma strict_eq_true (a b : Value) : strict_eq a b = true -> a = b.
Proof.
  destruct a, b; simpl; intro H; try discriminate; try reflexivity.
  - apply Z.eqb_eq in H. now subst.
  - apply String.eqb_eq in H. now subst.
Qed.

(** ** Maintenance requests *)

Section MaintenanceFacts.

Import MaintenanceList MaintenanceForm.

Lemma belongs_to_strict_eq (auth : Auth) (r : MaintenanceRequest) :
  strict_eq (user_id_opt (user auth)) (nullable (mr_requested_by r)) = true
  <-> belongs_to auth r.
Proof.
  unfold belongs_to. split.
  - destruct (user auth) as [u|], (mr_requested_by r) as [x|]; simpl;
      intro H; try discriminate.
    apply String.eqb_eq in H. subst. now exists u.
  - intros (u & -> & ->). simpl. apply String.eqb_refl.
Qed.

Lemma mayUpdate_resident (auth : Auth) (r : MaintenanceRequest) :
  isAdmin auth = false ->
  (mayUpdate auth r = true <-> belongs_to auth r /\ mr_status r = pending).
Proof.
  intro Hadm. unfold mayUpdate. rewrite Hadm. simpl.
  rewrite andb_true_iff, belongs_to_strict_eq, MaintenanceStatus_pending_eqb.
  tauto.
Qed.

(** The buttons of a row are offered exactly when the form would send the
    edit. *)
Lemma canModify_mayUpdate (auth : Auth) (r : MaintenanceRequest) :
  canModify auth r = mayUpdate auth r.
Proof.
  unfold canModify, mayUpdate.
  destruct (isAdmin auth); [reflexivity|]. simpl.
  destruct (user auth) as [u|], (mr_requested_by r) as [x|]; simpl;
    try reflexivity.
  now rewrite String.eqb_sym.
Qed.

Lemma handleDelete_queries (auth : Auth) (db : Supabase) (id : string) (s : MaintenanceList.State) :
  queries_of (trace (handleDelete auth db id s)) = [handleDelete_query auth id].
Proof.
  unfold handleDelete. unfold_eff.
  destruct (mutate db (handleDelete_query auth id)); reflexivity.
Qed.

Lemma handleSubmit_edit_sent (rt : Runtime) (auth : Auth) (db : Supabase)
    (r : MaintenanceRequest) (s : MaintenanceForm.State) :
  mayUpdate auth r = true ->
  queries_of (trace (handleSubmit rt auth db (Some r) s))
  = [update_query auth r (payload rt auth (Some r) (formData s))].
Proof.
  intro H. unfold handleSubmit. unfold_eff. simpl. rewrite H.
  destruct (mutate db _); reflexivity.
Qed.

Lemma handleSubmit_edit_refused (rt : Runtime) (auth : Auth) (db : Supabase)
    (r : MaintenanceRequest) (s : MaintenanceForm.State) :
  mayUpdate auth r = false ->
  trace (handleSubmit rt auth db (Some r) s)
  = [ConsoleError "Error saving maintenance request:" permission_error].
Proof.
  intro H. unfold handleSubmit. unfold_eff. simpl. rewrite H. reflexivity.
Qed.

(** C1 (role-gated maintenance mutations).  A delete issues one query on
    [maintenance_requests]: for a non-admin it is filtered by the request
    id, by [requested_by] equal to the current user's id and by status
    'pending'; for an admin by the request id only.  An edit by a
    non-admin of a request that is not theirs or is not pending issues no
    query and fails with the permission error, which is all the run
    leaves behind; an edit by an admin is always issued, filtered by the
    request id only. *)
Theorem role_gated_maintenance_mutations :
  (forall auth db id s,
      isAdmin auth = false ->
      exists q,
        queries_of (trace (handleDelete auth db id s)) = [q]
        /\ q_table q = "maintenance_requests" /\ q_verb q = Delete
        /\ q_filters q = [ FEq "id" (VStr id);
                           FEq "requested_by" (user_id_opt (user auth));
                           FEq "status" (VStr "pending") ])
  /\ (forall auth db id s,
      isAdmin auth = true ->
      exists q,
        queries_of (trace (handleDelete auth db id s)) = [q]
        /\ q_table q = "maintenance_requests" /\ q_verb q = Delete
        /\ q_filters q = [ FEq "id" (VStr id) ])
  /\ (forall rt auth db r s,
      isAdmin auth = false ->
      ~ belongs_to auth r \/ mr_status r <> pending ->
      let run := handleSubmit rt auth db (Some r) s in
      queries_of (trace run) = []
      /\ trace run
         = [ConsoleError "Error saving maintenance request:"
              "You do not have permission to update this request."])
  /\ (forall rt auth db r s,
      isAdmin auth = true ->
      exists q p,
        queries_of (trace (handleSubmit rt auth db (Some r) s)) = [q]
        /\ q_table q = "maintenance_requests" /\ q_verb q = Update p
        /\ q_filters q = [ FEq "id" (VStr (mr_id r)) ]).
Proof.
  repeat split.
  - intros auth db id s Hadm.
    exists (handleDelete_query auth id). rewrite handleDelete_queries.
    unfold handleDelete_query. rewrite Hadm. simpl. auto.
  - intros auth db id s Hadm.
    exists (handleDelete_query auth id). rewrite handleDelete_queries.
    unfold handleDelete_query. rewrite Hadm. simpl. auto.
  - rewrite handleSubmit_edit_refused; [reflexivity|].
    destruct (mayUpdate auth r) eqn:E; [|reflexivity].
    apply mayUpdate_resident in E; tauto.
  - rewrite handleSubmit_edit_refused; [reflexivity|].
    destruct (mayUpdate auth r) eqn:E; [|reflexivity].
    apply mayUpdate_resident in E; tauto.
  - intros rt auth db r s Hadm.
    assert (Hm : mayUpdate auth r = true) by (unfold mayUpdate; now rewrite Hadm).
    exists (update_query auth r (payload rt auth (Some r) (formData s))).
    exists (payload rt auth (Some r) (formData s)).
    rewrite (@handleSubmit_edit_sent rt auth db r s Hm).
    unfold update_query. rewrite Hadm. simpl. auto.
Qed.


(** The instances of C1 at the sample data: a resident and an admin delete
    request r1, the resident edits the completed request r2, the admin
    edits it. *)
Lemma role_gated_maintenance_mutations_witness :
  (exists q,
      queries_of (trace (handleDelete Sample.as_resident Sample.db "r1"
                           Sample.list_state)) = [q]
      /\ q_table q = "maintenance_requests" /\ q_verb q = Delete
      /\ q_filters q = [ FEq "id" (VStr "r1");
                         FEq "requested_by" (VStr "bob");
                         FEq "status" (VStr "pending") ])
  /\ (exists q,
      queries_of (trace (handleDelete Sample.as_admin Sample.db "r1"
                           Sample.list_state)) = [q]
      /\ q_table q = "maintenance_requests" /\ q_verb q = Delete
      /\ q_filters q = [ FEq "id" (VStr "r1") ])
  /\ (queries_of
        (trace (handleSubmit Sample.runtime Sample.as_resident Sample.db
                  (Some (Sample.request "r2" completed (Some "bob")))
                  Sample.form)) = []
      /\ trace (handleSubmit Sample.runtime Sample.as_resident Sample.db
                  (Some (Sample.request "r2" completed (Some "bob")))
                  Sample.form)
         = [ConsoleError "Error saving maintenance request:"
              "You do not have permission to update this request."])
  /\ (exists q p,
        queries_of
          (trace (handleSubmit Sample.runtime Sample.as_admin Sample.db
                    (Some (Sample.request "r2" completed (Some "bob")))
                    Sample.form)) = [q]
        /\ q_table q = "maintenance_requests" /\ q_verb q = Update p
        /\ q_filters q = [ FEq "id" (VStr "r2") ]).
Proof.
  destruct role_gated_maintenance_mutations as (Hdel & Hdel_admin & Hno & Hyes).
  split; [|split; [|split]].
  - apply (Hdel Sample.as_resident Sample.db "r1" Sample.list_state).
    reflexivity.
  - apply (Hdel_admin Sample.as_admin Sample.db "r1" Sample.list_state).
    reflexivity.
  - apply (Hno Sample.runtime Sample.as_resident Sample.db
               (Sample.request "r2" completed (Some "bob")) Sample.form).
    + reflexivity.
    + right. simpl. discriminate.
  - apply (Hyes Sample.runtime Sample.as_admin Sample.db
                (Sample.request "r2" completed (Some "bob")) Sample.form).
    reflexivity.
Defined.

(** What a non-admin submits is normalised, on a create and on an edit. *)
Lemma resident_payload_normalized (rt : Runtime) (auth : Auth)
    (editingRequest : option MaintenanceRequest) (fd : FormData) :
  isAdmin auth = false ->
  let p := payload rt auth editingRequest fd in
  obj_get p "status" = VStr "pending"
  /\ obj_get p "estimated_cost" = VNull
  /\ obj_get p "scheduled_date" = VNull
  /\ obj_get p "assigned_vendor" = VNull.
Proof.
  intro Hadm. unfold payload. rewrite Hadm. cbn. auto.
Qed.

(** The payload is what the run writes: every query it issues carries it. *)
Lemma handleSubmit_writes_payload (rt : Runtime) (auth : Auth) (db : Supabase)
    (editingRequest : option MaintenanceRequest) (s : MaintenanceForm.State) (q : Query) :
  In q (queries_of (trace (handleSubmit rt auth db editingRequest s))) ->
  q_verb q = Update (payload rt auth editingRequest (formData s))
  \/ q_verb q = Insert (payload rt auth editingRequest (formData s)).
Proof.
  unfold handleSubmit. unfold_eff. simpl.
  destruct editingRequest as [r|].
  - destruct (mayUpdate auth r); simpl.
    + destruct (mutate db _); simpl; intros [<-|[]]; left;
        unfold update_query; destruct (isAdmin auth); reflexivity.
    + intros [].
  - destruct (mutate db _); simpl; intros [<-|[]]; right; reflexivity.
Qed.

(** An edit keeps the requester whenever the request has one. *)
Lemma edit_keeps_known_requester (rt : Runtime) (auth : Auth)
    (r : MaintenanceRequest) (fd : FormData) (x : string) :
  mr_requested_by r = Some x ->
  obj_get (payload rt auth (Some r) fd) "requested_by" = VStr x.
Proof.
  intro H. unfold payload. cbn. rewrite H. reflexivity.
Qed.

(** An edit of a request without a requester names the editor instead. *)
Lemma edit_fills_missing_requester (rt : Runtime) (auth : Auth)
    (r : MaintenanceRequest) (fd : FormData) :
  mr_requested_by r = None ->
  obj_get (payload rt auth (Some r) fd) "requested_by" = user_id_opt (user auth).
Proof.
  intro H. unfold payload. cbn. rewrite H. reflexivity.
Qed.

(** C8 (resident submissions are normalised, the requester is preserved):
    the code at the input where the second half fails.  An admin, alice,
    edits a request whose [requested_by] is null: the payload written to
    the database carries alice as the requester, not null. *)
Theorem edit_of_requesterless_request_reassigns :
  let r := Sample.request "r9" pending None in
  let run := handleSubmit Sample.runtime Sample.as_admin Sample.db (Some r)
               Sample.form in
  exists p,
    queries_of (trace run)
    = [from "maintenance_requests" (Update p) |> eq_ "id" (VStr "r9")]
    /\ nullable (mr_requested_by r) = VNull
    /\ obj_get p "requested_by" = VStr "alice".
Proof.
  eexists. split; [|split]; reflexivity.
Qed.

End MaintenanceFacts.

(** ** Payments *)

Section PaymentFacts.

Import PaymentPortal.

Lemma find_by_id (p : Payment) (l : list Payment) :
  In p l -> NoDup (map pay_id l) ->
  find (fun q => (pay_id q =? pay_id p)%string) l = Some p.
Proof.
  induction l as [|a l IH]; simpl; [tauto|].
  intros Hin Hnd. inversion Hnd as [|? ? Hnotin Hnd']; subst.
  destruct Hin as [->|Hin].
  - now rewrite String.eqb_refl.
  - destruct (String.eqb_spec (pay_id a) (pay_id p)) as [E|_]; [|auto].
    exfalso. apply Hnotin. rewrite E. now apply in_map.
Qed.

(** Everything [handlePaymentStatusUpdate] sends to the database. *)
Lemma handlePaymentStatusUpdate_queries (rt : Runtime) (auth : Auth) (db : Supabase)
    (paymentId status : string) (paymentMethod : option string) (s : State) :
  queries_of (trace (handlePaymentStatusUpdate rt auth db paymentId status
                       paymentMethod s))
  = update_query rt paymentId status paymentMethod
    :: match mutate db (update_query rt paymentId status paymentMethod) with
       | Some _ => []
       | None => ledger_insert rt auth s paymentId status paymentMethod
       end.
Proof.
  unfold handlePaymentStatusUpdate, ledger_insert. unfold_eff.
  destruct (mutate db (update_query rt paymentId status paymentMethod)); simpl;
    [reflexivity|].
  destruct (find _ (payments s)) as [payment|]; simpl; [|reflexivity].
  destruct (status =? "paid")%string; reflexivity.
Qed.

Lemma updateData_paid (rt : Runtime) (paymentMethod : option string) :
  let u := updateData rt "paid" paymentMethod in
  obj_get u "status" = VStr "paid"
  /\ obj_get u "payment_date" = VStr (today rt)
  /\ (forall m, paymentMethod = Some m -> m <> "" ->
                obj_get u "payment_method" = VStr m).
Proof.
  unfold updateData. simpl.
  destruct paymentMethod as [m|]; simpl.
  - destruct (String.eqb_spec m "") as [->|Hm]; simpl.
    + repeat split; try reflexivity. intros m [= <-] H. congruence.
    + repeat split; try reflexivity. now intros m' [= <-] _.
  - repeat split; try reflexivity. discriminate.
Qed.

Lemma ledger_row_fields (rt : Runtime) (auth : Auth) (p : Payment)
    (paymentMethod : option string) :
  let row := ledger_row rt auth p paymentMethod in
  obj_get row "type" = VStr "income"
  /\ obj_get row "amount" = VNum (pay_amount p)
  /\ obj_get row "category"
     = VStr match pay_payment_type p with
            | monthly_dues => "hoa_fees"
            | _ => "other_income"
            end.
Proof.
  unfold ledger_row. cbn. repeat split.
  destruct (pay_payment_type p); reflexivity.
Qed.

(** C2 (the paid-status transition inserts a ledger transaction).  For a
    payment of the loaded list, whose ids are distinct as the primary key
    makes them: setting it to 'paid' sends an update of that payment
    carrying status 'paid', [payment_date] the current date and the chosen
    payment method; once that update has gone through, the run sends
    exactly one insert, into [transactions], of type 'income', with the
    payment's amount and with category 'hoa_fees' for monthly dues and
    'other_income' otherwise.  Setting it to any other status sends the
    update alone: no insert. *)
Theorem paid_transition_inserts_ledger_transaction
    (rt : Runtime) (auth : Auth) (db : Supabase) (s : State) (p : Payment)
    (paymentMethod : option string) :
  In p (payments s) ->
  NoDup (map pay_id (payments s)) ->
  (exists u,
      update_query rt (pay_id p) "paid" paymentMethod
      = from "payments" (Update u) |> eq_ "id" (VStr (pay_id p))
      /\ obj_get u "status" = VStr "paid"
      /\ obj_get u "payment_date" = VStr (isoDay rt (Date_now rt))
      /\ (forall m, paymentMethod = Some m -> m <> "" ->
                    obj_get u "payment_method" = VStr m)
      /\ (mutate db (update_query rt (pay_id p) "paid" paymentMethod) = None ->
          exists row,
            queries_of (trace (handlePaymentStatusUpdate rt auth db (pay_id p)
                                 "paid" paymentMethod s))
            = [ update_query rt (pay_id p) "paid" paymentMethod;
                from "transactions" (Insert row) ]
            /\ obj_get row "type" = VStr "income"
            /\ obj_get row "amount" = VNum (pay_amount p)
            /\ obj_get row "category"
               = VStr match pay_payment_type p with
                      | monthly_dues => "hoa_fees"
                      | _ => "other_income"
                      end))
  /\ (forall status,
         status <> "paid" ->
         queries_of (trace (handlePaymentStatusUpdate rt auth db (pay_id p)
                              status paymentMethod s))
         = [update_query rt (pay_id p) status paymentMethod]
         /\ inserts_of (trace (handlePaymentStatusUpdate rt auth db (pay_id p)
                                 status paymentMethod s)) = []).
Proof.
  intros Hin Hnd. split.
  - exists (updateData rt "paid" paymentMethod).
    destruct (updateData_paid rt paymentMethod) as (Hs & Hd & Hm).
    repeat split; try assumption.
    intro Hok. exists (ledger_row rt auth p paymentMethod).
    rewrite handlePaymentStatusUpdate_queries, Hok.
    unfold ledger_insert. rewrite (find_by_id p (payments s) Hin Hnd). simpl.
    split; [reflexivity|]. apply (ledger_row_fields rt auth p paymentMethod).
  - intros status Hst.
    assert (E : (status =? "paid")%string = false)
      by now apply String.eqb_neq.
    assert (Hq : queries_of (trace (handlePaymentStatusUpdate rt auth db
                                      (pay_id p) status paymentMethod s))
                 = [update_query rt (pay_id p) status paymentMethod]).
    { rewrite handlePaymentStatusUpdate_queries. unfold ledger_insert.
      rewrite E. destruct (mutate db _); [reflexivity|].
      now destruct (find _ (payments s)). }
    split; [exact Hq|]. unfold inserts_of. rewrite Hq.
    unfold update_query, updateData. rewrite E. reflexivity.
Qed.

(** C2 at the sample data: the admin marks the monthly dues p1 as paid
    online; the fine p2 is cancelled. *)
Lemma paid_transition_inserts_ledger_transaction_witness :
  (exists row,
      queries_of (trace (handlePaymentStatusUpdate Sample.runtime Sample.as_admin
                           Sample.db "p1" "paid" (Some "online") Sample.portal))
      = [ update_query Sample.runtime "p1" "paid" (Some "online");
          from "transactions" (Insert row) ]
      /\ obj_get row "type" = VStr "income"
      /\ obj_get row "amount" = VNum 15000
      /\ obj_get row "category" = VStr "hoa_fees")
  /\ inserts_of (trace (handlePaymentStatusUpdate Sample.runtime Sample.as_admin
                          Sample.db "p2" "cancelled" None Sample.portal)) = [].
Proof.
  assert (Hnd : NoDup (map pay_id (payments Sample.portal))).
  { simpl. repeat constructor; simpl; intuition discriminate. }
  split.
  - destruct (@paid_transition_inserts_ledger_transaction
                Sample.runtime Sample.as_admin Sample.db Sample.portal
                (Sample.payment "p1" 15000 monthly_dues p_pending)
                (Some "online"))
      as ((u & _ & _ & _ & _ & Hins) & _);
      [simpl; auto | exact Hnd |].
    apply Hins. reflexivity.
  - destruct (@paid_transition_inserts_ledger_transaction
                Sample.runtime Sample.as_admin Sample.db Sample.portal
                (Sample.payment "p2" 4000 fine p_overdue) None)
      as (_ & Hother);
      [simpl; auto | exact Hnd |].
    apply (Hother "cancelled"). discriminate.
Defined.

End PaymentFacts.

(** ** The two payment portals *)

Section PortalComparison.

Lemma portal2_queries (rt : Runtime) (db : Supabase) (paymentId status : string)
    (s : PaymentPortal.State) :
  queries_of (trace (PaymentPortal2.handlePaymentStatusUpdate rt db paymentId
                       status s))
  = [PaymentPortal2.update_query rt paymentId status].
Proof.
  unfold PaymentPortal2.handlePaymentStatusUpdate. unfold_eff.
  destruct (mutate db _); reflexivity.
Qed.

Lemma update_query_without_method (rt : Runtime) (paymentId status : string) :
  PaymentPortal.update_query rt paymentId status None
  = PaymentPortal2.update_query rt paymentId status.
Proof.
  unfold PaymentPortal.update_query, PaymentPortal2.update_query,
    PaymentPortal.updateData, PaymentPortal2.updateData.
  destruct (status =? "paid")%string; reflexivity.
Qed.

Lemma update_query_not_paid (rt : Runtime) (paymentId status : string)
    (paymentMethod : option string) :
  status <> "paid" ->
  PaymentPortal.update_query rt paymentId status paymentMethod
  = PaymentPortal2.update_query rt paymentId status.
Proof.
  intro H. apply String.eqb_neq in H.
  unfold PaymentPortal.update_query, PaymentPortal2.update_query,
    PaymentPortal.updateData, PaymentPortal2.updateData.
  now rewrite H.
Qed.

Lemma ledger_insert_mutations (rt : Runtime) (auth : Auth) (s : PaymentPortal.State)
    (paymentId status : string) (paymentMethod : option string) :
  filter is_mutation (ledger_insert rt auth s paymentId status paymentMethod)
  = ledger_insert rt auth s paymentId status paymentMethod.
Proof.
  unfold ledger_insert.
  destruct (find _ _); [|reflexivity].
  destruct (status =? "paid")%string; reflexivity.
Qed.

(** C4, as stated, fails: marking the sample payment p1 as paid, the first
    portal sends an update and a ledger insert, the second the update
    alone. *)
Lemma portals_differ_on_paid :
  mutations_of
    (trace (PaymentPortal.handlePaymentStatusUpdate Sample.runtime Sample.as_admin
              Sample.db "p1" "paid" None Sample.portal))
  <> mutations_of
       (trace (PaymentPortal2.handlePaymentStatusUpdate Sample.runtime Sample.db
                 "p1" "paid" Sample.portal))
  /\ List.length
       (inserts_of
          (trace (PaymentPortal.handlePaymentStatusUpdate Sample.runtime
                    Sample.as_admin Sample.db "p1" "paid" None Sample.portal)))
     = 1%nat
  /\ inserts_of
       (trace (PaymentPortal2.handlePaymentStatusUpdate Sample.runtime Sample.db
                 "p1" "paid" Sample.portal)) = [].
Proof.
  split; [|split]; [|reflexivity|reflexivity].
  vm_compute. discriminate.
Qed.

(** C4, amended.  The two portals send the same update of the payment
    whenever no payment method is passed, and for every status other than
    'paid' they send the same mutations.  They differ on the ledger: the
    second portal never sends an insert, while the mutations of the first
    are those of the second followed by the ledger insert, which is sent
    when the update went through, the payment is in the loaded list and
    the status is 'paid'. *)
Theorem portals_agree_up_to_ledger_insert
    (rt : Runtime) (auth : Auth) (db : Supabase) (s : PaymentPortal.State)
    (paymentId status : string) :
  mutations_of
    (trace (PaymentPortal.handlePaymentStatusUpdate rt auth db paymentId status
              None s))
  = mutations_of
      (trace (PaymentPortal2.handlePaymentStatusUpdate rt db paymentId status s))
    ++ match mutate db (PaymentPortal2.update_query rt paymentId status) with
       | Some _ => []
       | None => ledger_insert rt auth s paymentId status None
       end
  /\ inserts_of
       (trace (PaymentPortal2.handlePaymentStatusUpdate rt db paymentId status s))
     = []
  /\ (forall paymentMethod,
         status <> "paid" ->
         mutations_of
           (trace (PaymentPortal.handlePaymentStatusUpdate rt auth db paymentId
                     status paymentMethod s))
         = mutations_of
             (trace (PaymentPortal2.handlePaymentStatusUpdate rt db paymentId
                       status s))).
Proof.
  unfold mutations_of, inserts_of.
  rewrite portal2_queries. split; [|split].
  - rewrite handlePaymentStatusUpdate_queries, update_query_without_method.
    simpl. f_equal. destruct (mutate db _); [reflexivity|].
    apply ledger_insert_mutations.
  - unfold PaymentPortal2.update_query, PaymentPortal2.updateData.
    destruct (status =? "paid")%string; reflexivity.
  - intros paymentMethod Hst.
    rewrite handlePaymentStatusUpdate_queries.
    rewrite (update_query_not_paid rt paymentId paymentMethod Hst).
    simpl. f_equal. destruct (mutate db _); [reflexivity|].
    unfold ledger_insert. apply String.eqb_neq in Hst. rewrite Hst.
    now destruct (find _ _).
Qed.

(** C4 amended, at the sample data: cancelling p2 with a method given. *)
Lemma portals_agree_up_to_ledger_insert_witness :
  mutations_of
    (trace (PaymentPortal.handlePaymentStatusUpdate Sample.runtime Sample.as_admin
              Sample.db "p2" "cancelled" (Some "cash") Sample.portal))
  = mutations_of
      (trace (PaymentPortal2.handlePaymentStatusUpdate Sample.runtime Sample.db
                "p2" "cancelled" Sample.portal)).
Proof.
  apply (proj2 (proj2 (portals_agree_up_to_ledger_insert
                         Sample.runtime Sample.as_admin Sample.db Sample.portal
                         "p2" "cancelled"))).
  discriminate.
Defined.

End PortalComparison.

(** ** Which queries depend on the caller's role *)

Section RoleDependence.

Lemma loadRequests_queries (u : User) (is_admin : bool) (db : Supabase)
    (s : MaintenanceList.State) :
  queries_of (trace (MaintenanceList.loadRequests (with_role u is_admin) db s))
  = [MaintenanceList.loadRequests_query is_admin u].
Proof.
  unfold MaintenanceList.loadRequests. unfold_eff. simpl.
  destruct (error (select_requests db _)); reflexivity.
Qed.

Lemma loadData_admin_queries (u : User) (db : Supabase) (s : PaymentPortal.State) :
  queries_of (trace (PaymentPortal.loadData (with_role u true) db s))
  = [PaymentPortal.admin_payments_query; PaymentPortal.admin_properties_query].
Proof.
  unfold PaymentPortal.loadData. unfold_eff. simpl.
  destruct (error (select_payments db _)); [reflexivity|].
  destruct (error (select_properties db _)); reflexivity.
Qed.

Lemma loadData_resident_queries (u : User) (db : Supabase) (s : PaymentPortal.State) :
  let auth := with_role u false in
  let propRes := select_properties db (PaymentPortal.user_properties_query auth) in
  queries_of (trace (PaymentPortal.loadData auth db s))
  = PaymentPortal.user_properties_query auth
    :: match error propRes, data propRes with
       | None, Some (p :: ps) =>
           [PaymentPortal.user_payments_query (map prop_id (p :: ps))]
       | _, _ => []
       end.
Proof.
  unfold PaymentPortal.loadData. unfold_eff. simpl.
  destruct (error (select_properties db _)); [reflexivity|]. simpl.
  destruct (data (select_properties db _)) as [[|p ps]|]; try reflexivity.
  simpl. destruct (error (select_payments db _)); reflexivity.
Qed.

Lemma loadDashboardData_queries (db : Supabase) (s : Dashboard.State) :
  queries_of (trace (Dashboard.loadDashboardData db s))
  = [Dashboard.transactions_query; Dashboard.payments_query;
     Dashboard.maintenance_query].
Proof. reflexivity. Qed.

(** C3, as stated, fails: the same user, once as admin and once as
    resident, gets different queries from the maintenance page and from
    the payments page. *)
Lemma queries_depend_on_role :
  queries_of (trace (MaintenanceList.loadRequests (with_role Sample.bob true)
                       Sample.db Sample.list_state))
  <> queries_of (trace (MaintenanceList.loadRequests (with_role Sample.bob false)
                          Sample.db Sample.list_state))
  /\ queries_of (trace (PaymentPortal.loadData (with_role Sample.bob true)
                          Sample.db Sample.portal))
     <> queries_of (trace (PaymentPortal.loadData (with_role Sample.bob false)
                             Sample.db Sample.portal)).
Proof.
  split; vm_compute; discriminate.
Qed.

(** C3, amended.  On top of the database's row-level security the
    application adds filters that depend on the role.  The maintenance
    page loads, for an admin, all requests by creation date and, for a
    resident, the same query with the one more filter [requested_by] = the
    user's id.  The payments page loads, for an admin, all payments and all
    properties and, for a resident, the properties whose [owner_id] is the
    user's id and then, exactly when that query succeeded with at least one
    property, the payments whose [property_id] is one of the ids of the
    properties that came back, by due date, and no payments query
    otherwise.  The dashboard, whose code does not read
    the role, issues the same three queries for every caller. *)
Theorem application_adds_role_filters (u : User) (db : Supabase) :
  (forall s,
      queries_of (trace (MaintenanceList.loadRequests (with_role u true) db s))
      = [from "maintenance_requests" (Select "*") |> order_ "created_at" false]
      /\ queries_of (trace (MaintenanceList.loadRequests (with_role u false) db s))
         = [from "maintenance_requests" (Select "*") |> order_ "created_at" false
              |> eq_ "requested_by" (VStr (user_id u))])
  /\ (forall s,
      queries_of (trace (PaymentPortal.loadData (with_role u true) db s))
      = [from "payments" (Select "*, properties(unit_number, address)")
           |> order_ "due_date" false;
         from "properties" (Select "*") |> order_ "unit_number" true]
      /\ let owned := from "properties" (Select "*")
                         |> eq_ "owner_id" (VStr (user_id u)) in
         queries_of (trace (PaymentPortal.loadData (with_role u false) db s))
         = owned
           :: match error (select_properties db owned),
                    data (select_properties db owned) with
              | None, Some (p :: ps) =>
                  [from "payments" (Select "*")
                     |> in_ "property_id" (map VStr (map prop_id (p :: ps)))
                     |> order_ "due_date" false]
              | _, _ => []
              end)
  /\ (forall s,
      queries_of (trace (Dashboard.loadDashboardData db s))
      = [from "transactions" (Select "*") |> order_ "transaction_date" false;
         from "payments" (Select "*") |> eq_ "status" (VStr "pending");
         from "maintenance_requests" (Select "*")
           |> order_ "created_at" false |> limit_ 5]).
Proof.
  split; [|split].
  - intro s. now rewrite !loadRequests_queries.
  - intro s. rewrite loadData_admin_queries. split; [reflexivity|].
    exact (loadData_resident_queries u db s).
  - intro s. apply loadDashboardData_queries.
Qed.

End RoleDependence.

(** ** Pending payments on the dashboard and on the payments page *)

Section PendingFigures.

Lemma fold_sum_shift {A : Type} (f : A -> Z) (l : list A) (a : Z) :
  fold_left (fun sum x => sum + f x) l a
  = a + fold_left (fun sum x => sum + f x) l 0.
Proof.
  revert a. induction l as [|x l IH]; intro a; simpl; [lia|].
  rewrite (IH (a + f x)), (IH (f x)). lia.
Qed.

Lemma reduce_sum_nil {A : Type} (f : A -> Z) : reduce_sum f [] = 0.
Proof. reflexivity. Qed.

Lemma reduce_sum_cons {A : Type} (f : A -> Z) (x : A) (l : list A) :
  reduce_sum f (x :: l) = f x + reduce_sum f l.
Proof. unfold reduce_sum. simpl. now rewrite fold_sum_shift. Qed.

Lemma reduce_sum_app {A : Type} (f : A -> Z) (l1 l2 : list A) :
  reduce_sum f (l1 ++ l2) = reduce_sum f l1 + reduce_sum f l2.
Proof.
  induction l1 as [|x l1 IH]; simpl; [reflexivity|].
  rewrite !reduce_sum_cons, IH. lia.
Qed.

Lemma PaymentStatus_eqb_eq (a b : PaymentStatus) :
  PaymentStatus_eqb a b = true <-> a = b.
Proof. destruct a, b; split; intro H; try reflexivity; discriminate. Qed.

Lemma amount_in_status_filter (st : PaymentStatus) (ps : list Payment) :
  reduce_sum pay_amount (filter (fun p => PaymentStatus_eqb (pay_status p) st) ps)
  = amount_in_status st ps.
Proof.
  induction ps as [|p ps IH]; simpl; [reflexivity|].
  destruct (PaymentStatus_eqb (pay_status p) st).
  - now rewrite reduce_sum_cons, IH.
  - rewrite IH. lia.
Qed.

Lemma totalPending_split (ps : list Payment) :
  PaymentPortal.totalPending ps
  = amount_in_status p_pending ps + amount_in_status p_overdue ps.
Proof.
  unfold PaymentPortal.totalPending.
  induction ps as [|p ps IH]; simpl; [reflexivity|].
  destruct (pay_status p); simpl;
    rewrite ?reduce_sum_cons, IH; lia.
Qed.

(** What the database returns for the dashboard's payments query. *)
Lemma dashboard_payments_rows (ps : list Payment) :
  data (Postgres.run_select Postgres.payment_column ps Dashboard.payments_query)
  = Some (filter (fun p => PaymentStatus_eqb (pay_status p) p_pending) ps).
Proof.
  unfold Postgres.run_select. simpl. f_equal.
  apply filter_ext. intro p. destruct (pay_status p); reflexivity.
Qed.

Lemma dashboard_pendingPayments (t : Postgres.Tables)
    (failure : Query -> option string) (s : Dashboard.State) :
  Dashboard.pendingPayments
    (Dashboard.stats
       (final_state (Dashboard.loadDashboardData (Postgres.client t failure) s)))
  = amount_in_status p_pending (Postgres.payments t).
Proof.
  unfold Dashboard.loadDashboardData. unfold_eff.
  cbn [fst snd Dashboard.stats Dashboard.setStats Dashboard.setLoading
       Dashboard.setRecentTransactions Dashboard.setRecentMaintenance
       Dashboard.pendingPayments select_payments Postgres.client].
  rewrite dashboard_payments_rows. simpl data_or_empty.
  apply amount_in_status_filter.
Qed.

(** C9.  The dashboard's 'Pending Payments' is the total of the payments
    whose status is exactly 'pending' (the database filters them), the
    payments page's pending total is the total of the payments that are
    'pending' or 'overdue'; over the same payments the two figures are
    equal exactly when the overdue payments sum to zero. *)
Theorem dashboard_and_portal_pending_figures
    (t : Postgres.Tables) (failure : Query -> option string) (s : Dashboard.State) :
  let ps := Postgres.payments t in
  let dashboard :=
    Dashboard.pendingPayments
      (Dashboard.stats
         (final_state (Dashboard.loadDashboardData (Postgres.client t failure) s))) in
  dashboard = amount_in_status p_pending ps
  /\ PaymentPortal.totalPending ps
     = amount_in_status p_pending ps + amount_in_status p_overdue ps
  /\ (dashboard = PaymentPortal.totalPending ps
      <-> amount_in_status p_overdue ps = 0).
Proof.
  cbv zeta. rewrite dashboard_pendingPayments, totalPending_split.
  repeat split; lia.
Qed.

End PendingFigures.

(** ** The balance sheet *)

Section BalanceSheet.

Import FinancialStatements.

(** C10.  Whatever the transactions, the payments and the period, the
    sheet of [calculateBalanceSheet] has total assets equal to cash plus
    accounts receivable, retained earnings equal to total assets minus
    total liabilities, and total assets equal to total liabilities plus
    total equity. *)
Theorem balance_sheet_balances
    (rt : Runtime) (transactions : list Transaction) (payments : list Payment)
    (period : Period) :
  let sheet := calculateBalanceSheet rt transactions payments period in
  assets_total (assets sheet)
  = cash (assets sheet) + accountsReceivable (assets sheet)
  /\ retainedEarnings (equity sheet)
     = assets_total (assets sheet) - liabilities_total (liabilities sheet)
  /\ assets_total (assets sheet)
     = liabilities_total (liabilities sheet) + equity_total (equity sheet).
Proof.
  unfold calculateBalanceSheet. cbn -[Z.add Z.sub]. repeat split; lia.
Qed.

End BalanceSheet.

(** ** Profile roles *)

Section ProfileRoles.

Import Profiles.

Lemma role_check_valid (r : string) : role_check r = true <-> valid_role r.
Proof.
  unfold role_check, valid_role.
  rewrite orb_true_iff, !String.eqb_eq. tauto.
Qed.

Lemma Role_of_string_valid (r : string) :
  valid_role r <-> exists ro, Role_of_string r = Some ro /\ Role_str ro = r.
Proof.
  unfold valid_role, Role_of_string. split.
  - intros [-> | ->]; [now exists admin | now exists resident].
  - intros (ro & H & <-). destruct ro; auto.
Qed.

(** The form only ever holds one of the two option values as its role. *)
Lemma form_role_invariant (steps : list LoginForm.Step) (s : LoginForm.State) :
  valid_role (LoginForm.role s) ->
  valid_role (LoginForm.role (fold_left LoginForm.step steps s)).
Proof.
  revert s. induction steps as [|x steps IH]; intros s Hs; [exact Hs|].
  simpl. apply IH. destruct x as [i|failure]; simpl.
  - destruct i as [| | v | o | v | v]; simpl; try exact Hs.
    destruct o; [right|left]; reflexivity.
  - destruct failure; [exact Hs|]. destruct (LoginForm.mode s); exact Hs.
Qed.

Lemma sign_up_role (steps : list LoginForm.Step) (failure : option string)
    (e pw n r : string) :
  fst (LoginForm.handleSubmit failure (LoginForm.run steps))
  = LoginForm.signUp e pw n r ->
  valid_role r.
Proof.
  unfold LoginForm.handleSubmit, LoginForm.submitted. simpl.
  pose proof (form_role_invariant steps LoginForm.initialState
                (or_intror eq_refl)) as H.
  fold (LoginForm.run steps) in H.
  destruct (LoginForm.mode (LoginForm.run steps)); [discriminate|].
  intros [= _ _ _ <-]. exact H.
Qed.

Lemma existsb_column {A : Type} (f : A -> string) (k : string) (l : list A) :
  existsb (fun x => (f x =? k)%string) l = true <-> In k (map f l).
Proof.
  rewrite existsb_exists, in_map_iff.
  split; intros (x & H1 & H2); exists x.
  - apply String.eqb_eq in H2. now split.
  - split; [exact H2|now apply String.eqb_eq].
Qed.

(** The three ways the trigger's insert can end. *)
Lemma handle_new_user_cases (NEW : AuthUser) (table : list Row) :
  match au_email NEW with
  | None => handle_new_user NEW table = inr "not_null_violation"
  | Some e =>
      let ro := match raw_user_meta_data NEW "role" with
                | Some r => r | None => "resident" end in
      let n := match raw_user_meta_data NEW "full_name" with
               | Some x => x | None => before_at e end in
      if negb (role_check ro)
      then handle_new_user NEW table = inr "check_violation"
      else if existsb (fun x => (id x =? au_id NEW)%string) table
      then handle_new_user NEW table = inl table
      else if existsb (fun x => (email x =? e)%string) table
      then handle_new_user NEW table = inr "unique_violation"
      else handle_new_user NEW table
           = inl (table ++ [ {| id := au_id NEW; email := e; full_name := n;
                                role := ro; phone := None |} ])
  end.
Proof.
  unfold handle_new_user, insert_on_conflict_do_nothing, new_profile. simpl.
  destruct (au_email NEW) as [e|]; [|reflexivity]. simpl.
  destruct (raw_user_meta_data NEW "full_name"),
           (raw_user_meta_data NEW "role"); simpl;
    repeat (match goal with |- context [if ?b then _ else _] => destruct b end);
    reflexivity.
Qed.

(** For a user who has no profile yet, whose email is present and not in
    use, and whose supplied role, if any, is one of the two, the trigger
    creates the profile. *)
Lemma handle_new_user_creates (NEW : AuthUser) (table : list Row) (e : string) :
  au_email NEW = Some e ->
  ~ In (au_id NEW) (map id table) ->
  ~ In e (map email table) ->
  (forall r, raw_user_meta_data NEW "role" = Some r -> valid_role r) ->
  exists row,
    handle_new_user NEW table = inl (table ++ [row])
    /\ id row = au_id NEW
    /\ email row = e
    /\ role row = match raw_user_meta_data NEW "role" with
                  | Some r => r
                  | None => "resident"
                  end.
Proof.
  intros He Hid Hemail Hrole.
  pose proof (handle_new_user_cases NEW table) as H.
  rewrite He in H. cbv zeta in H.
  assert (Hck : role_check match raw_user_meta_data NEW "role" with
                           | Some r => r
                           | None => "resident"
                           end = true).
  { apply role_check_valid.
    destruct (raw_user_meta_data NEW "role") as [r|];
      [now apply Hrole | now right]. }
  rewrite Hck in H. simpl in H.
  destruct (existsb (fun x => (id x =? au_id NEW)%string) table) eqn:E1.
  { apply (proj1 (existsb_column id (au_id NEW) table)) in E1. contradiction. }
  destruct (existsb (fun x => (email x =? e)%string) table) eqn:E2.
  { apply (proj1 (existsb_column email e table)) in E2. contradiction. }
  eexists. split; [exact H|]. simpl. auto.
Qed.

(** A profile that exists is left alone: the insert does nothing on a
    conflict on [id]. *)
Lemma handle_new_user_existing (NEW : AuthUser) (table table' : list Row) :
  handle_new_user NEW table = inl table' ->
  In (au_id NEW) (map id table) ->
  table' = table.
Proof.
  intros H Hin.
  pose proof (handle_new_user_cases NEW table) as Hc.
  apply (proj2 (existsb_column id (au_id NEW) table)) in Hin.
  destruct (au_email NEW) as [e|]; [|congruence]. cbv zeta in Hc.
  destruct (negb _); [congruence|].
  rewrite Hin in Hc. congruence.
Qed.

(** Without one, a successful trigger has added a row. *)
Lemma handle_new_user_new (NEW : AuthUser) (table table' : list Row) :
  handle_new_user NEW table = inl table' ->
  ~ In (au_id NEW) (map id table) ->
  exists row,
    table' = table ++ [row]
    /\ id row = au_id NEW
    /\ Some (role row) = COALESCE (raw_user_meta_data NEW "role") (Some "resident")
    /\ valid_role (role row).
Proof.
  intros H Hnin.
  pose proof (handle_new_user_cases NEW table) as Hc.
  destruct (au_email NEW) as [e|]; [|congruence]. cbv zeta in Hc.
  destruct (negb (role_check _)) eqn:Hck; [congruence|].
  destruct (existsb (fun x => (id x =? au_id NEW)%string) table) eqn:E1.
  { apply (proj1 (existsb_column id (au_id NEW) table)) in E1. contradiction. }
  destruct (existsb (fun x => (email x =? e)%string) table); [congruence|].
  rewrite Hc in H. injection H as <-.
  eexists. split; [reflexivity|]. simpl. repeat split.
  - now destruct (raw_user_meta_data NEW "role").
  - apply role_check_valid. now apply negb_false_iff in Hck.
Qed.

(** The trigger leaves the table alone or adds one row, whose role is the
    supplied one or, without one, 'resident', and passes the check. *)
Lemma handle_new_user_inserts (NEW : AuthUser) (table table' : list Row) :
  handle_new_user NEW table = inl table' ->
  table' = table
  \/ exists row,
      table' = table ++ [row]
      /\ id row = au_id NEW
      /\ Some (role row) = COALESCE (raw_user_meta_data NEW "role") (Some "resident")
      /\ valid_role (role row).
Proof.
  unfold handle_new_user, insert_on_conflict_do_nothing, new_profile. simpl.
  destruct (au_email NEW) as [e|]; [|discriminate].
  destruct (COALESCE (raw_user_meta_data NEW "full_name") _) as [n|];
    [|discriminate].
  destruct (COALESCE (raw_user_meta_data NEW "role") (Some "resident"))
    as [ro|] eqn:Hro; [|discriminate].
  destruct (role_check ro) eqn:Hck; simpl; [|discriminate].
  destruct (existsb _ table); [intros [= <-]; now left|].
  destruct (existsb _ table); [discriminate|].
  intros [= <-]. right. eexists. split; [reflexivity|]. simpl.
  repeat split. now apply role_check_valid.
Qed.

Lemma reachable_roles (table : list Row) :
  reachable table -> Forall (fun row => valid_role (role row)) table.
Proof.
  induction 1 as [|NEW table table' _ IH Hstep]; [constructor|].
  apply handle_new_user_inserts in Hstep.
  destruct Hstep as [-> | (row & -> & _ & _ & Hrole)]; [exact IH|].
  apply Forall_app. split; [exact IH|]. now constructor.
Qed.

(** C7 (profile role invariant).  Whatever is done at the form, a
    registration submits the role 'admin' or 'resident'.  For a new auth
    user (no profile with this id, an email that is present and that no
    profile uses, a supplied role that is one of the two, or none) the
    trigger creates the profile: it adds one row for the user, with the
    supplied role or, if none was supplied, 'resident'.  Whenever the
    trigger succeeds it has either found a profile with the user's id and
    left [profiles] as it was, or found none and added that one row.
    Every row of every table the trigger can produce carries one of the
    two roles, so it reads as a [Profile], whose role is
    'admin' | 'resident'. *)
Theorem profile_role_invariant :
  (forall steps failure e pw n r,
      fst (LoginForm.handleSubmit failure (LoginForm.run steps))
      = LoginForm.signUp e pw n r ->
      r = "admin" \/ r = "resident")
  /\ (forall NEW table e,
      au_email NEW = Some e ->
      ~ In (au_id NEW) (map id table) ->
      ~ In e (map email table) ->
      (forall r, raw_user_meta_data NEW "role" = Some r ->
                 r = "admin" \/ r = "resident") ->
      exists row,
        handle_new_user NEW table = inl (table ++ [row])
        /\ id row = au_id NEW
        /\ email row = e
        /\ role row = match raw_user_meta_data NEW "role" with
                      | Some r => r
                      | None => "resident"
                      end)
  /\ (forall NEW table table',
      handle_new_user NEW table = inl table' ->
      (In (au_id NEW) (map id table) /\ table' = table)
      \/ (~ In (au_id NEW) (map id table)
          /\ exists row,
              table' = table ++ [row]
              /\ id row = au_id NEW
              /\ Some (role row)
                 = COALESCE (raw_user_meta_data NEW "role") (Some "resident")))
  /\ (forall table row,
      reachable table -> In row table ->
      (role row = "admin" \/ role row = "resident")
      /\ exists ro : Role, Role_of_string (role row) = Some ro
                           /\ Role_str ro = role row).
Proof.
  split; [|split; [|split]].
  - intros steps failure e pw n r H. exact (sign_up_role steps failure H).
  - intros NEW table e He Hid Hemail Hrole.
    exact (handle_new_user_creates NEW table He Hid Hemail Hrole).
  - intros NEW table table' H.
    destruct (in_dec string_dec (au_id NEW) (map id table)) as [Hin|Hnin].
    + left. split; [exact Hin|]. exact (handle_new_user_existing NEW table H Hin).
    + right. split; [exact Hnin|].
      destruct (handle_new_user_new NEW table H Hnin)
        as (row & -> & Hid & Hrole & _).
      now exists row.
  - intros table row Hreach Hin.
    pose proof (reachable_roles Hreach) as Hall.
    rewrite Forall_forall in Hall. specialize (Hall row Hin).
    split; [exact Hall|]. now apply Role_of_string_valid.
Qed.

(** C7 at the sample data: carol registers as an admin, the trigger
    creates her profile in an empty table. *)
Lemma profile_role_invariant_witness :
  ("admin" = "admin" \/ "admin" = "resident")
  /\ (exists row,
        handle_new_user Sample.carol [] = inl ([] ++ [row])
        /\ id row = au_id Sample.carol
        /\ email row = "carol@hoa.com"
        /\ role row = match raw_user_meta_data Sample.carol "role" with
                      | Some r => r
                      | None => "resident"
                      end)
  /\ ((In (au_id Sample.carol) (map id []) /\ [Sample.carol_row] = [])
      \/ (~ In (au_id Sample.carol) (map id [])
          /\ exists row,
              [Sample.carol_row] = [] ++ [row]
              /\ id row = au_id Sample.carol
              /\ Some (role row)
                 = COALESCE (raw_user_meta_data Sample.carol "role")
                            (Some "resident")))
  /\ ((role Sample.carol_row = "admin" \/ role Sample.carol_row = "resident")
      /\ exists ro : Role, Role_of_string (role Sample.carol_row) = Some ro
                           /\ Role_str ro = role Sample.carol_row).
Proof.
  destruct profile_role_invariant as (Hform & Hcreate & Htrigger & Hrows).
  split; [|split; [|split]].
  - apply (Hform Sample.registration None "carol@hoa.com" "secret1" "Carol" "admin").
    reflexivity.
  - apply (Hcreate Sample.carol [] "carol@hoa.com").
    + reflexivity.
    + simpl. tauto.
    + simpl. tauto.
    + intros r Hr. vm_compute in Hr. injection Hr as <-. now left.
  - apply (Htrigger Sample.carol [] [Sample.carol_row]). reflexivity.
  - apply (Hrows [Sample.carol_row] Sample.carol_row).
    + apply (reach_new_user Sample.carol reach_empty). reflexivity.
    + simpl. auto.
Defined.

End ProfileRoles.

(** ** Sorting *)

Section SortFacts.

Context {A : Type} (cmp : A -> A -> Z).

Lemma sort_insert_perm (x : A) (l : list A) :
  Permutation (sort_insert cmp x l) (x :: l).
Proof.
  induction l as [|y l IH]; simpl; [reflexivity|].
  destruct (cmp x y <=? 0); [reflexivity|].
  rewrite IH. apply perm_swap.
Qed.

Lemma sort_perm (l : list A) : Permutation (sort cmp l) l.
Proof.
  induction l as [|x l IH]; simpl; [reflexivity|].
  rewrite sort_insert_perm. now constructor.
Qed.

(** A comparator is usable when of two elements one may stay first. *)
Hypothesis cmp_total : forall a b, cmp a b <= 0 \/ cmp b a <= 0.

Let before (a b : A) : Prop := cmp a b <= 0.

Lemma sort_insert_sorted (x : A) (l : list A) :
  Sorted before l -> Sorted before (sort_insert cmp x l).
Proof.
  induction 1 as [|y l Hl IH Hhd]; simpl.
  - repeat constructor.
  - destruct (Z.leb_spec (cmp x y) 0) as [Hxy|Hxy].
    + constructor; [now constructor|now constructor].
    + constructor; [exact IH|].
      destruct l as [|z l]; simpl.
      * constructor. destruct (cmp_total x y); [lia|assumption].
      * destruct (cmp x z <=? 0).
        -- constructor. destruct (cmp_total x y); [lia|assumption].
        -- inversion Hhd; subst. now constructor.
Qed.

Lemma sort_sorted (l : list A) : Sorted before (sort cmp l).
Proof.
  induction l as [|x l IH]; simpl; [constructor|].
  now apply sort_insert_sorted.
Qed.

End SortFacts.

Lemma Sorted_weaken {A : Type} (R R' : A -> A -> Prop) (l : list A) :
  (forall a b, R a b -> R' a b) -> Sorted R l -> Sorted R' l.
Proof.
  intro H. induction 1 as [|x l _ IH Hhd]; constructor; [exact IH|].
  destruct Hhd; constructor. now apply H.
Qed.

Lemma reduce_sum_perm {A : Type} (f : A -> Z) (l l' : list A) :
  Permutation l l' -> reduce_sum f l = reduce_sum f l'.
Proof.
  induction 1 as [|x l l' _ IH|x y l|l l' l'' _ IH1 _ IH2].
  - reflexivity.
  - now rewrite !reduce_sum_cons, IH.
  - rewrite !reduce_sum_cons. lia.
  - now rewrite IH1.
Qed.

Lemma reduce_sum_map {A B : Type} (g : A -> B) (f : B -> Z) (l : list A) :
  reduce_sum f (map g l) = reduce_sum (fun x => f (g x)) l.
Proof.
  induction l as [|x l IH]; [reflexivity|].
  simpl. now rewrite !reduce_sum_cons, IH.
Qed.

(** ** Maps in insertion order *)

Section JsMapFacts.

Context {V : Type}.

Lemma map_has_keys (m : JsMap V) (k : string) :
  map_has m k = true <-> In k (keys m).
Proof.
  induction m as [|[k' v] m IH]; simpl; [split; [discriminate|tauto]|].
  rewrite orb_true_iff, String.eqb_eq, IH. tauto.
Qed.

Lemma map_set_absent (m : JsMap V) (k : string) (v : V) :
  map_has m k = false -> map_set m k v = m ++ [(k, v)].
Proof.
  induction m as [|[k' v'] m IH]; simpl; [reflexivity|].
  intro H. apply orb_false_iff in H as [Hk Hm].
  rewrite Hk. now rewrite IH.
Qed.

Lemma keys_map_mutate (m : JsMap V) (k : string) (f : V -> V) :
  keys (map_mutate m k f) = keys m.
Proof.
  induction m as [|[k' v] m IH]; simpl; [reflexivity|].
  destruct (k' =? k)%string; simpl; [reflexivity|now rewrite IH].
Qed.

Lemma map_get_mutate (m : JsMap V) (k k0 : string) (f : V -> V) :
  map_get (map_mutate m k f) k0
  = if (k =? k0)%string then option_map f (map_get m k0) else map_get m k0.
Proof.
  induction m as [|[k' v] m IH]; simpl.
  - now destruct (k =? k0)%string.
  - destruct (String.eqb_spec k' k) as [->|Hk]; simpl.
    + destruct (String.eqb_spec k k0) as [->|Hk0]; reflexivity.
    + destruct (String.eqb_spec k' k0) as [->|Hk0].
      * destruct (String.eqb_spec k k0); [congruence|reflexivity].
      * exact IH.
Qed.

Lemma map_get_app_absent (m : JsMap V) (k k0 : string) (v : V) :
  map_has m k = false ->
  map_get (m ++ [(k, v)]) k0
  = if (k =? k0)%string then Some v else map_get m k0.
Proof.
  induction m as [|[k' v'] m IH]; simpl; [reflexivity|].
  intro H. apply orb_false_iff in H as [Hk Hm].
  destruct (String.eqb_spec k' k0) as [->|Hk0].
  - now rewrite String.eqb_sym, Hk.
  - now apply IH.
Qed.

Lemma map_get_none (m : JsMap V) (k : string) :
  map_has m k = false <-> map_get m k = None.
Proof.
  induction m as [|[k' v] m IH]; simpl; [tauto|].
  destruct (k' =? k)%string; simpl; [split; discriminate|exact IH].
Qed.

Lemma map_get_in (m : JsMap V) (k : string) (v : V) :
  NoDup (keys m) -> (In (k, v) m <-> map_get m k = Some v).
Proof.
  induction m as [|[k' v'] m IH]; simpl; [split; [tauto|discriminate]|].
  intro Hnd. inversion Hnd as [|? ? Hnotin Hnd']; subst.
  destruct (String.eqb_spec k' k) as [->|Hk].
  - split.
    + intros [[= ->]|Hin]; [reflexivity|].
      exfalso. apply Hnotin. now apply (in_map fst) in Hin.
    + intros [= ->]. now left.
  - rewrite <- (IH Hnd'). split; [|tauto].
    intros [[= ? ?]|Hin]; [congruence|exact Hin].
Qed.

End JsMapFacts.

(** ** Grouping loops *)

Section GroupFacts.

Context {T V : Type} (key : T -> string) (zero : V) (upd : T -> V -> V).

Let step := group_step key zero upd.

Lemma map_mutate_app_absent (m : JsMap V) (k : string) (v : V) (f : V -> V) :
  map_has m k = false -> map_mutate (m ++ [(k, v)]) k f = m ++ [(k, f v)].
Proof.
  induction m as [|[k' v'] m IH]; simpl.
  - now rewrite String.eqb_refl.
  - intro H. apply orb_false_iff in H as [Hk Hm]. rewrite Hk. now rewrite IH.
Qed.

(** One turn of the loop, by cases on whether the key is already there. *)
Lemma group_step_cases (m : JsMap V) (t : T) :
  (map_has m (key t) = true /\ step m t = map_mutate m (key t) (upd t))
  \/ (map_has m (key t) = false /\ step m t = m ++ [(key t, upd t zero)]).
Proof.
  unfold step, group_step. destruct (map_has m (key t)) eqn:H; simpl.
  - now left.
  - right. split; [reflexivity|].
    rewrite (@map_set_absent _ m (key t) zero H).
    now apply map_mutate_app_absent.
Qed.

Lemma group_step_keys (m : JsMap V) (t : T) :
  keys (step m t) = if map_has m (key t) then keys m else keys m ++ [key t].
Proof.
  destruct (group_step_cases m t) as [[H ->]|[H ->]]; rewrite H.
  - apply keys_map_mutate.
  - unfold keys. now rewrite map_app.
Qed.

Lemma group_step_nodup (m : JsMap V) (t : T) :
  NoDup (keys m) -> NoDup (keys (step m t)).
Proof.
  intro Hnd. rewrite group_step_keys.
  destruct (map_has m (key t)) eqn:H; [exact Hnd|].
  apply NoDup_app; [exact Hnd|repeat constructor; simpl; tauto|].
  intros k Hin [<-|[]].
  apply map_has_keys in Hin. congruence.
Qed.

Lemma group_step_get (m : JsMap V) (t : T) (k : string) :
  map_get (step m t) k
  = if (key t =? k)%string
    then Some (upd t match map_get m k with Some v => v | None => zero end)
    else map_get m k.
Proof.
  destruct (group_step_cases m t) as [[H ->]|[H ->]].
  - rewrite map_get_mutate.
    destruct (String.eqb_spec (key t) k) as [<-|_]; [|reflexivity].
    destruct (map_get m (key t)) eqn:G; [reflexivity|].
    apply map_get_none in G. congruence.
  - rewrite (@map_get_app_absent _ m (key t) k (upd t zero) H).
    destruct (String.eqb_spec (key t) k) as [<-|_]; [|reflexivity].
    apply map_get_none in H. now rewrite H.
Qed.

Lemma fold_step_nodup (l : list T) (m : JsMap V) :
  NoDup (keys m) -> NoDup (keys (fold_left step l m)).
Proof.
  revert m. induction l as [|t l IH]; intros m H; simpl; [exact H|].
  apply IH. now apply group_step_nodup.
Qed.

(** The entry of a key after the loop over [l], started on an empty map. *)
Lemma fold_step_get (l : list T) (k : string) :
  map_get (fold_left step l []) k
  = if existsb (fun t => (key t =? k)%string) l
    then Some (group_value key zero upd l k)
    else None.
Proof.
  unfold group_value.
  induction l as [|t l IH] using rev_ind; [reflexivity|].
  rewrite fold_left_app. simpl. rewrite group_step_get, IH.
  rewrite existsb_app, filter_app. simpl.
  destruct (key t =? k)%string; simpl.
  - rewrite orb_true_r, fold_left_app. simpl. f_equal. f_equal.
    destruct (existsb _ l) eqn:E; [reflexivity|].
    assert (F : filter (fun t0 => (key t0 =? k)%string) l = []).
    { clear IH. induction l as [|a l IHl]; [reflexivity|].
      simpl in E. apply orb_false_iff in E as [Ea El].
      simpl. rewrite Ea. now apply IHl. }
    now rewrite F.
  - now rewrite orb_false_r, app_nil_r.
Qed.

(** The entries after the loop, up to their order: one per key that
    occurs, holding the key's value. *)
Lemma fold_step_entries (l : list T) :
  Permutation (fold_left step l [])
    (map (fun k => (k, group_value key zero upd l k))
         (nodup string_dec (map key l))).
Proof.
  assert (Hnd : NoDup (keys (fold_left step l [])))
    by (apply fold_step_nodup; constructor).
  apply NoDup_Permutation.
  - now apply NoDup_map_inv in Hnd.
  - apply (NoDup_map_inv fst). rewrite map_map. simpl. rewrite map_id.
    apply NoDup_nodup.
  - intros [k v]. rewrite (@map_get_in _ _ k v Hnd), fold_step_get, in_map_iff.
    split.
    + destruct (existsb _ l) eqn:E; [|discriminate].
      intros [= <-]. exists k. split; [reflexivity|].
      apply nodup_In. apply existsb_exists in E as (t & Hin & Ht).
      apply String.eqb_eq in Ht. subst k. now apply in_map.
    + intros (k' & [= -> <-] & Hin). apply nodup_In in Hin.
      apply in_map_iff in Hin as (t & <- & Hin).
      assert (E : existsb (fun t0 => (key t0 =? key t)%string) l = true).
      { apply existsb_exists. exists t. split; [exact Hin|apply String.eqb_refl]. }
      now rewrite E.
Qed.

(** A quantity that each update raises by [d t] is raised over the loop by
    the sum of [d]. *)
Section Totals.

Variables (g : V -> Z) (d : T -> Z).
Hypothesis g_zero : g zero = 0.
Hypothesis g_upd : forall t v, g (upd t v) = g v + d t.

Lemma map_mutate_total (m : JsMap V) (t : T) :
  map_has m (key t) = true ->
  reduce_sum (fun e => g (snd e)) (map_mutate m (key t) (upd t))
  = reduce_sum (fun e => g (snd e)) m + d t.
Proof.
  induction m as [|[k' v] m IH]; simpl; [discriminate|].
  destruct (k' =? key t)%string; simpl; intro H.
  - rewrite !reduce_sum_cons. simpl. rewrite g_upd. lia.
  - rewrite !reduce_sum_cons, (IH H). lia.
Qed.

Lemma group_step_total (m : JsMap V) (t : T) :
  reduce_sum (fun e => g (snd e)) (step m t)
  = reduce_sum (fun e => g (snd e)) m + d t.
Proof.
  destruct (group_step_cases m t) as [[H ->]|[H ->]].
  - now apply map_mutate_total.
  - rewrite reduce_sum_app, reduce_sum_cons, reduce_sum_nil. simpl.
    rewrite g_upd, g_zero. lia.
Qed.

Lemma fold_step_total (l : list T) (m : JsMap V) :
  reduce_sum (fun e => g (snd e)) (fold_left step l m)
  = reduce_sum (fun e => g (snd e)) m + reduce_sum d l.
Proof.
  revert m. induction l as [|t l IH]; intro m; simpl.
  - rewrite reduce_sum_nil. lia.
  - rewrite IH, group_step_total, reduce_sum_cons. lia.
Qed.

End Totals.

(** A property that every update establishes holds of every entry. *)
Section Entries.

Variable P : V -> Prop.
Hypothesis P_upd : forall t v, P v \/ v = zero -> P (upd t v).

Lemma group_step_all (m : JsMap V) (t : T) :
  Forall (fun e => P (snd e)) m -> Forall (fun e => P (snd e)) (step m t).
Proof.
  destruct (group_step_cases m t) as [[_ ->]|[_ ->]]; intro H.
  - induction H as [|[k' v] m Hv Hm IH]; simpl; [constructor|].
    destruct (k' =? key t)%string; constructor; try assumption.
    simpl. apply P_upd. now left.
  - apply Forall_app. split; [exact H|]. repeat constructor. simpl. auto.
Qed.

Lemma fold_step_all (l : list T) (m : JsMap V) :
  Forall (fun e => P (snd e)) m ->
  Forall (fun e => P (snd e)) (fold_left step l m).
Proof.
  revert m. induction l as [|t l IH]; intros m H; simpl; [exact H|].
  apply IH. now apply group_step_all.
Qed.

End Entries.

End GroupFacts.

(** ** Grouping loops keep the order of first appearance *)

Section GroupOrder.

Context {T V : Type} (key : T -> string) (zero : V) (upd : T -> V -> V).

Lemma first_seen_snoc (l : list string) (k : string) :
  first_seen (l ++ [k])
  = if in_dec string_dec k l then first_seen l else first_seen l ++ [k].
Proof.
  unfold first_seen. rewrite rev_app_distr. simpl.
  destruct (in_dec string_dec k (rev l)) as [H|H],
           (in_dec string_dec k l) as [H'|H']; try reflexivity.
  - exfalso. apply H'. now apply in_rev.
  - exfalso. apply H. now apply in_rev in H'.
Qed.

Lemma first_seen_In (l : list string) (k : string) :
  In k (first_seen l) <-> In k l.
Proof. unfold first_seen. now rewrite <- in_rev, nodup_In, <- in_rev. Qed.

Lemma fold_step_keys (l : list T) :
  keys (fold_left (group_step key zero upd) l []) = first_seen (map key l).
Proof.
  induction l as [|t l IH] using rev_ind; [reflexivity|].
  rewrite fold_left_app, map_app. simpl.
  rewrite group_step_keys, first_seen_snoc, IH.
  destruct (map_has _ (key t)) eqn:H,
           (in_dec string_dec (key t) (map key l)) as [Hin|Hin]; try reflexivity.
  - exfalso. apply map_has_keys in H. rewrite IH in H.
    apply (proj1 (first_seen_In _ _)) in H. contradiction.
  - exfalso. apply (proj2 (first_seen_In _ _)) in Hin. rewrite <- IH in Hin.
    apply map_has_keys in Hin. congruence.
Qed.

Lemma entries_by_key (m : JsMap V) (f : string -> V) :
  NoDup (keys m) ->
  (forall k, In k (keys m) -> map_get m k = Some (f k)) ->
  m = map (fun k => (k, f k)) (keys m).
Proof.
  induction m as [|[k0 v0] m IH]; intros Hnd Hget; [reflexivity|].
  simpl in *. inversion Hnd as [|? ? Hnotin Hnd']; subst.
  pose proof (Hget k0 (or_introl eq_refl)) as H0.
  rewrite String.eqb_refl in H0. injection H0 as <-.
  f_equal. apply IH; [exact Hnd'|].
  intros k Hk. specialize (Hget k (or_intror Hk)).
  destruct (String.eqb_spec k0 k) as [->|_]; [contradiction|exact Hget].
Qed.

(** The entries after the loop, in order. *)
Lemma fold_step_list (l : list T) :
  fold_left (group_step key zero upd) l []
  = map (fun k => (k, group_value key zero upd l k)) (first_seen (map key l)).
Proof.
  rewrite <- fold_step_keys. apply entries_by_key.
  - apply fold_step_nodup. constructor.
  - intros k Hk. rewrite fold_step_get.
    rewrite fold_step_keys in Hk. apply (proj1 (first_seen_In _ _)) in Hk.
    apply in_map_iff in Hk.
    destruct Hk as (t & <- & Hin).
    assert (E : existsb (fun t0 => (key t0 =? key t)%string) l = true).
    { apply existsb_exists. exists t. split; [exact Hin|apply String.eqb_refl]. }
    now rewrite E.
Qed.

End GroupOrder.

Lemma reduce_sum_ext {A : Type} (f g : A -> Z) (l : list A) :
  (forall x, f x = g x) -> reduce_sum f l = reduce_sum g l.
Proof.
  intro H. induction l as [|x l IH]; [reflexivity|].
  now rewrite !reduce_sum_cons, IH, H.
Qed.

Lemma reduce_sum_ones {A : Type} (l : list A) :
  reduce_sum (fun _ => 1) l = Z.of_nat (List.length l).
Proof.
  induction l as [|x l IH]; [reflexivity|].
  rewrite reduce_sum_cons, IH. simpl List.length. lia.
Qed.

(** ** Category roll-up *)

Section CategoryRollup.

Import ReportsPage.

Variables (rt : Runtime) (transactions : list Transaction) (dateRange : DateRange).

Let zero := {| ct_amount := 0; ct_count := 0 |}.

Let upd (t : Transaction) (data : CategoryTotals) : CategoryTotals :=
  {| ct_amount := ct_amount data + tx_amount t; ct_count := ct_count data + 1 |}.

Lemma categoryMap_of_group (l : list Transaction) :
  categoryMap_of l = fold_left (group_step tx_category zero upd) l [].
Proof. reflexivity. Qed.

Lemma categoryMap_counts (l : list Transaction) :
  reduce_sum count (map category_entry (categoryMap_of l))
  = Z.of_nat (List.length l).
Proof.
  rewrite reduce_sum_map.
  rewrite (reduce_sum_ext _ (fun e => ct_count (snd e))) by (now intros [k v]).
  rewrite categoryMap_of_group.
  rewrite (@fold_step_total _ _ tx_category zero upd ct_count (fun _ => 1)
             eq_refl (fun _ _ => eq_refl)).
  rewrite reduce_sum_nil, reduce_sum_ones. lia.
Qed.

End CategoryRollup.

(** ** The category roll-up in the page's arithmetic *)

Lemma numeric_sum_ext (N : Number) {A : Type} (f g : A -> num N) (l : list A) :
  (forall x, f x = g x) ->
  NumericReports.reduce_sum N f l = NumericReports.reduce_sum N g l.
Proof.
  intro H. unfold NumericReports.reduce_sum. generalize (num_zero N).
  induction l as [|x l IH]; intro a; simpl; [reflexivity|].
  now rewrite H, IH.
Qed.

Lemma numeric_sum_map (N : Number) {A B : Type} (g : A -> B) (f : B -> num N)
    (l : list A) :
  NumericReports.reduce_sum N f (map g l)
  = NumericReports.reduce_sum N (fun x => f (g x)) l.
Proof.
  unfold NumericReports.reduce_sum. generalize (num_zero N).
  induction l as [|x l IH]; intro a; simpl; [reflexivity|apply IH].
Qed.

(** Sums over a [Number] whose addition is associative and commutative
    with [0] neutral; binary64 addition is commutative but not
    associative. *)
Section ExactSums.

Variable N : Number.

Hypothesis add_assoc :
  forall x y z : num N, num_add N (num_add N x y) z = num_add N x (num_add N y z).
Hypothesis add_comm : forall x y : num N, num_add N x y = num_add N y x.
Hypothesis add_zero : forall x : num N, num_add N (num_zero N) x = x.

Lemma numeric_fold_shift {A : Type} (f : A -> num N) (l : list A) (a : num N) :
  fold_left (fun sum x => num_add N sum (f x)) l a
  = num_add N a (NumericReports.reduce_sum N f l).
Proof.
  unfold NumericReports.reduce_sum. revert a.
  induction l as [|x l IH]; intro a; simpl.
  - now rewrite add_comm, add_zero.
  - rewrite IH, (IH (num_add N (num_zero N) (f x))), add_zero. apply add_assoc.
Qed.

Lemma numeric_sum_cons {A : Type} (f : A -> num N) (x : A) (l : list A) :
  NumericReports.reduce_sum N f (x :: l)
  = num_add N (f x) (NumericReports.reduce_sum N f l).
Proof.
  unfold NumericReports.reduce_sum at 1. simpl.
  now rewrite numeric_fold_shift, add_zero.
Qed.

Lemma numeric_sum_app {A : Type} (f : A -> num N) (l1 l2 : list A) :
  NumericReports.reduce_sum N f (l1 ++ l2)
  = num_add N (NumericReports.reduce_sum N f l1) (NumericReports.reduce_sum N f l2).
Proof.
  unfold NumericReports.reduce_sum at 1. rewrite fold_left_app.
  fold (NumericReports.reduce_sum N f l1). apply numeric_fold_shift.
Qed.

Lemma numeric_sum_perm {A : Type} (f : A -> num N) (l l' : list A) :
  Permutation l l' ->
  NumericReports.reduce_sum N f l = NumericReports.reduce_sum N f l'.
Proof.
  induction 1 as [|x l l' _ IH|x y l|l l' l'' _ IH1 _ IH2].
  - reflexivity.
  - now rewrite !numeric_sum_cons, IH.
  - rewrite !numeric_sum_cons, <- !add_assoc. f_equal. apply add_comm.
  - now rewrite IH1.
Qed.

(** What a grouping loop does to the sum over its entries. *)
Section GroupTotals.

Context {T V : Type} (key : T -> string) (zero : V) (upd : T -> V -> V).
Variables (g : V -> num N) (d : T -> num N).
Hypothesis g_zero : g zero = num_zero N.
Hypothesis g_upd : forall t v, g (upd t v) = num_add N (g v) (d t).

Lemma numeric_map_mutate_total (m : JsMap V) (t : T) :
  map_has m (key t) = true ->
  NumericReports.reduce_sum N (fun e => g (snd e)) (map_mutate m (key t) (upd t))
  = num_add N (NumericReports.reduce_sum N (fun e => g (snd e)) m) (d t).
Proof.
  induction m as [|[k' v] m IH]; simpl; [discriminate|].
  destruct (k' =? key t)%string; simpl; intro H.
  - rewrite !numeric_sum_cons. simpl. rewrite g_upd.
    rewrite !add_assoc. f_equal. apply add_comm.
  - rewrite !numeric_sum_cons, (IH H). symmetry. apply add_assoc.
Qed.

Lemma numeric_group_step_total (m : JsMap V) (t : T) :
  NumericReports.reduce_sum N (fun e => g (snd e)) (group_step key zero upd m t)
  = num_add N (NumericReports.reduce_sum N (fun e => g (snd e)) m) (d t).
Proof.
  destruct (group_step_cases key zero upd m t) as [[H ->]|[H ->]].
  - now apply numeric_map_mutate_total.
  - rewrite numeric_sum_app. f_equal.
    rewrite numeric_sum_cons. simpl. rewrite g_upd, g_zero, add_zero.
    unfold NumericReports.reduce_sum. simpl. now rewrite add_comm, add_zero.
Qed.

Lemma numeric_fold_step_total (l : list T) :
  NumericReports.reduce_sum N (fun e => g (snd e))
    (fold_left (group_step key zero upd) l [])
  = NumericReports.reduce_sum N d l.
Proof.
  induction l as [|t l IH] using rev_ind; [reflexivity|].
  rewrite fold_left_app. simpl.
  rewrite numeric_group_step_total, IH, numeric_sum_app. f_equal.
  rewrite numeric_sum_cons. unfold NumericReports.reduce_sum. simpl.
  now rewrite add_comm, add_zero.
Qed.

End GroupTotals.

End ExactSums.

Section NumericCategoryRollup.

Variable N : Number.
Variables (rt : Runtime) (transactions : list (NumericReports.Transaction N))
          (dateRange : ReportsPage.DateRange).

Let zero : NumericReports.CategoryTotals N :=
  {| NumericReports.ct_amount := num_zero N; NumericReports.ct_count := 0 |}.

Let upd (t : NumericReports.Transaction N) (data : NumericReports.CategoryTotals N)
  : NumericReports.CategoryTotals N :=
  {| NumericReports.ct_amount :=
       num_add N (NumericReports.ct_amount data) (NumericReports.tx_amount t);
     NumericReports.ct_count := NumericReports.ct_count data + 1 |}.

Lemma numeric_categoryMap_of_group (l : list (NumericReports.Transaction N)) :
  NumericReports.categoryMap_of l
  = fold_left (group_step (@NumericReports.tx_category N) zero upd) l [].
Proof. reflexivity. Qed.

Lemma numeric_category_totals_fold (l : list (NumericReports.Transaction N))
    (v0 : NumericReports.CategoryTotals N) :
  fold_left (fun v t => upd t v) l v0
  = {| NumericReports.ct_amount :=
         fold_left (fun sum t => num_add N sum (NumericReports.tx_amount t)) l
                   (NumericReports.ct_amount v0);
       NumericReports.ct_count :=
         NumericReports.ct_count v0 + Z.of_nat (List.length l) |}.
Proof.
  revert v0. induction l as [|t l IH]; intro v0; simpl fold_left.
  - destruct v0; simpl. f_equal. lia.
  - rewrite IH. simpl NumericReports.ct_amount. simpl NumericReports.ct_count.
    simpl List.length. f_equal. lia.
Qed.

(** The entries before the sort: one per category, in the order in which
    the categories first appear, each with the category's amounts added in
    list order. *)
Lemma numeric_category_entries (l : list (NumericReports.Transaction N)) :
  map (@NumericReports.category_entry N) (NumericReports.categoryMap_of l)
  = map (NumericReports.category_row l)
        (first_seen (map (@NumericReports.tx_category N) l)).
Proof.
  rewrite numeric_categoryMap_of_group, fold_step_list, map_map.
  apply map_ext. intro c.
  unfold NumericReports.category_entry, NumericReports.category_row, group_value.
  fold (NumericReports.of_category c l).
  rewrite numeric_category_totals_fold. reflexivity.
Qed.

Lemma numeric_categoryMap_counts (l : list (NumericReports.Transaction N)) :
  reduce_sum (@NumericReports.count N)
    (map (@NumericReports.category_entry N) (NumericReports.categoryMap_of l))
  = Z.of_nat (List.length l).
Proof.
  rewrite reduce_sum_map.
  rewrite (reduce_sum_ext _ (fun e => NumericReports.ct_count (snd e)))
    by (now intros [k v]).
  rewrite numeric_categoryMap_of_group.
  rewrite (@fold_step_total _ _ (@NumericReports.tx_category N) zero upd
             (@NumericReports.ct_count N) (fun _ => 1)
             eq_refl (fun _ _ => eq_refl)).
  rewrite reduce_sum_nil, reduce_sum_ones. lia.
Qed.

Lemma numeric_categoryMap_counted (l : list (NumericReports.Transaction N)) :
  Forall (fun e => 1 <= NumericReports.count e)
    (map (@NumericReports.category_entry N) (NumericReports.categoryMap_of l)).
Proof.
  apply Forall_map. rewrite numeric_categoryMap_of_group.
  assert (H : Forall (fun e : string * NumericReports.CategoryTotals N =>
                        1 <= NumericReports.ct_count (snd e))
                (fold_left (group_step (@NumericReports.tx_category N) zero upd) l [])).
  { apply (@fold_step_all _ _ (@NumericReports.tx_category N) zero upd
             (fun v => 1 <= NumericReports.ct_count v)); [|constructor].
    intros t v [Hv| ->]; simpl; lia. }
  eapply Forall_impl; [|exact H]. now intros [k v].
Qed.

Lemma numeric_categoryMap_amounts (l : list (NumericReports.Transaction N)) :
  (forall x y z : num N,
      num_add N (num_add N x y) z = num_add N x (num_add N y z)) ->
  (forall x y : num N, num_add N x y = num_add N y x) ->
  (forall x : num N, num_add N (num_zero N) x = x) ->
  NumericReports.reduce_sum N (@NumericReports.amount N)
    (map (@NumericReports.category_entry N) (NumericReports.categoryMap_of l))
  = NumericReports.reduce_sum N (@NumericReports.tx_amount N) l.
Proof.
  intros Hassoc Hcomm Hzero.
  rewrite numeric_sum_map, numeric_categoryMap_of_group.
  rewrite (numeric_sum_ext N _ (fun e => NumericReports.ct_amount (snd e)))
    by (now intros [k v]).
  exact (@numeric_fold_step_total N Hassoc Hcomm Hzero _ _
           (@NumericReports.tx_category N) zero upd
           (@NumericReports.ct_amount N) (@NumericReports.tx_amount N)
           eq_refl (fun _ _ => eq_refl) l).
Qed.

End NumericCategoryRollup.

(** C6, as stated, fails in the page's arithmetic.  Three expenses of
    27.71, 155.25 and 18.18 in two categories: the entries (155.25 for
    landscaping, then 27.71 + 18.18 for utilities) add up to 201.14, the
    page's [totalExpenses], which adds the three in list order, to the
    next binary64 number above it. *)
Lemma category_amounts_round_differently :
  let entries :=
    NumericReports.getCategoryData Browser.utc Ledger.expenses64
      ReportsPage.d30 t_expense in
  let total :=
    NumericReports.totalExpenses Browser.utc Ledger.expenses64 ReportsPage.d30 in
  map (@NumericReports.category Binary64.number) entries
  = ["landscaping"; "utilities"]
  /\ NumericReports.reduce_sum Binary64.number
       (@NumericReports.amount Binary64.number) entries
     = Binary64.of_cents 20114
  /\ Binary64.strict_equal
       (NumericReports.reduce_sum Binary64.number
          (@NumericReports.amount Binary64.number) entries)
       total = false
  /\ NumericReports.reduce_sum Binary64.number
       (@NumericReports.amount Binary64.number) entries
     <> total.
Proof.
  intros entries total.
  assert (Hne : Binary64.strict_equal
                  (NumericReports.reduce_sum Binary64.number
                     (@NumericReports.amount Binary64.number) entries)
                  total = false)
    by (vm_compute; reflexivity).
  split; [vm_compute; reflexivity|].
  split; [vm_compute; reflexivity|].
  split; [exact Hne|].
  intro H. apply (f_equal (fun x => Binary64.strict_equal x total)) in H.
  vm_compute in H. discriminate.
Qed.

(** C6, amended.  For every list of transactions and every type, in any
    arithmetic: the entries of [getCategoryData] are, sorted by the
    comparator [b.amount - a.amount], one entry per category of the
    date-filtered transactions of the type, in which the amount is the sum
    of the category's amounts added in list order and the count their
    number; each count is at least 1 and the counts add up to the number
    of those transactions.  The entries come in non-increasing order of
    amount as the comparator reads it, provided that of two amounts one
    difference is not positive.  The amounts of the entries add up to the
    page's total for the type provided that the addition of amounts is
    associative and commutative, as it is for whole cents and is not for
    binary64 numbers. *)
Theorem category_rollup_in_list_order (N : Number) (rt : Runtime)
    (transactions : list (NumericReports.Transaction N))
    (dateRange : ReportsPage.DateRange) (type : TransactionType) :
  let of_type :=
    filter (fun t => TransactionType_eqb (NumericReports.tx_type t) type)
           (NumericReports.filterTransactionsByDateRange rt dateRange transactions) in
  let rows :=
    map (NumericReports.category_row of_type)
        (first_seen (map (@NumericReports.tx_category N) of_type)) in
  let entries := NumericReports.getCategoryData rt transactions dateRange type in
  entries = sort (@NumericReports.by_amount N) rows
  /\ Permutation entries rows
  /\ Forall (fun e => 1 <= NumericReports.count e) entries
  /\ reduce_sum (@NumericReports.count N) entries = Z.of_nat (List.length of_type)
  /\ ((forall x y : num N,
          num_sign N (num_sub N y x) <= 0 \/ num_sign N (num_sub N x y) <= 0) ->
      Sorted (fun a b =>
                num_sign N (num_sub N (NumericReports.amount b)
                                      (NumericReports.amount a)) <= 0)
             entries)
  /\ ((forall x y z : num N,
          num_add N (num_add N x y) z = num_add N x (num_add N y z)) ->
      (forall x y : num N, num_add N x y = num_add N y x) ->
      (forall x : num N, num_add N (num_zero N) x = x) ->
      NumericReports.reduce_sum N (@NumericReports.amount N) entries
      = NumericReports.total rt transactions dateRange type).
Proof.
  intros of_type rows entries.
  assert (Hentries : entries = sort (@NumericReports.by_amount N) rows).
  { unfold entries, NumericReports.getCategoryData. fold of_type.
    now rewrite numeric_category_entries. }
  assert (Hperm : Permutation entries
                    (map (@NumericReports.category_entry N)
                         (NumericReports.categoryMap_of of_type)))
    by apply sort_perm.
  split; [exact Hentries|].
  split; [rewrite Hperm, numeric_category_entries; reflexivity|].
  split; [|split; [|split]].
  - eapply Permutation_Forall; [symmetry; exact Hperm|].
    apply numeric_categoryMap_counted.
  - rewrite (reduce_sum_perm (@NumericReports.count N) Hperm).
    apply numeric_categoryMap_counts.
  - intro Htotal.
    apply (sort_sorted (@NumericReports.by_amount N)).
    intros a b. apply Htotal.
  - intros Hassoc Hcomm Hzero.
    rewrite (@numeric_sum_perm N Hassoc Hcomm Hzero _
               (@NumericReports.amount N) _ _ Hperm).
    rewrite (@numeric_categoryMap_amounts N of_type Hassoc Hcomm Hzero).
    now destruct type.
Qed.

(** C6, amended, at the three expenses counted in cents: 155.25 for
    landscaping, 45.89 for utilities, 201.14 in all. *)
Lemma category_rollup_in_list_order_witness :
  let entries :=
    NumericReports.getCategoryData Browser.utc Ledger.expenses_in_cents
      ReportsPage.d30 t_expense in
  entries
  = [ {| NumericReports.category := "landscaping";
         NumericReports.amount := 15525 : num exact;
         NumericReports.count := 1 |};
      {| NumericReports.category := "utilities";
         NumericReports.amount := 4589 : num exact;
         NumericReports.count := 2 |} ]
  /\ Sorted (fun a b : NumericReports.CategoryData exact =>
               Z.sgn (NumericReports.amount b - NumericReports.amount a) <= 0)
            entries
  /\ NumericReports.reduce_sum exact (@NumericReports.amount exact) entries
     = NumericReports.total Browser.utc Ledger.expenses_in_cents
         ReportsPage.d30 t_expense.
Proof.
  intro entries.
  destruct (@category_rollup_in_list_order exact Browser.utc
              Ledger.expenses_in_cents ReportsPage.d30 t_expense)
    as (Hentries & _ & _ & _ & Hsorted & Hsum).
  split; [|split].
  - vm_compute. reflexivity.
  - apply Hsorted. intros x y. cbn. lia.
  - apply Hsum; intros; cbn; lia.
Defined.

(** ** Month keys *)

Section MonthKeys.

Lemma length_append (a b : string) :
  String.length (a ++ b) = (String.length a + String.length b)%nat.
Proof. induction a as [|c a IH]; simpl; [reflexivity|now rewrite IH]. Qed.

(** Two strings that end in tails of the same length. *)
Lemma append_inj_tail (a b x y : string) :
  (a ++ x)%string = (b ++ y)%string ->
  String.length x = String.length y ->
  a = b /\ x = y.
Proof.
  revert b. induction a as [|c a IH]; intros [|c' b]; simpl; intros H L.
  - now split.
  - exfalso. subst x. simpl in L. rewrite length_append in L. lia.
  - exfalso. subst y. simpl in L. rewrite length_append in L. lia.
  - injection H as -> H. destruct (IH b H L) as [-> ->]. now split.
Qed.

Lemma to_int_digits (z : Z) :
  Z.to_int z <> Decimal.Pos Decimal.Nil /\ Z.to_int z <> Decimal.Neg Decimal.Nil.
Proof.
  split; intro E; pose proof (DecimalZ.of_to z) as Hz; rewrite E in Hz;
    simpl in Hz; subst z; discriminate E.
Qed.

Lemma String_of_Z_read (z : Z) :
  NilZero.int_of_string (String_of_Z z) = Some (Z.to_int z).
Proof.
  unfold String_of_Z. destruct (to_int_digits z). now apply NilZero.isi.
Qed.

Lemma String_of_Z_inj (a b : Z) : String_of_Z a = String_of_Z b -> a = b.
Proof.
  intro H. pose proof (String_of_Z_read a) as Ha.
  rewrite H, String_of_Z_read in Ha. injection Ha as E.
  now rewrite <- (DecimalZ.of_to a), <- (DecimalZ.of_to b), E.
Qed.

Lemma month_digits (m : Z) :
  0 <= m <= 11 ->
  String.length (padStart 2 "0" (String_of_Z (m + 1))) = 2%nat
  /\ month_of_digits (padStart 2 "0" (String_of_Z (m + 1))) = m.
Proof.
  intro H.
  assert (C : m = 0 \/ m = 1 \/ m = 2 \/ m = 3 \/ m = 4 \/ m = 5 \/ m = 6
              \/ m = 7 \/ m = 8 \/ m = 9 \/ m = 10 \/ m = 11) by lia.
  repeat (destruct C as [->|C]; [now vm_compute|]).
  subst m. now vm_compute.
Qed.

Lemma month_key_inj (a b : Z * Z) :
  0 <= snd a <= 11 -> 0 <= snd b <= 11 ->
  month_key a = month_key b -> a = b.
Proof.
  destruct a as [y m], b as [y' m']. unfold month_key. simpl.
  intros Hm Hm' H.
  destruct (month_digits Hm) as [L R], (month_digits Hm') as [L' R'].
  apply append_inj_tail in H as [Hy Hd]; [|simpl; congruence].
  apply String_of_Z_inj in Hy. injection Hd as Hd.
  rewrite <- R, <- R', Hd. now subst.
Qed.

End MonthKeys.

(** ** Monthly roll-up *)

Lemma nodup_map_inj {A B : Type} (decA : forall x y : A, {x = y} + {x <> y})
    (decB : forall x y : B, {x = y} + {x <> y}) (f : A -> B) (l : list A) :
  (forall x y, In x l -> In y l -> f x = f y -> x = y) ->
  nodup decB (map f l) = map f (nodup decA l).
Proof.
  induction l as [|a l IH]; intro Hinj; [reflexivity|].
  simpl. rewrite IH by (intros x y Hx Hy; apply Hinj; now right).
  destruct (in_dec decB (f a) (map f l)) as [Hin|Hin],
           (in_dec decA a l) as [Hin'|Hin']; try reflexivity.
  - exfalso. apply in_map_iff in Hin as (x & Hfx & Hx).
    assert (x = a) by (apply Hinj; [now right|now left|exact Hfx]).
    now subst.
  - exfalso. apply Hin. now apply in_map.
Qed.

Lemma same_month_eq (a b : Z * Z) : same_month a b = true <-> a = b.
Proof.
  destruct a as [y m], b as [y' m']. unfold same_month. simpl.
  rewrite andb_true_iff, !Z.eqb_eq. split; [intros [-> ->]|intros [= -> ->]]; auto.
Qed.

Section MonthlyRollup.

Import ReportsPage.

Variables (rt : Runtime) (transactions : list Transaction) (dateRange : DateRange).

(** [getMonth] of the runtime answers with a month, 0 to 11. *)
Hypothesis getMonth_range : forall d, 0 <= getMonth rt d <= 11.

Let zero := {| mt_income := 0; mt_expenses := 0 |}.

Let upd (t : Transaction) (data : MonthTotals) : MonthTotals :=
  if TransactionType_eqb (tx_type t) t_income
  then {| mt_income := mt_income data + tx_amount t;
          mt_expenses := mt_expenses data |}
  else {| mt_income := mt_income data;
          mt_expenses := mt_expenses data + tx_amount t |}.

Let filtered := filterTransactionsByDateRange rt dateRange transactions.

Lemma monthlyMap_of_group (l : list Transaction) :
  monthlyMap_of rt l = fold_left (group_step (monthKey rt) zero upd) l [].
Proof. reflexivity. Qed.

(** The totals a month's transactions build up, in the order they come. *)
Lemma month_totals_fold (l : list Transaction) (v0 : MonthTotals) :
  fold_left (fun v t => upd t v) l v0
  = {| mt_income :=
         mt_income v0
         + reduce_sum tx_amount
             (filter (fun t => TransactionType_eqb (tx_type t) t_income) l);
       mt_expenses :=
         mt_expenses v0
         + reduce_sum tx_amount
             (filter (fun t => TransactionType_eqb (tx_type t) t_expense) l) |}.
Proof.
  revert v0. induction l as [|t l IH]; intro v0; simpl.
  - rewrite reduce_sum_nil. destruct v0; simpl. f_equal; lia.
  - rewrite IH. unfold upd. destruct (tx_type t); simpl;
      rewrite reduce_sum_cons; f_equal; lia.
Qed.

Lemma filtered_valid (t : Transaction) :
  In t filtered -> calendar_month rt t = Some (month_of rt t).
Proof.
  unfold filtered, filterTransactionsByDateRange. rewrite filter_In.
  intros [_ H]. unfold month_of, calendar_month.
  destruct (Date_parse rt (tx_transaction_date t)); [reflexivity|discriminate].
Qed.

Lemma month_of_range (t : Transaction) : 0 <= snd (month_of rt t) <= 11.
Proof.
  unfold month_of, calendar_month.
  destruct (Date_parse rt (tx_transaction_date t)); simpl; [|lia].
  apply getMonth_range.
Qed.

Lemma monthKey_month_key (t : Transaction) :
  In t filtered -> monthKey rt t = month_key (month_of rt t).
Proof.
  intro H. apply filtered_valid in H. revert H.
  unfold month_of, calendar_month, monthKey, month_key.
  destruct (Date_parse rt (tx_transaction_date t)); simpl; [|discriminate].
  reflexivity.
Qed.

(** Filing by key is filing by calendar month. *)
Lemma monthKey_in_month (ym : Z * Z) (ty : TransactionType) (t : Transaction) :
  0 <= snd ym <= 11 -> In t filtered ->
  (monthKey rt t =? month_key ym)%string && TransactionType_eqb (tx_type t) ty
  = in_month rt ym ty t.
Proof.
  intros Hym Hin. unfold in_month.
  rewrite (filtered_valid t Hin), (monthKey_month_key t Hin).
  f_equal. apply eq_true_iff_eq.
  rewrite String.eqb_eq, same_month_eq. split; [|now intros ->].
  apply month_key_inj; [apply month_of_range|exact Hym].
Qed.

Lemma filter_both {A : Type} (f g : A -> bool) (l : list A) :
  filter g (filter f l) = filter (fun x => f x && g x) l.
Proof.
  induction l as [|x l IH]; [reflexivity|]. simpl.
  destruct (f x); simpl; [destruct (g x)|]; now rewrite IH.
Qed.

Lemma month_entry_row (ym : Z * Z) :
  0 <= snd ym <= 11 ->
  monthly_entry rt
    (month_key ym, group_value (monthKey rt) zero upd filtered (month_key ym))
  = month_row rt filtered ym.
Proof.
  intro Hym. unfold monthly_entry, month_row, group_value, month_total.
  rewrite month_totals_fold. simpl. rewrite !filter_both.
  rewrite (filter_ext_in
             (fun t => (monthKey rt t =? month_key ym)%string
                       && TransactionType_eqb (tx_type t) t_income)
             (in_month rt ym t_income))
    by (intros t Ht; now apply monthKey_in_month).
  rewrite (filter_ext_in
             (fun t => (monthKey rt t =? month_key ym)%string
                       && TransactionType_eqb (tx_type t) t_expense)
             (in_month rt ym t_expense))
    by (intros t Ht; now apply monthKey_in_month).
  reflexivity.
Qed.

(** The monthly roll-up, by the month the page reads.  Over the
    transactions of the selected date range, [getMonthlyData] returns, in
    some order, exactly one entry for each month that the browser reads
    off at least one of them: these months form a duplicate-free list, a
    month is in it exactly when the browser reads it off some filtered
    transaction, and the result is a permutation of the months' entries.
    The entry of a month has as income the sum of the amounts of the
    transactions of type 'income' read as of that month, as expenses the
    sum for type 'expense', and as net the income minus the expenses. *)
Theorem monthly_rollup :
  exists months : list (Z * Z),
    NoDup months
    /\ (forall ym,
           In ym months
           <-> exists t, In t filtered /\ calendar_month rt t = Some ym)
    /\ Permutation (getMonthlyData rt transactions dateRange)
                   (map (month_row rt filtered) months)
    /\ Forall (fun e => net e = income e - expenses e)
              (getMonthlyData rt transactions dateRange).
Proof.
  exists (nodup month_eq_dec (map (month_of rt) filtered)).
  assert (Hperm : Permutation (getMonthlyData rt transactions dateRange)
                    (map (month_row rt filtered)
                         (nodup month_eq_dec (map (month_of rt) filtered)))).
  { unfold getMonthlyData. fold filtered.
    rewrite sort_perm, monthlyMap_of_group.
    rewrite (Permutation_map _ (fold_step_entries (monthKey rt) zero upd filtered)).
    assert (Hkeys : map (monthKey rt) filtered
                    = map month_key (map (month_of rt) filtered)).
    { rewrite map_map. apply map_ext_in. exact monthKey_month_key. }
    rewrite Hkeys.
    rewrite (nodup_map_inj month_eq_dec string_dec month_key).
    - rewrite !map_map. apply Permutation_refl'.
      apply map_ext_in. intros ym Hin. apply month_entry_row.
      apply nodup_In, in_map_iff in Hin as (t & <- & _).
      apply month_of_range.
    - intros x y Hx Hy. apply in_map_iff in Hx as (tx & <- & _).
      apply in_map_iff in Hy as (ty & <- & _).
      apply month_key_inj; apply month_of_range. }
  split; [apply NoDup_nodup|split; [|split; [exact Hperm|]]].
  - intro ym. rewrite nodup_In, in_map_iff. split.
    + intros (t & <- & Hin). exists t. split; [exact Hin|].
      now apply filtered_valid.
    + intros (t & Hin & Hym). exists t. split; [|exact Hin].
      unfold month_of. now rewrite Hym.
  - eapply Permutation_Forall; [symmetry; exact Hperm|].
    apply Forall_map. apply Forall_forall. reflexivity.
Qed.

End MonthlyRollup.

(** The roll-up at the sample data, under the toy runtime. *)
Lemma sample_getMonth_range (d : Z) : 0 <= getMonth Sample.runtime d <= 11.
Proof.
  simpl. pose proof (Z.mod_pos_bound d 372 ltac:(lia)) as H. split.
  - apply Z.div_pos; lia.
  - assert ((d mod 372) / 31 < 12) by (apply Z.div_lt_upper_bound; lia). lia.
Qed.

Lemma monthly_rollup_witness :
  exists months : list (Z * Z),
    NoDup months
    /\ (forall ym,
           In ym months
           <-> exists t,
               In t (ReportsPage.filterTransactionsByDateRange Sample.runtime
                       ReportsPage.d90 Sample.transactions)
               /\ calendar_month Sample.runtime t = Some ym)
    /\ Permutation
         (ReportsPage.getMonthlyData Sample.runtime Sample.transactions
            ReportsPage.d90)
         (map (month_row Sample.runtime
                 (ReportsPage.filterTransactionsByDateRange Sample.runtime
                    ReportsPage.d90 Sample.transactions))
              months)
    /\ Forall (fun e => ReportsPage.net e
                        = ReportsPage.income e - ReportsPage.expenses e)
              (ReportsPage.getMonthlyData Sample.runtime Sample.transactions
                 ReportsPage.d90).
Proof.
  apply (@monthly_rollup Sample.runtime Sample.transactions ReportsPage.d90).
  exact sample_getMonth_range.
Defined.

(** C5 (monthly roll-up) does not hold of the code in a browser west of
    UTC.  Dues dated 2025-10-15 and 2025-11-01, both within the last 30
    days on 2 November 2025, fall in two calendar months.  Five hours
    west of UTC the page reads [new Date('2025-11-01')], midnight UTC, as
    the evening of 31 October: it files both under the key '2025-10', and
    labels that key from [new Date('2025-10-01')], the evening of 30
    September.  It shows one entry, 'Sep 2025', holding the income of both
    months.  At UTC the same transactions give the two entries of the
    claim. *)
Theorem turn_of_month_is_misfiled_west_of_utc :
  let transactions := [Ledger.october_dues; Ledger.november_dues] in
  ReportsPage.filterTransactionsByDateRange Browser.utc_minus_5 ReportsPage.d30
    transactions = transactions
  /\ map (fun t => written_month (tx_transaction_date t)) transactions
     = [Some (2025, 9); Some (2025, 10)]
  /\ map (calendar_month Browser.utc_minus_5) transactions
     = [Some (2025, 9); Some (2025, 9)]
  /\ map (ReportsPage.monthKey Browser.utc_minus_5) transactions
     = ["2025-10"; "2025-10"]
  /\ ReportsPage.getMonthlyData Browser.utc_minus_5 transactions ReportsPage.d30
     = [ {| ReportsPage.month := "Sep 2025"; ReportsPage.income := 25000;
            ReportsPage.expenses := 0; ReportsPage.net := 25000 |} ]
  /\ ReportsPage.getMonthlyData Browser.utc transactions ReportsPage.d30
     = [ {| ReportsPage.month := "Nov 2025"; ReportsPage.income := 15000;
            ReportsPage.expenses := 0; ReportsPage.net := 15000 |};
         {| ReportsPage.month := "Oct 2025"; ReportsPage.income := 10000;
            ReportsPage.expenses := 0; ReportsPage.net := 10000 |} ].
Proof.
  repeat split; vm_compute; reflexivity.
Qed.

(* ================================================================== *)
(** * Part III. Further properties of the pages                        *)
(* ================================================================== *)

(** ** Maintenance page: loading, deleting, submitting *)

Section MaintenanceMore.

Import MaintenanceList MaintenanceForm.

(** X1.  [handleDelete]: when the database accepts the delete, the list
    loses exactly the requests with that id, keeps the others in order and
    the confirmation is closed; when it rejects it, the state is left as it
    was and the error is logged. *)
Theorem handleDelete_outcome (auth : Auth) (db : Supabase) (id : string)
    (s : MaintenanceList.State) :
  let run := handleDelete auth db id s in
  match mutate db (handleDelete_query auth id) with
  | None =>
      requests (final_state run)
      = filter (fun req => negb (mr_id req =? id)%string) (requests s)
      /\ (forall req, In req (requests (final_state run))
                      <-> In req (requests s) /\ mr_id req <> id)
      /\ deleteConfirmId (final_state run) = None
      /\ errors_of (trace run) = []
  | Some e =>
      final_state run = s /\ errors_of (trace run) = [e]
  end.
Proof.
  unfold handleDelete. unfold_eff.
  destruct (mutate db (handleDelete_query auth id)) as [e|]; simpl.
  - now split.
  - split; [reflexivity|split; [|split; reflexivity]].
    intro req. rewrite filter_In, negb_true_iff, String.eqb_neq. tauto.
Qed.

(** X2.  [loadRequests] always ends with the spinner off.  Without a
    signed-in user it asks the database nothing and empties the list; with
    one it issues one query, and the list is replaced by the rows returned
    (none if [data] is null) unless the query failed, in which case the
    list is kept and the error logged. *)
Theorem loadRequests_outcome (auth : Auth) (db : Supabase)
    (s : MaintenanceList.State) :
  let run := loadRequests auth db s in
  MaintenanceList.loading (final_state run) = false
  /\ match user auth with
     | None =>
         trace run = [] /\ requests (final_state run) = []
     | Some u =>
         let r := select_requests db (loadRequests_query (isAdmin auth) u) in
         queries_of (trace run) = [loadRequests_query (isAdmin auth) u]
         /\ match error r with
            | Some e =>
                requests (final_state run) = requests s
                /\ errors_of (trace run) = [e]
            | None =>
                requests (final_state run) = data_or_empty (data r)
                /\ errors_of (trace run) = []
            end
     end.
Proof.
  unfold loadRequests. destruct (user auth) as [u|]; unfold_eff; simpl.
  - destruct (error (select_requests db _)); simpl; auto.
  - auto.
Qed.

(** The possible ends of a run of the form's [handleSubmit]. *)
Lemma handleSubmit_cases (rt : Runtime) (auth : Auth) (db : Supabase)
    (editingRequest : option MaintenanceRequest) (s : MaintenanceForm.State) :
  let run := handleSubmit rt auth db editingRequest s in
  let p := payload rt auth editingRequest (formData s) in
  let q := match editingRequest with
           | Some r => update_query auth r p
           | None => from "maintenance_requests" (Insert p)
           end in
  final_state run = setLoading false s
  /\ match editingRequest with
     | Some r =>
         if mayUpdate auth r
         then match mutate db q with
              | None => trace run = [Db q; Call "onSuccess"; Call "onClose"]
              | Some e =>
                  trace run
                  = [Db q; ConsoleError "Error saving maintenance request:" e]
              end
         else trace run
              = [ConsoleError "Error saving maintenance request:" permission_error]
     | None =>
         match mutate db q with
         | None => trace run = [Db q; Call "onSuccess"; Call "onClose"]
         | Some e =>
             trace run = [Db q; ConsoleError "Error saving maintenance request:" e]
         end
     end.
Proof.
  unfold handleSubmit. unfold_eff. simpl.
  destruct editingRequest as [r|]; simpl.
  - destruct (mayUpdate auth r); simpl; [|now split].
    destruct (mutate db _); simpl; now split.
  - destruct (mutate db _); simpl; now split.
Qed.

(** X3.  Creating a request: the form sends exactly one insert into
    [maintenance_requests], unfiltered, whose [requested_by] is the
    signed-in user's id, whatever the role and whatever the form holds. *)
Theorem create_request_names_creator (rt : Runtime) (auth : Auth) (db : Supabase)
    (s : MaintenanceForm.State) :
  exists p,
    queries_of (trace (handleSubmit rt auth db None s))
    = [from "maintenance_requests" (Insert p)]
    /\ obj_get p "requested_by" = user_id_opt (user auth)
    /\ p = payload rt auth None (formData s).
Proof.
  exists (payload rt auth None (formData s)).
  pose proof (handleSubmit_cases rt auth db None s) as [_ H]. cbv zeta in H.
  split; [|split; [|reflexivity]].
  - destruct (mutate db _); rewrite H; reflexivity.
  - unfold payload. cbn. now destruct (user auth).
Qed.

(** X4.  The form's hand-over to its parent: [onSuccess] and then [onClose]
    are called exactly when a mutation was sent and came back without
    error; otherwise neither is called and exactly one error is logged.  In
    every case the run sends at most one query, leaves the form data as
    typed and ends with the spinner off. *)
Theorem handleSubmit_protocol (rt : Runtime) (auth : Auth) (db : Supabase)
    (editingRequest : option MaintenanceRequest) (s : MaintenanceForm.State) :
  let run := handleSubmit rt auth db editingRequest s in
  MaintenanceForm.loading (final_state run) = false
  /\ formData (final_state run) = formData s
  /\ ((calls_of (trace run) = ["onSuccess"; "onClose"]
       /\ errors_of (trace run) = []
       /\ exists q, queries_of (trace run) = [q] /\ mutate db q = None)
      \/ (calls_of (trace run) = []
          /\ (exists e, errors_of (trace run) = [e])
          /\ (queries_of (trace run) = []
              \/ exists q e, queries_of (trace run) = [q]
                             /\ mutate db q = Some e))).
Proof.
  pose proof (handleSubmit_cases rt auth db editingRequest s) as [Hs H].
  cbv zeta in *. rewrite Hs. split; [reflexivity|split; [reflexivity|]].
  destruct editingRequest as [r|].
  - destruct (mayUpdate auth r).
    + destruct (mutate db _) as [e|] eqn:E; rewrite H; simpl.
      * right. repeat split; eauto.
      * left. repeat split; eauto.
    + rewrite H. simpl. right. repeat split; eauto.
  - destruct (mutate db _) as [e|] eqn:E; rewrite H; simpl.
    + right. repeat split; eauto.
    + left. repeat split; eauto.
Qed.

(** X5.  An edit a resident is allowed to send is sent with the same three
    filters as a resident's delete: the request id, [requested_by] equal to
    the resident's id and status 'pending'. *)
Theorem resident_edit_is_filtered (rt : Runtime) (auth : Auth) (db : Supabase)
    (r : MaintenanceRequest) (s : MaintenanceForm.State) :
  isAdmin auth = false ->
  belongs_to auth r ->
  mr_status r = pending ->
  exists q p,
    queries_of (trace (handleSubmit rt auth db (Some r) s)) = [q]
    /\ q_verb q = Update p
    /\ q_filters q = [ FEq "id" (VStr (mr_id r));
                       FEq "requested_by" (nullable (mr_requested_by r));
                       FEq "status" (VStr "pending") ]
    /\ q_filters q = q_filters (handleDelete_query auth (mr_id r)).
Proof.
  intros Hadm Hown Hst.
  assert (Hm : mayUpdate auth r = true) by (apply mayUpdate_resident; auto).
  exists (update_query auth r (payload rt auth (Some r) (formData s))).
  exists (payload rt auth (Some r) (formData s)).
  rewrite (@handleSubmit_edit_sent rt auth db r s Hm).
  unfold update_query, handleDelete_query. rewrite Hadm. simpl.
  destruct Hown as (u & Hu & Hr). rewrite Hu, Hr. simpl. auto.
Qed.

Lemma resident_edit_is_filtered_witness :
  exists q p,
    queries_of (trace (handleSubmit Sample.runtime Sample.as_resident Sample.db
                         (Some (Sample.request "r1" pending (Some "bob")))
                         Sample.form)) = [q]
    /\ q_verb q = Update p
    /\ q_filters q = [ FEq "id" (VStr "r1");
                       FEq "requested_by" (VStr "bob");
                       FEq "status" (VStr "pending") ]
    /\ q_filters q = q_filters (handleDelete_query Sample.as_resident "r1").
Proof.
  apply (@resident_edit_is_filtered Sample.runtime Sample.as_resident Sample.db
           (Sample.request "r1" pending (Some "bob")) Sample.form).
  - reflexivity.
  - exists Sample.bob. split; reflexivity.
  - reflexivity.
Defined.

End MaintenanceMore.

(** ** Maintenance form: what the payload holds *)

Section MaintenancePayload.

Import MaintenanceList MaintenanceForm.

(** X6.  Whatever the role, the payload has exactly the nine keys of the
    form and [requested_by], in that order, so it never sets [id],
    [property_id], the cost actually paid or a timestamp; its title,
    description, category and priority are the form's. *)
Theorem payload_shape (rt : Runtime) (auth : Auth)
    (editingRequest : option MaintenanceRequest) (fd : FormData) :
  let p := payload rt auth editingRequest fd in
  map fst p = [ "title"; "description"; "category"; "priority"; "status";
                "estimated_cost"; "scheduled_date"; "assigned_vendor";
                "requested_by" ]
  /\ obj_get p "title" = VStr (title fd)
  /\ obj_get p "description" = VStr (description fd)
  /\ obj_get p "category" = VStr (MaintenanceCategory_str (category fd))
  /\ obj_get p "priority" = VStr (Priority_str (priority fd)).
Proof.
  unfold payload. cbn. repeat split.
Qed.

(** X7.  An admin's payload: the status is the form's; a blank scheduled
    date or vendor is written as null and a non-blank one as typed; a blank
    estimated cost is written as null and a non-blank one as
    [parseFloat] reads it. *)
Theorem admin_payload (rt : Runtime) (auth : Auth)
    (editingRequest : option MaintenanceRequest) (fd : FormData) :
  isAdmin auth = true ->
  let p := payload rt auth editingRequest fd in
  let blank_or (s : string) (v : Value) : Value :=
    if (s =? "")%string then VNull else v in
  obj_get p "status" = VStr (MaintenanceStatus_str (status fd))
  /\ obj_get p "scheduled_date"
     = blank_or (scheduled_date fd) (VStr (scheduled_date fd))
  /\ obj_get p "assigned_vendor"
     = blank_or (assigned_vendor fd) (VStr (assigned_vendor fd))
  /\ obj_get p "estimated_cost"
     = blank_or (estimated_cost fd) (parseFloat rt (estimated_cost fd)).
Proof.
  intro Hadm. unfold payload. rewrite Hadm. cbn. unfold js_or. simpl.
  repeat split.
  - now destruct (scheduled_date fd =? "")%string.
  - now destruct (assigned_vendor fd =? "")%string.
  - now destruct (estimated_cost fd =? "")%string.
Qed.

Lemma admin_payload_witness :
  let fd := {| title := "Gate"; description := ""; category := security;
               priority := high; status := in_progress; estimated_cost := "120";
               scheduled_date := ""; assigned_vendor := "Acme" |} in
  let p := payload Sample.runtime Sample.as_admin None fd in
  obj_get p "status" = VStr "in_progress"
  /\ obj_get p "scheduled_date" = VNull
  /\ obj_get p "assigned_vendor" = VStr "Acme"
  /\ obj_get p "estimated_cost" = VNum 120.
Proof.
  intros fd p.
  exact (@admin_payload Sample.runtime Sample.as_admin None fd eq_refl).
Defined.

Lemma String_of_Z_nonempty (n : Z) : String_of_Z n <> "".
Proof.
  intro H. pose proof (String_of_Z_read n) as R. rewrite H in R. discriminate.
Qed.

(** X8.  Opening a request in the form and saving it unchanged as an admin
    writes back what the request held: title, category, priority, status,
    scheduled date, vendor and estimated cost, given that [parseFloat]
    reads back the digits of a number and that the request's date and
    vendor are not empty strings.  Two fields can differ from the request:
    the requester is written back when the request has one and is replaced
    by the editor's id ([user?.id]) when it is null, and a null
    description is written as the empty string. *)
Theorem untouched_edit_round_trip (rt : Runtime) (auth : Auth)
    (r : MaintenanceRequest) :
  isAdmin auth = true ->
  (forall n, parseFloat rt (String_of_Z n) = VNum n) ->
  mr_scheduled_date r <> Some "" ->
  mr_assigned_vendor r <> Some "" ->
  let p := payload rt auth (Some r) (initialFormData (Some r)) in
  obj_get p "title" = VStr (mr_title r)
  /\ obj_get p "category" = VStr (MaintenanceCategory_str (mr_category r))
  /\ obj_get p "priority" = VStr (Priority_str (mr_priority r))
  /\ obj_get p "status" = VStr (MaintenanceStatus_str (mr_status r))
  /\ obj_get p "scheduled_date" = nullable (mr_scheduled_date r)
  /\ obj_get p "assigned_vendor" = nullable (mr_assigned_vendor r)
  /\ obj_get p "estimated_cost" = nullable_cost (mr_estimated_cost r)
  /\ obj_get p "requested_by"
     = match mr_requested_by r with
       | Some requester => VStr requester
       | None => user_id_opt (user auth)
       end
  /\ obj_get p "description"
     = VStr match mr_description r with Some d => d | None => "" end.
Proof.
  intros Hadm Hparse Hdate Hvendor.
  unfold payload, initialFormData. rewrite Hadm. cbn.
  unfold js_or, or_empty. simpl.
  repeat split.
  - destruct (mr_scheduled_date r) as [d|]; simpl; [|reflexivity].
    destruct (String.eqb_spec d ""); [congruence|reflexivity].
  - destruct (mr_assigned_vendor r) as [v|]; simpl; [|reflexivity].
    destruct (String.eqb_spec v ""); [congruence|reflexivity].
  - destruct (mr_estimated_cost r) as [n|]; simpl; [|reflexivity].
    destruct (String.eqb_spec (String_of_Z n) "") as [E|_].
    + now apply String_of_Z_nonempty in E.
    + apply Hparse.
  - now destruct (mr_requested_by r).
Qed.

Lemma sample_parseFloat (n : Z) : parseFloat Sample.runtime (String_of_Z n) = VNum n.
Proof.
  simpl. rewrite String_of_Z_read. now rewrite DecimalZ.of_to.
Qed.

(** X8 at the sample data: the admin alice saves, untouched, a request of
    bob's and a request whose requester was deleted. *)
Lemma untouched_edit_round_trip_witness :
  let r := {| mr_id := "r7"; mr_title := "Pool pump"; mr_description := None;
              mr_category := pool; mr_status := in_progress;
              mr_priority := urgent; mr_assigned_vendor := Some "Acme";
              mr_requested_by := Some "bob"; mr_estimated_cost := Some 45000;
              mr_scheduled_date := None |} in
  let orphan := {| mr_id := "r8"; mr_title := "Gate"; mr_description := Some "stuck";
                   mr_category := security; mr_status := pending;
                   mr_priority := high; mr_assigned_vendor := None;
                   mr_requested_by := None; mr_estimated_cost := None;
                   mr_scheduled_date := Some "2025-03-01" |} in
  let p := payload Sample.runtime Sample.as_admin (Some r)
             (initialFormData (Some r)) in
  let q := payload Sample.runtime Sample.as_admin (Some orphan)
             (initialFormData (Some orphan)) in
  (obj_get p "title" = VStr "Pool pump"
   /\ obj_get p "category" = VStr "pool"
   /\ obj_get p "priority" = VStr "urgent"
   /\ obj_get p "status" = VStr "in_progress"
   /\ obj_get p "scheduled_date" = VNull
   /\ obj_get p "assigned_vendor" = VStr "Acme"
   /\ obj_get p "estimated_cost" = VNum 45000
   /\ obj_get p "requested_by" = VStr "bob"
   /\ obj_get p "description" = VStr "")
  /\ (obj_get q "title" = VStr "Gate"
      /\ obj_get q "category" = VStr "security"
      /\ obj_get q "priority" = VStr "high"
      /\ obj_get q "status" = VStr "pending"
      /\ obj_get q "scheduled_date" = VStr "2025-03-01"
      /\ obj_get q "assigned_vendor" = VNull
      /\ obj_get q "estimated_cost" = VNull
      /\ obj_get q "requested_by" = VStr "alice"
      /\ obj_get q "description" = VStr "stuck").
Proof.
  intros r orphan p q. split.
  - apply (@untouched_edit_round_trip Sample.runtime Sample.as_admin r).
    + reflexivity.
    + exact sample_parseFloat.
    + discriminate.
    + discriminate.
  - apply (@untouched_edit_round_trip Sample.runtime Sample.as_admin orphan).
    + reflexivity.
    + exact sample_parseFloat.
    + discriminate.
    + discriminate.
Defined.

(** X9.  For a signed-in user the buttons of a row are offered exactly when
    the form's own check lets an edit of that row through, and exactly
    when the row passes the filters of the delete and of the update the
    application would send for it. *)
Theorem row_buttons_match_guards (auth : Auth) (u : User) (r : MaintenanceRequest)
    (p : Obj) :
  user auth = Some u ->
  canModify auth r = mayUpdate auth r
  /\ canModify auth r
     = forallb (Postgres.matches Postgres.request_column r)
               (q_filters (handleDelete_query auth (mr_id r)))
  /\ canModify auth r
     = forallb (Postgres.matches Postgres.request_column r)
               (q_filters (update_query auth r p)).
Proof.
  intro Hu. split; [apply canModify_mayUpdate|].
  unfold canModify, handleDelete_query, update_query. rewrite Hu.
  destruct (isAdmin auth); simpl;
    unfold Postgres.request_column; simpl; rewrite String.eqb_refl; simpl.
  - now split.
  - destruct (mr_requested_by r) as [x|]; simpl.
    + destruct (x =? user_id u)%string; simpl; [|now split].
      destruct (mr_status r); now split.
    + now split.
Qed.

Lemma row_buttons_match_guards_witness :
  let r := Sample.request "r1" pending (Some "bob") in
  canModify Sample.as_resident r = mayUpdate Sample.as_resident r
  /\ canModify Sample.as_resident r
     = forallb (Postgres.matches Postgres.request_column r)
               (q_filters (handleDelete_query Sample.as_resident (mr_id r)))
  /\ canModify Sample.as_resident r
     = forallb (Postgres.matches Postgres.request_column r)
               (q_filters (update_query Sample.as_resident r [])).
Proof.
  intro r.
  exact (@row_buttons_match_guards Sample.as_resident Sample.bob r [] eq_refl).
Defined.

End MaintenancePayload.

(** ** Payments page: deleting, loading, creating *)

Section PaymentsMore.

Import PaymentPortal.

(** X10.  [handleDeletePayment]: a declined confirmation does nothing at
    all.  A confirmed one sends one delete on [payments] filtered by the
    payment id alone (no role or status filter is added); the list is
    reloaded exactly when the delete came back without error, otherwise the
    error is logged.  The component state is not touched either way. *)
Theorem handleDeletePayment_outcome (db : Supabase) (confirmed : bool)
    (paymentId : string) (s : State) :
  let run := PaymentActions.handleDeletePayment db confirmed paymentId s in
  let q := from "payments" Delete |> eq_ "id" (VStr paymentId) in
  final_state run = s
  /\ if confirmed
     then queries_of (trace run) = [q]
          /\ q_filters q = [FEq "id" (VStr paymentId)]
          /\ match mutate db q with
             | None => calls_of (trace run) = ["loadData"]
                       /\ errors_of (trace run) = []
             | Some e => calls_of (trace run) = []
                         /\ errors_of (trace run) = [e]
             end
     else trace run = [].
Proof.
  unfold PaymentActions.handleDeletePayment.
  destruct confirmed; unfold_eff; simpl; [|now split].
  destruct (mutate db _); simpl; repeat split.
Qed.

(** X12.  An admin's [loadData] replaces payments and properties together
    or not at all: if either of its two queries fails, both lists stay as
    they were and the error (the payments one first) is logged; the spinner
    is turned off in every case. *)
Theorem loadData_admin_all_or_nothing (u : User) (db : Supabase) (s : State) :
  let run := loadData (with_role u true) db s in
  let paymentsRes := select_payments db admin_payments_query in
  let propertiesRes := select_properties db admin_properties_query in
  loading (final_state run) = false
  /\ match error paymentsRes, error propertiesRes with
     | None, None =>
         payments (final_state run) = data_or_empty (data paymentsRes)
         /\ properties (final_state run) = data_or_empty (data propertiesRes)
         /\ errors_of (trace run) = []
     | Some e, _ | None, Some e =>
         payments (final_state run) = payments s
         /\ properties (final_state run) = properties s
         /\ errors_of (trace run) = [e]
     end.
Proof.
  unfold loadData. unfold_eff. simpl.
  destruct (error (select_payments db _)); simpl; [now repeat split|].
  destruct (error (select_properties db _)); simpl; now repeat split.
Qed.

(** X13.  A resident's [loadData] is staged: once the properties query has
    succeeded the properties are replaced, even if the payments query then
    fails; the payments are replaced only by a successful payments query,
    so a resident who owns no property keeps the payments the state held
    and no payments query is sent. *)
Theorem loadData_resident_staged (u : User) (db : Supabase) (s : State) :
  let auth := with_role u false in
  let run := loadData auth db s in
  let propRes := select_properties db (user_properties_query auth) in
  loading (final_state run) = false
  /\ match error propRes with
     | Some e =>
         payments (final_state run) = payments s
         /\ properties (final_state run) = properties s
         /\ errors_of (trace run) = [e]
     | None =>
         properties (final_state run) = data_or_empty (data propRes)
         /\ match data propRes with
            | Some (p :: ps) =>
                let payRes :=
                  select_payments db
                    (user_payments_query (map prop_id (p :: ps))) in
                match error payRes with
                | Some e =>
                    payments (final_state run) = payments s
                    /\ errors_of (trace run) = [e]
                | None =>
                    payments (final_state run) = data_or_empty (data payRes)
                    /\ errors_of (trace run) = []
                end
            | _ =>
                payments (final_state run) = payments s
                /\ queries_of (trace run) = [user_properties_query auth]
                /\ errors_of (trace run) = []
            end
     end.
Proof.
  unfold loadData. unfold_eff. simpl.
  destruct (error (select_properties db _)); simpl; [now repeat split|].
  destruct (data (select_properties db _)) as [[|p ps]|]; simpl;
    try now repeat split.
  destruct (error (select_payments db _)); simpl; now repeat split.
Qed.


End PaymentsMore.

(** ** Payment card: the methods it can pass and the schema's check *)

Section PaymentMethods.

Import PaymentPortal PaymentCard.

Lemma handlePaymentStatusUpdate_trace (rt : Runtime) (auth : Auth) (db : Supabase)
    (paymentId status : string) (paymentMethod : option string)
    (s : PaymentPortal.State) :
  trace (handlePaymentStatusUpdate rt auth db paymentId status paymentMethod s)
  = Db (update_query rt paymentId status paymentMethod)
    :: match mutate db (update_query rt paymentId status paymentMethod) with
       | Some e => [ConsoleError "Error updating payment:" e]
       | None =>
           map Db (ledger_insert rt auth s paymentId status paymentMethod)
           ++ [Call "loadData"]
       end.
Proof.
  unfold handlePaymentStatusUpdate, ledger_insert. unfold_eff.
  destruct (mutate db (update_query rt paymentId status paymentMethod)); simpl;
    [reflexivity|].
  destruct (find _ (payments s)) as [payment|]; simpl; [|reflexivity].
  destruct (status =? "paid")%string; reflexivity.
Qed.

(** The card only ever holds one of its own buttons' methods. *)
Lemma card_method_offered (inputs : list Input) (s : PaymentCard.State) :
  In (PaymentCard.paymentMethod s) methods ->
  In (PaymentCard.paymentMethod (fold_left onInput inputs s)) methods.
Proof.
  revert s. induction inputs as [|i inputs IH]; intros s Hs; [exact Hs|].
  simpl. apply IH. destruct i as [|n|]; simpl; try exact Hs.
  destruct (nth_error methods n) as [m|] eqn:E; [|exact Hs].
  simpl. now apply nth_error_In in E.
Qed.

Lemma offered_method_passes (m : string) :
  In m methods ->
  Schema.payment_method_check (VStr m) = true /\ m <> "".
Proof.
  simpl. intros [<-|[<-|[<-|[<-|[<-|[]]]]]]; now split.
Qed.

Lemma update_reaches_payment (t : Postgres.Tables) (p : Payment) :
  In p (Postgres.payments t) ->
  existsb (fun p' => forallb (Postgres.matches Postgres.payment_column p')
                             [FEq "id" (VStr (pay_id p))])
          (Postgres.payments t) = true.
Proof.
  intro Hin. apply existsb_exists. exists p. split; [exact Hin|].
  simpl. unfold Postgres.payment_column. simpl.
  now rewrite String.eqb_refl.
Qed.

Lemma schema_update_error (rt : Runtime) (t : Postgres.Tables) (p : Payment)
    (status : string) (paymentMethod : option string) :
  In p (Postgres.payments t) ->
  Schema.payments_update_error t
    (update_query rt (pay_id p) status paymentMethod)
  = if Schema.payment_method_check
         (obj_get (updateData rt status paymentMethod) "payment_method")
       && Schema.payment_status_check
            (obj_get (updateData rt status paymentMethod) "status")
    then None else Some "check_violation".
Proof.
  intro Hin. pose proof (@update_reaches_payment t p Hin) as Hreach.
  unfold Schema.payments_update_error, update_query, eq_, from.
  cbn [q_verb q_table q_filters app]. rewrite Hreach, String.eqb_refl.
  cbn [andb]. now destruct (_ && _).
Qed.

(** X15.  Over a database that enforces the schema's checks, with the
    payment among the loaded ones (distinct ids): whatever is clicked on
    the card, the method its Confirm button passes is one of the five the
    [payment_method] check admits, the update goes through, the ledger
    insert is sent and the list reloaded.  The PayPal button passes
    'paypal', which the check does not admit: the update comes back with a
    check violation, which is logged, and neither the ledger insert nor
    the reload happens. *)
Theorem paypal_method_fails_schema_check
    (rt : Runtime) (auth : Auth) (t : Postgres.Tables) (s : PaymentPortal.State)
    (p : Payment) (inputs : list Input) :
  In p (Postgres.payments t) ->
  NoDup (map pay_id (Postgres.payments t)) ->
  payments s = Postgres.payments t ->
  let db := Schema.client t in
  (let c := fst (confirmPayment p (PaymentCard.run inputs)) in
   let run := dispatch rt auth db c s in
   (exists m, su_method c = Some m /\ In m methods)
   /\ inserts_of (trace run)
      = [from "transactions" (Insert (ledger_row rt auth p (su_method c)))]
   /\ errors_of (trace run) = []
   /\ calls_of (trace run) = ["loadData"])
  /\ (let run := dispatch rt auth db (onPaid p) s in
      queries_of (trace run)
      = [update_query rt (pay_id p) "paid" (Some "paypal")]
      /\ inserts_of (trace run) = []
      /\ errors_of (trace run) = ["check_violation"]
      /\ calls_of (trace run) = []).
Proof.
  intros Hin Hnd Hs db.
  split.
  - set (m := PaymentCard.paymentMethod (PaymentCard.run inputs)).
    assert (Hm : In m methods).
    { apply card_method_offered. simpl. auto. }
    destruct (@offered_method_passes m Hm) as [Hck Htr].
    cbv zeta. unfold dispatch, confirmPayment. simpl fst.
    simpl su_id. simpl su_status. simpl su_method. fold m.
    rewrite handlePaymentStatusUpdate_trace.
    assert (Hok : mutate db (update_query rt (pay_id p) "paid" (Some m)) = None).
    { unfold db, Schema.client, Postgres.client. cbn [mutate].
      rewrite (@schema_update_error rt t p "paid" (Some m) Hin).
      destruct (updateData_paid rt (Some m)) as (Hst & _ & Hmeth).
      rewrite Hst, (Hmeth m eq_refl Htr), Hck. reflexivity. }
    rewrite Hok. unfold ledger_insert.
    rewrite Hs, (@find_by_id p (Postgres.payments t) Hin Hnd). simpl.
    repeat split. now exists m.
  - cbv zeta. unfold dispatch, onPaid. simpl su_id. simpl su_status.
    simpl su_method. rewrite handlePaymentStatusUpdate_trace.
    assert (Hko : mutate db (update_query rt (pay_id p) "paid" (Some "paypal"))
                  = Some "check_violation").
    { unfold db, Schema.client, Postgres.client. cbn [mutate].
      now rewrite (@schema_update_error rt t p "paid" (Some "paypal") Hin). }
    rewrite Hko. repeat split.
Qed.

Lemma paypal_method_fails_schema_check_witness :
  let p := Sample.payment "p1" 15000 monthly_dues p_pending in
  let db := Schema.client Sample.tables in
  (let c := fst (confirmPayment p
                   (PaymentCard.run [ClickMarkAsPaid; ClickMethod 3])) in
   let run := dispatch Sample.runtime Sample.as_admin db c Sample.portal in
   (exists m, su_method c = Some m /\ In m methods)
   /\ inserts_of (trace run)
      = [from "transactions"
           (Insert (ledger_row Sample.runtime Sample.as_admin p (su_method c)))]
   /\ errors_of (trace run) = []
   /\ calls_of (trace run) = ["loadData"])
  /\ (let run := dispatch Sample.runtime Sample.as_admin db (onPaid p)
                   Sample.portal in
      queries_of (trace run)
      = [update_query Sample.runtime (pay_id p) "paid" (Some "paypal")]
      /\ inserts_of (trace run) = []
      /\ errors_of (trace run) = ["check_violation"]
      /\ calls_of (trace run) = []).
Proof.
  intros p db.
  apply (@paypal_method_fails_schema_check Sample.runtime Sample.as_admin
           Sample.tables Sample.portal p [ClickMarkAsPaid; ClickMethod 3]).
  - simpl. auto.
  - simpl. repeat constructor; simpl; intuition discriminate.
  - reflexivity.
Defined.

End PaymentMethods.

(** ** Reports page: the category entries *)

Section CategoryEntries.

Import ReportsPage.

Variables (rt : Runtime) (transactions : list Transaction) (dateRange : DateRange).

Lemma category_totals_fold (l : list Transaction) (v0 : CategoryTotals) :
  fold_left (fun v t => {| ct_amount := ct_amount v + tx_amount t;
                           ct_count := ct_count v + 1 |}) l v0
  = {| ct_amount := ct_amount v0 + reduce_sum tx_amount l;
       ct_count := ct_count v0 + Z.of_nat (List.length l) |}.
Proof.
  revert v0. induction l as [|t l IH]; intro v0; simpl fold_left.
  - rewrite reduce_sum_nil. destruct v0; simpl. f_equal; lia.
  - rewrite IH, reduce_sum_cons. simpl ct_amount. simpl ct_count.
    simpl List.length. f_equal; lia.
Qed.

Lemma first_seen_perm (l : list string) :
  Permutation (nodup string_dec l) (first_seen l).
Proof.
  unfold first_seen. rewrite <- Permutation_rev.
  apply NoDup_Permutation; try apply NoDup_nodup.
  intro x. rewrite !nodup_In. apply in_rev.
Qed.

(** X17.  [getCategoryData] returns, in some order, exactly one entry for
    each category that occurs among the date-filtered transactions of the
    type: its amount is the sum of the amounts of that category's
    transactions of the type, its count their number, and its label the
    category with underscores turned into spaces. *)
Theorem category_entries (type : TransactionType) :
  let filtered := filterTransactionsByDateRange rt dateRange transactions in
  Permutation (getCategoryData rt transactions dateRange type)
              (map (category_row type filtered) (categories_of type filtered))
  /\ NoDup (categories_of type filtered)
  /\ (forall c, In c (categories_of type filtered)
                <-> exists t, In t filtered /\ tx_type t = type
                              /\ tx_category t = c).
Proof.
  intro filtered. split; [|split].
  - unfold getCategoryData. fold filtered.
    rewrite sort_perm, categoryMap_of_group.
    rewrite (Permutation_map _ (fold_step_entries tx_category _ _ _)).
    unfold categories_of.
    rewrite (Permutation_map _ (Permutation_map _ (first_seen_perm _))).
    rewrite !map_map. apply Permutation_refl'. apply map_ext. intro c.
    unfold category_entry, category_row, group_value, of_category.
    rewrite filter_both, category_totals_fold. simpl.
    reflexivity.
  - unfold categories_of, first_seen. apply NoDup_rev, NoDup_nodup.
  - intro c. unfold categories_of, first_seen.
    rewrite <- in_rev, nodup_In, <- in_rev, in_map_iff. split.
    + intros (t & Hc & Hin). apply filter_In in Hin as [Hin Hty].
      exists t. repeat split; try assumption.
      revert Hty. destruct (tx_type t), type; intro Hty; vm_compute in Hty;
        congruence.
    + intros (t & Hin & Hty & Hc). exists t. split; [exact Hc|].
      apply filter_In. split; [exact Hin|]. subst type. now destruct (tx_type t).
Qed.

(** X18.  The breakdown component shows its 'No data' notice exactly when
    no date-filtered transaction has the type; otherwise the number of
    transactions by which it divides the total for the average is the
    number of those transactions, hence positive. *)
Theorem breakdown_notice_and_divisor (type : TransactionType) :
  let of_type :=
    filter (fun t => TransactionType_eqb (tx_type t) type)
           (filterTransactionsByDateRange rt dateRange transactions) in
  let data := getCategoryData rt transactions dateRange type in
  (CategoryBreakdown.shows_notice data = true <-> of_type = [])
  /\ CategoryBreakdown.transactions_count data = Z.of_nat (List.length of_type)
  /\ (CategoryBreakdown.shows_notice data = false ->
      0 < CategoryBreakdown.transactions_count data).
Proof.
  intros of_type data.
  assert (Hcount : CategoryBreakdown.transactions_count data
                   = Z.of_nat (List.length of_type)).
  { unfold CategoryBreakdown.transactions_count, data, getCategoryData.
    fold of_type. rewrite (reduce_sum_perm count (sort_perm _ _)).
    apply categoryMap_counts. }
  assert (Hnil : of_type = [] -> data = []).
  { intro E. unfold data, getCategoryData. fold of_type. now rewrite E. }
  split; [|split; [exact Hcount|]].
  - split.
    + intro H. destruct data as [|e data'] eqn:E; [|discriminate].
      unfold CategoryBreakdown.transactions_count in Hcount.
      rewrite reduce_sum_nil in Hcount.
      destruct of_type; [reflexivity|simpl in Hcount; lia].
    + intro E. now rewrite (Hnil E).
  - intro H. rewrite Hcount.
    destruct of_type as [|t l]; [|simpl; lia].
    now rewrite (Hnil eq_refl) in H.
Qed.

(** X19.  The monthly entries come ordered by their label, as
    [localeCompare] orders text, provided [localeCompare] can compare any
    two labels one way or the other; the order is that of the labels, not
    of the dates. *)
Theorem monthly_entries_ordered_by_label :
  (forall a b, localeCompare rt a b <= 0 \/ localeCompare rt b a <= 0) ->
  Sorted (fun a b => localeCompare rt (month a) (month b) <= 0)
         (getMonthlyData rt transactions dateRange).
Proof.
  intro Htotal. unfold getMonthlyData.
  apply (sort_sorted (fun a b => localeCompare rt (month a) (month b))).
  intros a b. apply Htotal.
Qed.

End CategoryEntries.

Lemma breakdown_notice_and_divisor_witness :
  0 < CategoryBreakdown.transactions_count
        (ReportsPage.getCategoryData Sample.runtime Sample.transactions
           ReportsPage.d90 t_expense).
Proof.
  apply (breakdown_notice_and_divisor Sample.runtime Sample.transactions
           ReportsPage.d90 t_expense).
  reflexivity.
Defined.

Lemma sample_localeCompare_total (a b : string) :
  localeCompare Sample.runtime a b <= 0 \/ localeCompare Sample.runtime b a <= 0.
Proof.
  simpl. pose proof (String.compare_antisym a b) as H.
  destruct (String.compare a b), (String.compare b a); simpl in H;
    try discriminate H; lia.
Qed.

Lemma monthly_entries_ordered_by_label_witness :
  Sorted (fun a b => localeCompare Sample.runtime (ReportsPage.month a)
                       (ReportsPage.month b) <= 0)
         (ReportsPage.getMonthlyData Sample.runtime Sample.transactions
            ReportsPage.d90).
Proof.
  apply (@monthly_entries_ordered_by_label Sample.runtime Sample.transactions
           ReportsPage.d90).
  exact sample_localeCompare_total.
Defined.

(** ** Income statement *)

Section IncomeStatementFacts.

Import IncomeStatement.

Lemma add_to_group (m : JsMap Z) (t : Transaction) :
  add_to m t = group_step tx_category 0 (fun t v => v + tx_amount t) m t.
Proof.
  unfold add_to, group_step.
  destruct (map_has m (tx_category t)) eqn:H; simpl.
  - induction m as [|[k v] m IH]; [discriminate|].
    unfold get_or_zero in *. simpl in *.
    destruct (k =? tx_category t)%string; simpl in *.
    + f_equal. f_equal. destruct (Z.eqb_spec v 0); lia.
    + f_equal. now apply IH.
  - rewrite !(@map_set_absent _ m (tx_category t) _ H).
    rewrite (@map_mutate_app_absent _ m (tx_category t) 0 _ H).
    unfold get_or_zero. apply map_get_none in H. now rewrite H.
Qed.

Lemma fold_step_split (l : list Transaction) (a b : JsMap Z) :
  fold_left step l (a, b)
  = (fold_left add_to
       (filter (fun t => TransactionType_eqb (tx_type t) t_income) l) a,
     fold_left add_to
       (filter (fun t => TransactionType_eqb (tx_type t) t_expense) l) b).
Proof.
  revert a b. induction l as [|t l IH]; intros a b; [reflexivity|].
  simpl. unfold step at 2. destruct (tx_type t); simpl; apply IH.
Qed.

Lemma fold_add_to_group (l : list Transaction) (m : JsMap Z) :
  fold_left add_to l m
  = fold_left (group_step tx_category 0 (fun t v => v + tx_amount t)) l m.
Proof.
  revert m. induction l as [|t l IH]; intro m; [reflexivity|].
  simpl. now rewrite add_to_group, IH.
Qed.

Lemma amounts_fold (l : list Transaction) (v0 : Z) :
  fold_left (fun v t => v + tx_amount t) l v0 = v0 + reduce_sum tx_amount l.
Proof. unfold reduce_sum. now rewrite fold_sum_shift. Qed.

Lemma by_category_lines (ty : TransactionType) (filtered : list Transaction) :
  map line
    (fold_left add_to
       (filter (fun t => TransactionType_eqb (tx_type t) ty) filtered) [])
  = map (statement_line ty filtered) (categories_of ty filtered).
Proof.
  rewrite fold_add_to_group, fold_step_list, map_map.
  unfold categories_of. apply map_ext. intro c.
  unfold line, statement_line, group_value, of_category.
  rewrite amounts_fold, filter_both. reflexivity.
Qed.

Variables (rt : Runtime) (transactions : list Transaction) (payments : list Payment)
          (period : FinancialStatements.Period).

(** X21.  The lines of the income statement are not sorted: revenue and
    expenses each list one line per category, in the order in which the
    categories first appear among the period's transactions of that type,
    with the category's total and with underscores in its name turned into
    spaces. *)
Theorem income_statement_lines :
  let filtered := FinancialStatements.filterByPeriod rt period transactions in
  let st := generateIncomeStatement rt transactions period in
  income st = map (statement_line t_income filtered) (categories_of t_income filtered)
  /\ expenses st
     = map (statement_line t_expense filtered) (categories_of t_expense filtered).
Proof.
  intros filtered st. unfold st, generateIncomeStatement. fold filtered.
  rewrite fold_step_split. cbn [fst snd income expenses].
  split; apply by_category_lines.
Qed.

End IncomeStatementFacts.

(** ** Dashboard: what the figures cover *)

Section DashboardMore.

Import Dashboard.

Lemma disjoint_filters_length {A : Type} (P Q : A -> bool) (l : list A) :
  (forall x, P x = true -> Q x = false) ->
  (List.length (filter P l) + List.length (filter Q l) <= List.length l)%nat.
Proof.
  intro H. induction l as [|x l IH]; simpl; [lia|].
  destruct (P x) eqn:E.
  - rewrite (H x E). simpl. lia.
  - destruct (Q x); simpl; lia.
Qed.

(** X23.  The maintenance figures of the dashboard are counted over the
    five most recent requests only (the query has [limit(5)]): over a
    database that honours the limit, upcoming and active together never
    exceed 5, however many requests are pending or in progress, and at most
    five recent requests and five recent transactions are listed. *)
Theorem dashboard_maintenance_counts_capped (t : Postgres.Tables)
    (failure : Query -> option string) (s : State) :
  let final := final_state (loadDashboardData (Postgres.client t failure) s) in
  0 <= upcomingMaintenance (stats final)
  /\ 0 <= activeMaintenance (stats final)
  /\ upcomingMaintenance (stats final) + activeMaintenance (stats final) <= 5
  /\ (List.length (recentMaintenance final) <= 5)%nat
  /\ (List.length (recentTransactions final) <= 5)%nat.
Proof.
  set (ms := data_or_empty
               (data (select_requests (Postgres.client t failure)
                        maintenance_query))).
  set (ts := data_or_empty
               (data (select_transactions (Postgres.client t failure)
                        transactions_query))).
  assert (Hms : (List.length ms <= 5)%nat).
  { exact (firstn_le_length 5
             (Postgres.ordered Postgres.request_column (q_order maintenance_query)
                (filter (fun row => forallb (Postgres.matches
                                               Postgres.request_column row)
                                            (q_filters maintenance_query))
                        (Postgres.maintenance_requests t)))). }
  assert (Hfinal :
            final_state (loadDashboardData (Postgres.client t failure) s)
            = setLoading false
                (setRecentMaintenance ms
                   (setRecentTransactions (firstn 5 ts)
                      (setStats
                         {| totalIncome :=
                              reduce_sum tx_amount
                                (filter (fun x => TransactionType_eqb (tx_type x)
                                                    t_income) ts);
                            totalExpenses :=
                              reduce_sum tx_amount
                                (filter (fun x => TransactionType_eqb (tx_type x)
                                                    t_expense) ts);
                            balance :=
                              reduce_sum tx_amount
                                (filter (fun x => TransactionType_eqb (tx_type x)
                                                    t_income) ts)
                              - reduce_sum tx_amount
                                  (filter (fun x => TransactionType_eqb (tx_type x)
                                                      t_expense) ts);
                            pendingPayments :=
                              reduce_sum pay_amount
                                (data_or_empty
                                   (data (select_payments
                                            (Postgres.client t failure)
                                            payments_query)));
                            upcomingMaintenance := count_status pending ms;
                            activeMaintenance := count_status in_progress ms |}
                         s))))
    by reflexivity.
  cbv zeta. rewrite Hfinal.
  cbn [stats setStats setLoading setRecentTransactions setRecentMaintenance
       upcomingMaintenance activeMaintenance recentMaintenance
       recentTransactions].
  unfold count_status.
  pose proof (disjoint_filters_length
                (fun m => (MaintenanceStatus_str (mr_status m)
                           =? MaintenanceStatus_str pending)%string)
                (fun m => (MaintenanceStatus_str (mr_status m)
                           =? MaintenanceStatus_str in_progress)%string)
                ms) as Hdis.
  assert (Hd : forall x : MaintenanceRequest,
             (MaintenanceStatus_str (mr_status x)
              =? MaintenanceStatus_str pending)%string = true ->
             (MaintenanceStatus_str (mr_status x)
              =? MaintenanceStatus_str in_progress)%string = false)
    by (intro x; now destruct (mr_status x)).
  specialize (Hdis Hd).
  repeat split; try lia.
  apply firstn_le_length.
Qed.

(** X24.  The dashboard never reports a database failure: it always sends
    its three queries, logs nothing and ends with the spinner off; when the
    three answers carry no data, every figure is 0 and both lists are
    empty. *)
Theorem dashboard_swallows_failures (db : Supabase) (s : State) :
  let run := loadDashboardData db s in
  List.length (queries_of (trace run)) = 3%nat
  /\ errors_of (trace run) = []
  /\ loading (final_state run) = false
  /\ (data (select_transactions db transactions_query) = None ->
      data (select_payments db payments_query) = None ->
      data (select_requests db maintenance_query) = None ->
      stats (final_state run)
      = {| totalIncome := 0; totalExpenses := 0; balance := 0;
           pendingPayments := 0; upcomingMaintenance := 0;
           activeMaintenance := 0 |}
      /\ recentTransactions (final_state run) = []
      /\ recentMaintenance (final_state run) = []).
Proof.
  unfold loadDashboardData. unfold_eff. cbn [fst snd].
  split; [reflexivity|split; [reflexivity|split; [reflexivity|]]].
  intros Ht Hp Hm. cbn. rewrite Ht, Hp, Hm. repeat split.
Qed.

Lemma dashboard_swallows_failures_witness :
  stats (final_state (loadDashboardData Offline.db initialState))
  = {| totalIncome := 0; totalExpenses := 0; balance := 0;
       pendingPayments := 0; upcomingMaintenance := 0;
       activeMaintenance := 0 |}
  /\ recentTransactions (final_state (loadDashboardData Offline.db initialState))
     = []
  /\ recentMaintenance (final_state (loadDashboardData Offline.db initialState))
     = [].
Proof.
  apply (dashboard_swallows_failures Offline.db initialState); reflexivity.
Defined.

End DashboardMore.

(** ** Sign-in form: banners and submissions *)

Section LoginFormMore.

Import LoginForm.

(** X25.  The form never shows the error banner and the success banner at
    once: in every state a session can reach, the error text or the
    success text is empty. *)
Theorem banners_exclude_each_other (steps : list Step) :
  error_ (run steps) = "" \/ success (run steps) = "".
Proof.
  unfold run.
  assert (H : error_ initialState = "" \/ success initialState = "")
    by now left.
  revert H. generalize initialState.
  induction steps as [|x steps IH]; intros s Hs; [exact Hs|].
  simpl. apply IH. destruct x as [i|failure]; simpl.
  - destruct i; simpl; auto.
  - destruct failure as [msg|]; simpl; [now right|].
    destruct (mode s); simpl; now left.
Qed.

(** A submission that fails changes nothing the user typed or chose:
    mode, email, password, name and role stay, the banner shows the error's
    message or, if it has none, 'Failed to sign in' or 'Failed to create
    account'.  A registration that succeeds returns to sign-in mode with
    the password cleared and the email kept.  Either way the button is
    released. *)
Theorem submission_outcome (failure : option string) (s : State) :
  let s' := snd (handleSubmit failure s) in
  loading s' = false
  /\ email s' = email s /\ fullName s' = fullName s /\ role s' = role s
  /\ match failure with
     | Some msg =>
         mode s' = mode s /\ password s' = password s
         /\ success s' = "" /\ error_ s' <> ""
         /\ (msg <> "" -> error_ s' = msg)
         /\ (msg = "" ->
             error_ s' = match mode s with
                         | login => "Failed to sign in"
                         | register => "Failed to create account"
                         end)
     | None =>
         mode s' = login /\ error_ s' = ""
         /\ match mode s with
            | login => password s' = password s /\ success s' = ""
            | register => password s' = "" /\ success s' <> ""
            end
     end.
Proof.
  unfold handleSubmit. simpl.
  destruct failure as [msg|]; simpl.
  - repeat split.
    + destruct (String.eqb_spec msg ""); simpl; [|assumption].
      destruct (mode s); discriminate.
    + intro H. apply String.eqb_neq in H. now rewrite H.
    + intros ->. simpl. now destruct (mode s).
  - destruct (mode s); simpl; repeat split; discriminate.
Qed.

End LoginFormMore.

(** ** Profiles: what the trigger does to the table *)

Section ProfilesMore.

Import Profiles.

Lemma is_admin_app (uid : string) (t1 t2 : list Row) :
  is_admin uid (t1 ++ t2) = is_admin uid t1 || is_admin uid t2.
Proof. unfold is_admin. apply existsb_app. Qed.

(** X26.  The trigger never touches an existing profile: the table it
    leaves begins with the table it found, so a role once stored is never
    changed by a later sign-up, and firing it again for the same user
    changes nothing. *)
Theorem trigger_keeps_existing_profiles (NEW : AuthUser) (table table' : list Row) :
  handle_new_user NEW table = inl table' ->
  (exists added, table' = table ++ added /\ (List.length added <= 1)%nat)
  /\ (forall uid, In uid (map id table) ->
                  is_admin uid table' = is_admin uid table)
  /\ handle_new_user NEW table' = inl table'.
Proof.
  intro H. pose proof (handle_new_user_cases NEW table) as C.
  pose proof (handle_new_user_cases NEW table') as C'.
  destruct (au_email NEW) as [e|]; [|congruence]. cbv zeta in *.
  destruct (negb (role_check _)); [congruence|].
  destruct (existsb (fun x => (id x =? au_id NEW)%string) table) eqn:Eid.
  - rewrite C in H. injection H as <-. rewrite Eid in C'.
    repeat split; try assumption.
    exists []. rewrite app_nil_r. split; [reflexivity|simpl; lia].
  - destruct (existsb (fun x => (email x =? e)%string) table); [congruence|].
    rewrite C in H. injection H as <-.
    split; [|split].
    + eexists. split; [reflexivity|simpl; lia].
    + intros uid Hin. rewrite is_admin_app. unfold is_admin at 2. simpl.
      destruct (String.eqb_spec (au_id NEW) uid) as [<-|_]; simpl.
      * exfalso. apply in_map_iff in Hin as (x & Hx & Hin).
        assert (existsb (fun x => (id x =? au_id NEW)%string) table = true).
        { apply existsb_exists. exists x. split; [exact Hin|].
          now apply String.eqb_eq. }
        congruence.
      * now rewrite orb_false_r.
    + rewrite existsb_app in C'. simpl in C'.
      rewrite String.eqb_refl, orb_true_r in C'. exact C'.
Qed.

Lemma trigger_keeps_existing_profiles_witness :
  (exists added, [Sample.carol_row] = [] ++ added /\ (List.length added <= 1)%nat)
  /\ (forall uid, In uid (map id []) ->
                  is_admin uid [Sample.carol_row] = is_admin uid [])
  /\ handle_new_user Sample.carol [Sample.carol_row] = inl [Sample.carol_row].
Proof.
  apply (@trigger_keeps_existing_profiles Sample.carol [] [Sample.carol_row]).
  reflexivity.
Defined.

(** X28.  Who becomes an admin by signing up: when the trigger creates a
    profile for a user who had none, [is_admin] holds of that user exactly
    when the sign-up metadata carried the role 'admin'; a sign-up without a
    role gives a resident. *)
Theorem sign_up_admin_iff_requested (NEW : AuthUser) (table table' : list Row) :
  handle_new_user NEW table = inl table' ->
  ~ In (au_id NEW) (map id table) ->
  is_admin (au_id NEW) table'
  = match raw_user_meta_data NEW "role" with
    | Some r => (r =? "admin")%string
    | None => false
    end.
Proof.
  intros H Hnew. pose proof (handle_new_user_cases NEW table) as C.
  destruct (au_email NEW) as [e|]; [|congruence]. cbv zeta in C.
  destruct (negb (role_check _)); [congruence|].
  assert (Eid : existsb (fun x => (id x =? au_id NEW)%string) table = false).
  { destruct (existsb _ table) eqn:E; [|reflexivity].
    exfalso. apply Hnew. apply existsb_exists in E as (x & Hin & Hx).
    apply String.eqb_eq in Hx. rewrite <- Hx. now apply in_map. }
  rewrite Eid in C.
  destruct (existsb (fun x => (email x =? e)%string) table); [congruence|].
  rewrite C in H. injection H as <-.
  rewrite is_admin_app.
  assert (Hold : is_admin (au_id NEW) table = false).
  { unfold is_admin.
    destruct (existsb (fun p => (id p =? au_id NEW)%string
                                && (role p =? "admin")%string) table) eqn:E;
      [|reflexivity].
    exfalso. apply Hnew. apply existsb_exists in E as (x & Hin & Hx).
    apply andb_true_iff in Hx as [Hx _]. apply String.eqb_eq in Hx.
    rewrite <- Hx. now apply in_map. }
  rewrite Hold. unfold is_admin. simpl. rewrite String.eqb_refl. simpl.
  destruct (raw_user_meta_data NEW "role"); [now rewrite orb_false_r|reflexivity].
Qed.

Lemma sign_up_admin_iff_requested_witness :
  is_admin (au_id Sample.carol) [Sample.carol_row] = true.
Proof.
  apply (@sign_up_admin_iff_requested Sample.carol [] [Sample.carol_row]).
  - reflexivity.
  - simpl. tauto.
Defined.

(** X29.  When the trigger fails, and by that aborts the sign-up: exactly
    when the new user has no email, or carries a role other than 'admin'
    and 'resident', or has a new id but an email some profile already
    uses.  A missing name never makes it fail: the name falls back to the
    part of the email before the '@'. *)
Theorem trigger_failures (NEW : AuthUser) (table : list Row) :
  (exists err, handle_new_user NEW table = inr err)
  <-> au_email NEW = None
      \/ (exists r, raw_user_meta_data NEW "role" = Some r
                    /\ r <> "admin" /\ r <> "resident")
      \/ (~ In (au_id NEW) (map id table)
          /\ exists e, au_email NEW = Some e /\ In e (map email table)).
Proof.
  pose proof (handle_new_user_cases NEW table) as C.
  destruct (au_email NEW) as [e|].
  2:{ split; [now left|]. intros _. now exists "not_null_violation". }
  cbv zeta in C.
  assert (Hid : existsb (fun x => (id x =? au_id NEW)%string) table = true
                <-> In (au_id NEW) (map id table))
    by apply existsb_column.
  assert (Hem : existsb (fun x => (email x =? e)%string) table = true
                <-> In e (map email table))
    by apply existsb_column.
  destruct (role_check _) eqn:Hck; simpl in C.
  - assert (Hvalid : forall r, raw_user_meta_data NEW "role" = Some r ->
                               r <> "admin" -> r <> "resident" -> False).
    { intros r Hr Ha Hres. rewrite Hr in Hck.
      apply role_check_valid in Hck as [?|?]; contradiction. }
    destruct (existsb (fun x => (id x =? au_id NEW)%string) table) eqn:Eid.
    + split.
      * intros (err & H). congruence.
      * intros [H|[(r & Hr & Ha & Hres)|(Hnew & _)]];
          [discriminate|now destruct (Hvalid r)|].
        exfalso. apply Hnew. now apply Hid.
    + destruct (existsb (fun x => (email x =? e)%string) table) eqn:Eem.
      * split; [|intros _; eauto].
        intros _. right. right. split.
        -- intro Hin. apply Hid in Hin. congruence.
        -- exists e. split; [reflexivity|]. now apply Hem.
      * split.
        -- intros (err & H). congruence.
        -- intros [H|[(r & Hr & Ha & Hres)|(_ & e' & [= <-] & Hin)]];
             [discriminate|now destruct (Hvalid r)|].
           apply Hem in Hin. congruence.
  - split; [|intros _; eauto].
    intros _. right. left.
    destruct (raw_user_meta_data NEW "role") as [r|]; [|discriminate].
    exists r. split; [reflexivity|].
    unfold role_check in Hck. apply orb_false_iff in Hck as [Ha Hres].
    apply String.eqb_neq in Ha, Hres. now split.
Qed.

Lemma trigger_failures_witness :
  exists err,
    handle_new_user
      {| au_id := "dave"; au_email := Some "dave@hoa.com";
         raw_user_meta_data := fun k =>
           if (k =? "role")%string then Some "owner" else None |}
      [Sample.carol_row]
    = inr err.
Proof.
  apply (trigger_failures
           {| au_id := "dave"; au_email := Some "dave@hoa.com";
              raw_user_meta_data := fun k =>
                if (k =? "role")%string then Some "owner" else None |}
           [Sample.carol_row]).
  right. left. exists "owner". repeat split; discriminate.
Defined.

End ProfilesMore.
